(** * pullrequest-init: the GitHub handler of cmd/pullrequest-init

    A shallow embedding of [NewGitHubHandler], [Download] and [Upload]
    (github.go), of the generic pull-request model and of [main] (main.go)
    and of the fake GitHub server and the fixtures of the tests
    (fake_github.go, github_test.go), followed by the properties of the
    synchronisation engine: URL resolution, the snapshot written by
    [Download], the calls by which [Upload] reconciles the provider with
    the record on disk, what a failing run leaves behind, and how the two
    compose with each other and with the fake server.

    Go values are modelled as follows.  A [string] is Rocq's [string] (a
    sequence of bytes); [int] and [int64] are [Z], with the range checks
    written out where the code performs them; a Go [map] is a [gmap], with
    the order of [range] over it left as a parameter; a slice that may be
    [nil] is a [slice]; a pointer to a struct of go-github is an [option];
    an [error] is its message.  A handler method is a function from the
    world (the provider behind [*github.Client], and the files) to its
    result, the world it leaves and the calls it issued.  The functions of
    the Go standard library that the handler calls ([url.Parse],
    [strings.Split], [strconv.Atoi], [filepath.Join]) are modelled in
    [Go]; [encoding/json] is modelled by the values it encodes. *)

From Stdlib Require Import ZArith Lia Ascii String List Permutation.
From stdpp Require Import base option list gmap strings pretty.

Set Warnings "-register-all".

Open Scope string_scope.
Open Scope list_scope.
Open Scope Z_scope.

(** ** Go runtime and standard library *)

Module Go.

(** A Go [error] value, identified with the message it carries. *)
Definition error : Type := string.

(** The result of a Go function that returns [(T, error)]. *)
Inductive Result (A : Type) : Type :=
| Ok (a : A)
| Err (e : error).
Arguments Ok {A} a.
Arguments Err {A} e.

Definition is_Ok {A} (r : Result A) : bool :=
  match r with Ok _ => true | Err _ => false end.

Definition failure {A} (r : Result A) : option error :=
  match r with Ok _ => None | Err e => Some e end.

(** A Go slice: [nil], or a (possibly empty) backing sequence.  Only the
    distinction that [encoding/json] observes ([null] against [[]]) is
    kept; capacity is not. *)
Inductive slice (A : Type) : Type :=
| nil_slice
| mk_slice (elems : list A).
Arguments nil_slice {A}.
Arguments mk_slice {A} elems.

(** [range s] / indexing: the elements of the slice, none for [nil]. *)
Definition elems {A} (s : slice A) : list A :=
  match s with nil_slice => [] | mk_slice l => l end.

Definition len {A} (s : slice A) : nat := length (elems s).

Definition is_nil {A} (s : slice A) : bool :=
  match s with nil_slice => true | mk_slice _ => false end.

(** [make([]T, 0, n)]: a non-nil slice of length zero. *)
Definition make {A} (capacity : nat) : slice A := mk_slice [].

(** [append(s, x)]. *)
Definition append {A} (s : slice A) (x : A) : slice A :=
  mk_slice (elems s ++ [x]).

(** *** package strings *)

Fixpoint split_byte (sep : ascii) (s : string) : list string :=
  match s with
  | EmptyString => [EmptyString]
  | String c rest =>
      if Ascii.eqb c sep then EmptyString :: split_byte sep rest
      else match split_byte sep rest with
           | seg :: segs => String c seg :: segs
           | [] => [String c EmptyString]
           end
  end.

(** [strings.Split(s, sep)] for a one-byte separator, the only form the
    handler uses ([strings.Split(u.Path, "/")]). *)
Definition strings_Split (s : string) (sep : ascii) : list string :=
  split_byte sep s.

Fixpoint index_byte (c : ascii) (s : string) : option nat :=
  match s with
  | EmptyString => None
  | String d rest =>
      if Ascii.eqb d c then Some O else S <$> index_byte c rest
  end.

(** [strings.Cut(s, sep)] for a one-byte separator: the text before the
    first [sep], and the text after it when there is one. *)
Fixpoint cut_byte (c : ascii) (s : string) : string * option string :=
  match s with
  | EmptyString => (EmptyString, None)
  | String d rest =>
      if Ascii.eqb d c then (EmptyString, Some rest)
      else let '(before, after) := cut_byte c rest in (String d before, after)
  end.

Fixpoint count_byte (c : ascii) (s : string) : nat :=
  match s with
  | EmptyString => O
  | String d rest => ((if Ascii.eqb d c then 1 else 0) + count_byte c rest)%nat
  end.

Fixpoint last_byte (s : string) : option ascii :=
  match s with
  | EmptyString => None
  | String d EmptyString => Some d
  | String _ rest => last_byte rest
  end.

Fixpoint drop_last (s : string) : string :=
  match s with
  | EmptyString => EmptyString
  | String _ EmptyString => EmptyString
  | String d rest => String d (drop_last rest)
  end.

(** *** package strconv *)

Definition digit_value (c : ascii) : option Z :=
  let n := Z.of_nat (nat_of_ascii c) in
  if (48 <=? n) && (n <=? 57) then Some (n - 48) else None.

Fixpoint parse_digits (acc : Z) (s : string) : option Z :=
  match s with
  | EmptyString => Some acc
  | String c rest =>
      match digit_value c with
      | Some d => parse_digits (10 * acc + d) rest
      | None => None
      end
  end.

Definition MaxInt : Z := 2 ^ 63 - 1.
Definition MinInt : Z := - 2 ^ 63.

(** [strconv.Atoi]: an optional sign, then one or more decimal digits; the
    value has to fit the 64-bit [int]. *)
Definition strconv_Atoi (s : string) : Result Z :=
  let '(negative, body) :=
    match s with
    | String "-" rest => (true, rest)
    | String "+" rest => (false, rest)
    | _ => (false, s)
    end in
  match body with
  | EmptyString => Err "strconv.Atoi: invalid syntax"
  | _ =>
      match parse_digits 0 body with
      | None => Err "strconv.Atoi: invalid syntax"
      | Some n =>
          let v := if negative then - n else n in
          if (MinInt <=? v) && (v <=? MaxInt) then Ok v
          else Err "strconv.Atoi: value out of range"
      end
  end.

(** [strconv.ParseUint(s, 10, 64)] on a non-empty [s]: the digits are read
    from the left into [n]; a byte that is no digit is a syntax error where
    it is met, and the value leaving the 64 bits is a range error where it
    does. *)
Definition maxUint64 : Z := 2 ^ 64 - 1.

Fixpoint ParseUint_from (n : Z) (s : string) : Result Z :=
  match s with
  | EmptyString => Ok n
  | String c rest =>
      match digit_value c with
      | None => Err "invalid syntax"
      | Some d =>
          if maxUint64 / 10 + 1 <=? n then Err "value out of range"
          else
            let n1 := 10 * n + d in
            if maxUint64 <? n1 then Err "value out of range"
            else ParseUint_from n1 rest
      end
  end.

(** [strconv.ParseInt(s, 10, 64)]: an optional sign, then
    [strconv.ParseUint] on the rest, then the range of [int64].  The error
    keeps the function and the kind of failure; the quoted input that Go
    puts in its text is left out. *)
Definition strconv_ParseInt (s : string) : Result Z :=
  match s with
  | EmptyString => Err "strconv.ParseInt: invalid syntax"
  | _ =>
      let '(neg, body) :=
        match s with
        | String "+" rest => (false, rest)
        | String "-" rest => (true, rest)
        | _ => (false, s)
        end in
      match body with
      | EmptyString => Err "strconv.ParseInt: invalid syntax"
      | _ =>
          match ParseUint_from 0 body with
          | Err e => Err ("strconv.ParseInt: " +:+ e)
          | Ok un =>
              let cutoff := 2 ^ 63 in
              if negb neg && (cutoff <=? un)
              then Err "strconv.ParseInt: value out of range"
              else if neg && (cutoff <? un)
              then Err "strconv.ParseInt: value out of range"
              else Ok (if neg then - un else un)
          end
      end
  end.

(** *** package net/url *)

(** The fields of [url.URL] that [url.Parse] fills in.  The handler reads
    [Path] only. *)
Record URL : Type := mkURL {
  Scheme : string;
  Opaque : string;
  Host : string;
  Path : string;
  RawQuery : string;
  Fragment : string;
}.

Definition is_alpha (c : ascii) : bool :=
  let n := nat_of_ascii c in
  ((97 <=? n) && (n <=? 122) || (65 <=? n) && (n <=? 90))%nat.

Definition is_scheme_extra (c : ascii) : bool :=
  let n := nat_of_ascii c in
  ((48 <=? n) && (n <=? 57))%nat
  || Ascii.eqb c "+" || Ascii.eqb c "-" || Ascii.eqb c ".".

Definition to_lower (c : ascii) : ascii :=
  let n := nat_of_ascii c in
  if ((65 <=? n) && (n <=? 90))%nat then ascii_of_nat (n + 32) else c.

Fixpoint lower (s : string) : string :=
  match s with
  | EmptyString => EmptyString
  | String c rest => String (to_lower c) (lower rest)
  end.

(** [getScheme]: splits off a leading [scheme:].  [first] tells whether the
    byte at hand is the first of the URL, [acc] is the text read so far and
    [whole] the URL itself. *)
Fixpoint getScheme_from (first : bool) (acc : string) (s : string) (whole : string)
  : Result (string * string) :=
  match s with
  | EmptyString => Ok (EmptyString, whole)
  | String c rest =>
      if is_alpha c then getScheme_from false (acc +:+ String c EmptyString) rest whole
      else if is_scheme_extra c then
        if first then Ok (EmptyString, whole)
        else getScheme_from false (acc +:+ String c EmptyString) rest whole
      else if Ascii.eqb c ":" then
        if first then Err "missing protocol scheme"
        else Ok (acc, rest)
      else Ok (EmptyString, whole)
  end.

Definition getScheme (rawURL : string) : Result (string * string) :=
  getScheme_from true EmptyString rawURL rawURL.

Definition is_ctl (c : ascii) : bool :=
  let n := nat_of_ascii c in ((n <? 32) || (n =? 127))%nat.

Fixpoint stringContainsCTLByte (s : string) : bool :=
  match s with
  | EmptyString => false
  | String c rest => is_ctl c || stringContainsCTLByte rest
  end.

Definition unhex (c : ascii) : option nat :=
  let n := nat_of_ascii c in
  if ((48 <=? n) && (n <=? 57))%nat then Some (n - 48)%nat
  else if ((97 <=? n) && (n <=? 102))%nat then Some (n - 87)%nat
  else if ((65 <=? n) && (n <=? 70))%nat then Some (n - 55)%nat
  else None.

(** [unescape] in the modes used for a path and for a fragment: every [%]
    has to be followed by two hexadecimal digits, which it decodes. *)
Fixpoint unescape (s : string) : Result string :=
  match s with
  | EmptyString => Ok EmptyString
  | String "%" (String h (String l rest)) =>
      match unhex h, unhex l, unescape rest with
      | Some a, Some b, Ok t => Ok (String (ascii_of_nat (16 * a + b)) t)
      | Some _, Some _, Err e => Err e
      | _, _, _ => Err "invalid URL escape"
      end
  | String "%" _ => Err "invalid URL escape"
  | String c rest =>
      match unescape rest with
      | Ok t => Ok (String c t)
      | Err e => Err e
      end
  end.

Definition has_prefix (p s : string) : bool := String.prefix p s.

Definition after_last_at (authority : string) : string :=
  List.last (split_byte "@" authority) EmptyString.

(** The unexported [parse(rawURL, false)] of net/url.  The syntax checks of
    [parseAuthority] on the user-info and host part are not modelled: the
    authority is kept as written. *)
Definition url_parse (rawURL : string) : Result URL :=
  if stringContainsCTLByte rawURL
  then Err "net/url: invalid control character in URL"
  else if String.eqb rawURL "*" then Ok (mkURL "" "" "" "*" "" "")
  else
    match getScheme rawURL with
    | Err e => Err e
    | Ok (scheme, rest) =>
        let scheme := lower scheme in
        let '(rest, query) :=
          if (match last_byte rest with Some "?"%char => true | _ => false end)
             && (count_byte "?" rest =? 1)%nat
          then (drop_last rest, EmptyString)
          else match cut_byte "?" rest with
               | (before, Some after) => (before, after)
               | (before, None) => (before, EmptyString)
               end in
        if negb (has_prefix "/" rest) && negb (String.eqb scheme "")
        then Ok (mkURL scheme rest "" "" query "")
        else if negb (has_prefix "/" rest)
                && (match index_byte ":" (fst (cut_byte "/" rest)) with
                    | Some _ => true | None => false end)
        then Err "first path segment in URL cannot contain colon"
        else
          let '(host, rest) :=
            if (negb (String.eqb scheme "") || negb (has_prefix "///" rest))
               && has_prefix "//" rest
            then
              let authority := String.substring 2 (String.length rest - 2) rest in
              match index_byte "/" authority with
              | Some i =>
                  (after_last_at (String.substring 0 i authority),
                   String.substring i (String.length authority - i) authority)
              | None => (after_last_at authority, EmptyString)
              end
            else (EmptyString, rest) in
          match unescape rest with
          | Err e => Err e
          | Ok path => Ok (mkURL scheme "" host path query "")
          end
    end.

(** [url.Parse]: cuts off the fragment, parses the rest, then decodes the
    fragment. *)
Definition url_Parse (rawURL : string) : Result URL :=
  let '(u, frag) := cut_byte "#" rawURL in
  match url_parse u with
  | Err e => Err ("parse " +:+ u +:+ ": " +:+ e)
  | Ok url =>
      match frag with
      | None | Some EmptyString => Ok url
      | Some f =>
          match unescape f with
          | Err e => Err ("parse " +:+ rawURL +:+ ": " +:+ e)
          | Ok f' =>
              Ok (mkURL (Scheme url) (Opaque url) (Host url) (Path url) (RawQuery url) f')
          end
      end
  end.

(** *** package path/filepath *)

(** [filepath.Join(a, b)]: empty elements are ignored and the others are
    joined by the separator.  The final [Clean] is not modelled: paths are
    taken as already clean. *)
Definition filepath_Join (a b : string) : string :=
  match a, b with
  | EmptyString, _ => b
  | _, EmptyString => a
  | _, _ => a +:+ "/" +:+ b
  end.

End Go.
Export Go.

(** ** github.go: handler construction *)

(** GitHubHandler handles interactions with the GitHub API.  The embedded
    [*github.Client] is the [Client] the operations are run against, and the
    logger has no effect on results; the record keeps the target. *)
Record GitHubHandler : Type := mkGitHubHandler {
  owner : string;
  repo : string;
  prNum : Z;
}.

(** NewGitHubHandler initializes a new handler for interacting with GitHub
    resources.  The OAuth token only configures the HTTP client. *)
Definition NewGitHubHandler (rawURL : string) : Result GitHubHandler :=
  match url_Parse rawURL with
  | Err e => Err e
  | Ok u =>
      let split := strings_Split (Path u) "/" in
      if negb (length split =? 5)%nat
      then Err ("could not determine PR from URL: " +:+ rawURL)
      else
        let owner := nth 1 split EmptyString in
        let repo := nth 2 split EmptyString in
        let pr := nth 4 split EmptyString in
        match strconv_Atoi pr with
        | Err _ => Err ("error parsing PR number: " +:+ pr)
        | Ok prNumber => Ok (mkGitHubHandler owner repo prNumber)
        end
  end.

(** ** go-github: the payload types, restricted to the fields the handler,
    the fake server and the tests read.  Every field is a pointer in Go and
    therefore optional; the [Get...] accessors are nil-safe and return the
    zero value for an absent field or receiver. *)

Module github.

Record User : Type := mkUser {
  User_Login : option string;
}.

Record Repository : Type := mkRepository {
  Repository_Name : option string;
  Repository_CloneURL : option string;
}.

Record PullRequestBranch : Type := mkPullRequestBranch {
  PullRequestBranch_Ref : option string;
  PullRequestBranch_SHA : option string;
  PullRequestBranch_User : option User;
  PullRequestBranch_Repo : option Repository;
}.

Record Label : Type := mkLabel {
  Label_Name : option string;
}.

Record PullRequest : Type := mkPullRequest {
  PullRequest_ID : option Z;
  PullRequest_HTMLURL : option string;
  PullRequest_Head : option PullRequestBranch;
  PullRequest_Base : option PullRequestBranch;
  PullRequest_Labels : list Label;
}.

Record IssueComment : Type := mkIssueComment {
  IssueComment_ID : option Z;
  IssueComment_Body : option string;
  IssueComment_User : option User;
}.

Definition User_GetLogin (u : option User) : string :=
  default "" (u ≫= User_Login).

Definition Repository_GetName (r : option Repository) : string :=
  default "" (r ≫= Repository_Name).

Definition Repository_GetCloneURL (r : option Repository) : string :=
  default "" (r ≫= Repository_CloneURL).

Definition PullRequestBranch_GetRef (b : option PullRequestBranch) : string :=
  default "" (b ≫= PullRequestBranch_Ref).

Definition PullRequestBranch_GetSHA (b : option PullRequestBranch) : string :=
  default "" (b ≫= PullRequestBranch_SHA).

Definition PullRequestBranch_GetUser (b : option PullRequestBranch) : option User :=
  b ≫= PullRequestBranch_User.

Definition PullRequestBranch_GetRepo (b : option PullRequestBranch) : option Repository :=
  b ≫= PullRequestBranch_Repo.

Definition Label_GetName (l : Label) : string :=
  default "" (Label_Name l).

Definition PullRequest_GetID (p : PullRequest) : Z :=
  default 0 (PullRequest_ID p).

Definition PullRequest_GetHTMLURL (p : PullRequest) : string :=
  default "" (PullRequest_HTMLURL p).

Definition PullRequest_GetHead (p : PullRequest) : option PullRequestBranch :=
  PullRequest_Head p.

Definition PullRequest_GetBase (p : PullRequest) : option PullRequestBranch :=
  PullRequest_Base p.

Definition IssueComment_GetID (c : IssueComment) : Z :=
  default 0 (IssueComment_ID c).

Definition IssueComment_GetBody (c : IssueComment) : string :=
  default "" (IssueComment_Body c).

Definition IssueComment_GetUser (c : IssueComment) : option User :=
  IssueComment_User c.

End github.

(** ** main.go: the generic model *)

Definition prFile : string := "pr.json".

(** GitReference represents a git ref object. *)
Record GitReference : Type := mkGitReference {
  GitReference_Repo : string;
  GitReference_Branch : string;
  GitReference_SHA : string;
}.

(** Comment represents a pull request comment.  [Author], [ID] and [Raw]
    are output only. *)
Record Comment : Type := mkComment {
  Comment_Text : string;
  Comment_Author : string;
  Comment_ID : Z;
  Comment_Raw : string;
}.

(** Label represents a Pull Request Label *)
Record Label : Type := mkLabel {
  Label_Text : string;
}.

(** PullRequest represents a generic pull request resource. *)
Record PullRequest : Type := mkPullRequest {
  PullRequest_Type : string;
  PullRequest_ID : Z;
  PullRequest_Head : option GitReference;
  PullRequest_Base : option GitReference;
  PullRequest_Comments : slice Comment;
  PullRequest_Labels : slice Label;
  PullRequest_Raw : string;
}.

(** *** encoding/json on the generic model *)

(** A JSON document. *)
Inductive JSON : Type :=
| JNull
| JNumber (n : Z)
| JString (s : string)
| JArray (items : list JSON)
| JObject (fields : list (string * JSON)).

(** What [json.Encoder.Encode] writes for the generic model: a struct
    becomes an object keyed by the Go field names in declaration order, a
    nil pointer or nil slice becomes [null], and a non-nil slice becomes an
    array, [[]] when it is empty. *)
Definition Marshal_GitReference (g : option GitReference) : JSON :=
  match g with
  | None => JNull
  | Some g =>
      JObject [("Repo", JString (GitReference_Repo g));
               ("Branch", JString (GitReference_Branch g));
               ("SHA", JString (GitReference_SHA g))]
  end.

Definition Marshal_Comment (c : Comment) : JSON :=
  JObject [("Text", JString (Comment_Text c));
           ("Author", JString (Comment_Author c));
           ("ID", JNumber (Comment_ID c));
           ("Raw", JString (Comment_Raw c))].

Definition Marshal_Label (l : Label) : JSON :=
  JObject [("Text", JString (Label_Text l))].

Definition Marshal_slice {A} (f : A → JSON) (s : slice A) : JSON :=
  match s with
  | nil_slice => JNull
  | mk_slice l => JArray (f <$> l)
  end.

Definition Marshal_PullRequest (pr : PullRequest) : JSON :=
  JObject [("Type", JString (PullRequest_Type pr));
           ("ID", JNumber (PullRequest_ID pr));
           ("Head", Marshal_GitReference (PullRequest_Head pr));
           ("Base", Marshal_GitReference (PullRequest_Base pr));
           ("Comments", Marshal_slice Marshal_Comment (PullRequest_Comments pr));
           ("Labels", Marshal_slice Marshal_Label (PullRequest_Labels pr));
           ("Raw", JString (PullRequest_Raw pr))].

(** The member of a JSON object written under [name]. *)
Definition member (name : string) (j : JSON) : option JSON :=
  match j with
  | JObject fields => snd <$> List.find (λ kv, String.eqb (fst kv) name) fields
  | _ => None
  end.

(** ** The world the handler runs in *)

(** The content of a file written by [writeJSON], identified with the value
    that was encoded: [encoding/json] is taken to decode what it encoded,
    and a file that holds another kind of value not to decode into a
    [PullRequest]. *)
Inductive Doc : Type :=
| DocPullRequest (pr : PullRequest)
| DocGitHubPullRequest (gpr : github.PullRequest)
| DocGitHubIssueComment (c : github.IssueComment).

(** The JSON text of a file holding the generic record. *)
Definition json_of (d : Doc) : option JSON :=
  match d with
  | DocPullRequest pr => Some (Marshal_PullRequest pr)
  | _ => None
  end.

(** A call issued to the GitHub API through [*github.Client], with what the
    client returned for it. *)
Inductive Event : Type :=
| EvPullRequestsGet (owner repo : string) (number : Z)
    (r : Result github.PullRequest)
| EvListComments (owner repo : string) (number : Z)
    (r : Result (list github.IssueComment))
| EvReplaceLabelsForIssue (owner repo : string) (number : Z)
    (labels : list string) (r : Result unit)
| EvDeleteComment (owner repo : string) (id : Z) (r : Result unit)
| EvEditComment (owner repo : string) (id : Z) (c : github.IssueComment)
    (r : Result unit)
| EvCreateComment (owner repo : string) (number : Z)
    (c : github.IssueComment) (r : Result unit).

(** The error a call ended with, if any. *)
Definition ev_error (ev : Event) : option error :=
  match ev with
  | EvPullRequestsGet _ _ _ r => failure r
  | EvListComments _ _ _ r => failure r
  | EvReplaceLabelsForIssue _ _ _ _ r => failure r
  | EvDeleteComment _ _ _ r => failure r
  | EvEditComment _ _ _ _ r => failure r
  | EvCreateComment _ _ _ _ r => failure r
  end.

Definition ev_ok (ev : Event) : Prop := ev_error ev = None.

Definition is_ReplaceLabels (ev : Event) : bool :=
  match ev with EvReplaceLabelsForIssue _ _ _ _ _ => true | _ => false end.

Definition is_Delete (ev : Event) : bool :=
  match ev with EvDeleteComment _ _ _ _ => true | _ => false end.

Definition is_Edit (ev : Event) : bool :=
  match ev with EvEditComment _ _ _ _ _ => true | _ => false end.

Definition is_Create (ev : Event) : bool :=
  match ev with EvCreateComment _ _ _ _ _ => true | _ => false end.

(** A call on the comment endpoints: list, delete, edit or create. *)
Definition is_comment_call (ev : Event) : bool :=
  match ev with
  | EvListComments _ _ _ _ | EvDeleteComment _ _ _ _
  | EvEditComment _ _ _ _ _ | EvCreateComment _ _ _ _ _ => true
  | _ => false
  end.

(** A call that changes a comment on the provider. *)
Definition is_comment_mutation (ev : Event) : bool :=
  is_Delete ev || is_Edit ev || is_Create ev.

(** The calls that address the existing comment [id]. *)
Definition deletes (id : Z) (ev : Event) : bool :=
  match ev with EvDeleteComment _ _ i _ => bool_decide (i = id) | _ => false end.

Definition edits (id : Z) (ev : Event) : bool :=
  match ev with EvEditComment _ _ i _ _ => bool_decide (i = id) | _ => false end.

(** The operations of [*github.Client] the handler calls, over a provider
    state [S].  Each returns the client's answer and the provider's next
    state; the payloads returned by the mutating calls are discarded by the
    handler and are left out. *)
Record Client (S : Type) : Type := mkClient {
  client_PullRequests_Get :
    string → string → Z → S → Result github.PullRequest * S;
  client_Issues_ListComments :
    string → string → Z → S → Result (list github.IssueComment) * S;
  client_Issues_ReplaceLabelsForIssue :
    string → string → Z → list string → S → Result unit * S;
  client_Issues_DeleteComment :
    string → string → Z → S → Result unit * S;
  client_Issues_EditComment :
    string → string → Z → github.IssueComment → S → Result unit * S;
  client_Issues_CreateComment :
    string → string → Z → github.IssueComment → S → Result unit * S;
}.
Arguments client_PullRequests_Get {S}.
Arguments client_Issues_ListComments {S}.
Arguments client_Issues_ReplaceLabelsForIssue {S}.
Arguments client_Issues_DeleteComment {S}.
Arguments client_Issues_EditComment {S}.
Arguments client_Issues_CreateComment {S}.

(** The provider and the filesystem.  Directories are implicit in the file
    paths; permission and I/O failures are not modelled. *)
Record World (S : Type) : Type := mkWorld {
  remote : S;
  files : gmap string Doc;
}.
Arguments mkWorld {S}.
Arguments remote {S}.
Arguments files {S}.

(** A handler method: it runs in a world and returns its result (an error
    ends it, as [if err != nil { return err }] does), the world it leaves
    and the calls it issued, in order. *)
Definition M (S A : Type) : Type := World S → Result A * World S * list Event.

Definition ret {S A} (a : A) : M S A := λ w, (Ok a, w, []).

Definition fail {S A} (e : error) : M S A := λ w, (Err e, w, []).

Definition bind {S A B} (m : M S A) (f : A → M S B) : M S B :=
  λ w,
    match m w with
    | (Err e, w1, evs1) => (Err e, w1, evs1)
    | (Ok a, w1, evs1) =>
        match f a w1 with
        | (r, w2, evs2) => (r, w2, evs1 ++ evs2)
        end
    end.

Notation "x <- m ;; k" := (bind m (λ x, k))
  (at level 100, m at next level, right associativity).
Notation "m ;;; k" := (bind m (λ _, k))
  (at level 100, right associativity).

(** The state the provider is left in when the client performs the call
    recorded by [ev]. *)
Definition replay {S} (client : Client S) (s : S) (ev : Event) : S :=
  match ev with
  | EvPullRequestsGet o r n _ => snd (client_PullRequests_Get client o r n s)
  | EvListComments o r n _ => snd (client_Issues_ListComments client o r n s)
  | EvReplaceLabelsForIssue o r n l _ =>
      snd (client_Issues_ReplaceLabelsForIssue client o r n l s)
  | EvDeleteComment o r i _ => snd (client_Issues_DeleteComment client o r i s)
  | EvEditComment o r i c _ => snd (client_Issues_EditComment client o r i c s)
  | EvCreateComment o r n c _ => snd (client_Issues_CreateComment client o r n c s)
  end.

Section Handler.

Context {S : Type}.
Variable client : Client S.

(** The order in which [range] visits a Go map is unspecified: it is a
    parameter. *)
Variable range_map : gmap Z Comment → list (Z * Comment).

(** *** the client calls *)

Definition PullRequests_Get (o r : string) (n : Z) : M S github.PullRequest :=
  λ w, let '(res, s) := client_PullRequests_Get client o r n (remote w) in
       (res, mkWorld s (files w), [EvPullRequestsGet o r n res]).

Definition Issues_ListComments (o r : string) (n : Z)
  : M S (list github.IssueComment) :=
  λ w, let '(res, s) := client_Issues_ListComments client o r n (remote w) in
       (res, mkWorld s (files w), [EvListComments o r n res]).

Definition Issues_ReplaceLabelsForIssue (o r : string) (n : Z)
    (labels : list string) : M S unit :=
  λ w, let '(res, s) :=
         client_Issues_ReplaceLabelsForIssue client o r n labels (remote w) in
       (res, mkWorld s (files w), [EvReplaceLabelsForIssue o r n labels res]).

Definition Issues_DeleteComment (o r : string) (id : Z) : M S unit :=
  λ w, let '(res, s) := client_Issues_DeleteComment client o r id (remote w) in
       (res, mkWorld s (files w), [EvDeleteComment o r id res]).

Definition Issues_EditComment (o r : string) (id : Z)
    (c : github.IssueComment) : M S unit :=
  λ w, let '(res, s) := client_Issues_EditComment client o r id c (remote w) in
       (res, mkWorld s (files w), [EvEditComment o r id c res]).

Definition Issues_CreateComment (o r : string) (n : Z)
    (c : github.IssueComment) : M S unit :=
  λ w, let '(res, s) := client_Issues_CreateComment client o r n c (remote w) in
       (res, mkWorld s (files w), [EvCreateComment o r n c res]).

(** *** the filesystem *)

Definition os_MkdirAll (path : string) : M S unit := ret tt.

(** writeJSON writes an arbitrary interface to the given path. *)
Definition writeJSON (path : string) (i : Doc) : M S unit :=
  λ w, (Ok tt, mkWorld (remote w) (<[path := i]> (files w)), []).

(** readJSON reads an arbitrary JSON payload from path and decodes it into
    the given interface, here a [*PullRequest]. *)
Definition readJSON (path : string) : M S PullRequest :=
  λ w,
    match files w !! path with
    | None => (Err ("open " +:+ path +:+ ": no such file or directory"), w, [])
    | Some (DocPullRequest pr) => (Ok pr, w, [])
    | Some _ => (Err "json: cannot unmarshal into Go value of type main.PullRequest", w, [])
    end.

(** *** Download *)

(** The loop over the provider's labels. *)
Definition Download_labels (labels : list github.Label) : slice Label :=
  foldl (λ acc l, append acc (mkLabel (github.Label_GetName l)))
        (make (length labels)) labels.

(** The loop over the provider's comments: each is written to its own file
    and appended to the record. *)
Fixpoint Download_comments (commentsPrefix : string)
    (ic : list github.IssueComment) (acc : slice Comment) : M S (slice Comment) :=
  match ic with
  | [] => ret acc
  | c :: rest =>
      let rawComment :=
        filepath_Join commentsPrefix
          (pretty (github.IssueComment_GetID c) +:+ ".json") in
      writeJSON rawComment (DocGitHubIssueComment c) ;;;
      let comment := {|
        Comment_Author := github.User_GetLogin (github.IssueComment_GetUser c);
        Comment_Text := github.IssueComment_GetBody c;
        Comment_ID := github.IssueComment_GetID c;
        Comment_Raw := rawComment |} in
      Download_comments commentsPrefix rest (append acc comment)
  end.

(** Download fetches and stores the desired pull request. *)
Definition Download (h : GitHubHandler) (path : string) : M S unit :=
  let rawPrefix := filepath_Join path "github" in
  os_MkdirAll rawPrefix ;;;
  gpr <- PullRequests_Get (owner h) (repo h) (prNum h) ;;
  let rawPR := filepath_Join rawPrefix "pr.json" in
  writeJSON rawPR (DocGitHubPullRequest gpr) ;;;
  let head := github.PullRequest_GetHead gpr in
  let base := github.PullRequest_GetBase gpr in
  let labels := Download_labels (github.PullRequest_Labels gpr) in
  let commentsPrefix := filepath_Join rawPrefix "comments" in
  os_MkdirAll commentsPrefix ;;;
  ic <- Issues_ListComments (owner h) (repo h) (prNum h) ;;
  comments <- Download_comments commentsPrefix ic (make (length ic)) ;;
  let pr := {|
    PullRequest_Type := "github";
    PullRequest_ID := github.PullRequest_GetID gpr;
    PullRequest_Head := Some {|
      GitReference_Repo :=
        github.Repository_GetCloneURL (github.PullRequestBranch_GetRepo head);
      GitReference_Branch := github.PullRequestBranch_GetRef head;
      GitReference_SHA := github.PullRequestBranch_GetSHA head |};
    PullRequest_Base := Some {|
      GitReference_Repo :=
        github.Repository_GetCloneURL (github.PullRequestBranch_GetRepo base);
      GitReference_Branch := github.PullRequestBranch_GetRef base;
      GitReference_SHA := github.PullRequestBranch_GetSHA base |};
    PullRequest_Comments := comments;
    PullRequest_Labels := labels;
    PullRequest_Raw := rawPR |} in
  let prPath := filepath_Join path prFile in
  writeJSON prPath (DocPullRequest pr).

(** *** Upload *)

(** [labelNames]: the [Text] of every label of the record. *)
Definition Upload_labelNames (pr : PullRequest) : slice string :=
  foldl (λ names l, append names (Label_Text l))
        (make (len (PullRequest_Labels pr))) (elems (PullRequest_Labels pr)).

(** [desiredComments]: the record's comments keyed by [ID]; a later comment
    replaces an earlier one with the same [ID]. *)
Definition Upload_desiredComments (pr : PullRequest) : gmap Z Comment :=
  foldl (λ m c, <[Comment_ID c := c]> m) ∅ (elems (PullRequest_Comments pr)).

(** The loop over the provider's existing comments: delete the ones the
    record no longer has, edit the ones whose text differs, and drop each
    from [desiredComments]. *)
Fixpoint Upload_existing (h : GitHubHandler)
    (existingComments : list github.IssueComment)
    (desiredComments : gmap Z Comment) : M S (gmap Z Comment) :=
  match existingComments with
  | [] => ret desiredComments
  | ec :: rest =>
      let id := github.IssueComment_GetID ec in
      match desiredComments !! id with
      | None => Issues_DeleteComment (owner h) (repo h) id
      | Some dc =>
          if negb (String.eqb (Comment_Text dc) (github.IssueComment_GetBody ec))
          then
            let newComment := {|
              github.IssueComment_ID := None;
              github.IssueComment_Body := Some (Comment_Text dc);
              github.IssueComment_User := github.IssueComment_User ec |} in
            Issues_EditComment (owner h) (repo h) id newComment
          else ret tt
      end ;;;
      Upload_existing h rest (delete id desiredComments)
  end.

(** The loop over what is left of [desiredComments]: each is created. *)
Fixpoint Upload_create (h : GitHubHandler) (desired : list (Z * Comment))
  : M S unit :=
  match desired with
  | [] => ret tt
  | (_, dc) :: rest =>
      let newComment := {|
        github.IssueComment_ID := None;
        github.IssueComment_Body := Some (Comment_Text dc);
        github.IssueComment_User := None |} in
      Issues_CreateComment (owner h) (repo h) (prNum h) newComment ;;;
      Upload_create h rest
  end.

(** Upload takes files stored on the filesystem and uploads new changes to
    GitHub. *)
Definition Upload (h : GitHubHandler) (path : string) : M S unit :=
  let prPath := filepath_Join path prFile in
  pr <- readJSON prPath ;;
  let labelNames := Upload_labelNames pr in
  Issues_ReplaceLabelsForIssue (owner h) (repo h) (prNum h) (elems labelNames) ;;;
  let desiredComments := Upload_desiredComments pr in
  existingComments <- Issues_ListComments (owner h) (repo h) (prNum h) ;;
  desiredComments <- Upload_existing h existingComments desiredComments ;;
  Upload_create h (range_map desiredComments).

(** ** main.go: the entry point *)

(** [main], given the values of the flags [-url], [-path] and [-mode]
    (their defaults are the empty string, the empty string and
    ["download"]).  [logger.Fatal] ends the process with a failure: it is
    the error the run ends with; returning from [main] is success. *)
Definition main (prURL path mode : string) : M S unit :=
  match NewGitHubHandler prURL with
  | Err err => fail ("error creating GitHub client: " +:+ err)
  | Ok h =>
      if String.eqb mode "download" then Download h path
      else if String.eqb mode "upload" then Upload h path
      else ret tt
  end.

End Handler.

(** ** fake_github.go: the fake GitHub server of the tests *)

(** key defines keys for associating data to PRs/issues in the fake server:
    owner, repo and id. *)
Definition key : Type := string * string * Z.

(** FakeGitHub is a fake GitHub server for use in tests. *)
Record FakeGitHub : Type := mkFakeGitHub {
  fake_pr : gmap key github.PullRequest;
  fake_comments : gmap key (list github.IssueComment);
}.

(** NewFakeGitHub returns a new FakeGitHub. *)
Definition NewFakeGitHub : FakeGitHub := mkFakeGitHub ∅ ∅.

(** [prKey]: the key a request addresses, read from the variables
    [owner], [repo] and [number] of the route it matched ([mux.Vars]); a
    variable that is not set reads as the empty string. *)
Definition prKey (vars : gmap string string) : Result key :=
  match strconv_ParseInt (default "" (vars !! "number")) with
  | Err err => Err err
  | Ok pr => Ok (default "" (vars !! "owner"), default "" (vars !! "repo"), pr)
  end.

(** AddPullRequest adds the given pull request to the fake GitHub server. *)
Definition AddPullRequest (pr : github.PullRequest) (g : FakeGitHub) : FakeGitHub :=
  let base := github.PullRequest_GetBase pr in
  let k : key :=
    (github.User_GetLogin (github.PullRequestBranch_GetUser base),
     github.Repository_GetName (github.PullRequestBranch_GetRepo base),
     github.PullRequest_GetID pr) in
  mkFakeGitHub (<[k := pr]> (fake_pr g)) (fake_comments g).

(** AddComment adds a comment to the fake GitHub server. *)
Definition AddComment (owner repo : string) (pr : Z)
    (comment : github.IssueComment) (g : FakeGitHub) : FakeGitHub :=
  let k : key := (owner, repo, pr) in
  let c := match fake_comments g !! k with
           | None => [comment]
           | Some c => c ++ [comment]
           end in
  mkFakeGitHub (fake_pr g) (<[k := c]> (fake_comments g)).

(** GET /repos/{owner}/{repo}/pulls/{number} *)
Definition getPullRequest (k : key) (g : FakeGitHub)
  : Result github.PullRequest * FakeGitHub :=
  match fake_pr g !! k with
  | None => (Err "404 Not Found", g)
  | Some pr => (Ok pr, g)
  end.

(** GET /repos/{owner}/{repo}/issues/{number}/comments *)
Definition getComments (k : key) (g : FakeGitHub)
  : Result (list github.IssueComment) * FakeGitHub :=
  (Ok (default [] (fake_comments g !! k)), g).

(** POST /repos/{owner}/{repo}/issues/{number}/comments *)
Definition createComment (k : key) (c : github.IssueComment) (g : FakeGitHub)
  : Result unit * FakeGitHub :=
  let comments := default [] (fake_comments g !! k) in
  let c := {|
    github.IssueComment_ID := Some (Z.of_nat (length comments) + 1);
    github.IssueComment_Body := github.IssueComment_Body c;
    github.IssueComment_User := github.IssueComment_User c |} in
  (Ok tt, mkFakeGitHub (fake_pr g) (<[k := comments ++ [c]]> (fake_comments g))).

(** PUT /repos/{owner}/{repo}/issues/{number}/labels *)
Definition updateLabels (k : key) (payload : list string) (g : FakeGitHub)
  : Result unit * FakeGitHub :=
  match fake_pr g !! k with
  | None => (Err "404 Not Found", g)
  | Some pr =>
      let pr := {|
        github.PullRequest_ID := github.PullRequest_ID pr;
        github.PullRequest_HTMLURL := github.PullRequest_HTMLURL pr;
        github.PullRequest_Head := github.PullRequest_Head pr;
        github.PullRequest_Base := github.PullRequest_Base pr;
        github.PullRequest_Labels := (λ l, github.mkLabel (Some l)) <$> payload |} in
      (Ok tt, mkFakeGitHub (<[k := pr]> (fake_pr g)) (fake_comments g))
  end.

(** The router of [NewFakeGitHub], seen through [*github.Client]: the four
    routes it registers, and 404 for the requests that match none of them.
    These are the comment edit and delete requests, and the listing of the
    comments of the pull request number 0: for that number
    [Issues.ListComments] asks for the comments of the whole repository,
    [repos/{owner}/{repo}/issues/comments].  A request is taken to reach its
    route with the owner and the repository it was made for, as it does
    when these are plain names; the request path is not modelled. *)
Definition fake_client : Client FakeGitHub := {|
  client_PullRequests_Get o r n := getPullRequest (o, r, n);
  client_Issues_ListComments o r n :=
    if (n =? 0)%Z then λ g, (Err "404 Not Found", g) else getComments (o, r, n);
  client_Issues_ReplaceLabelsForIssue o r n labels := updateLabels (o, r, n) labels;
  client_Issues_DeleteComment o r id := λ g, (Err "404 Not Found", g);
  client_Issues_EditComment o r id c := λ g, (Err "404 Not Found", g);
  client_Issues_CreateComment o r n c := createComment (o, r, n) c;
|}.

(** *** a server that also edits and deletes

    The fake server completed by the two comment routes it lacks, so that
    the update and delete paths of [Upload] can be run to the end. *)

Definition has_comment (id : Z) (cs : list github.IssueComment) : bool :=
  existsb (λ c, bool_decide (github.IssueComment_GetID c = id)) cs.

Definition in_repo (o r : string) (k : key) : bool :=
  String.eqb (fst (fst k)) o && String.eqb (snd (fst k)) r.

Definition known_comment (o r : string) (id : Z) (g : FakeGitHub) : bool :=
  existsb (λ kc, in_repo o r (fst kc) && has_comment id (snd kc))
          (map_to_list (fake_comments g)).

(** DELETE /repos/{owner}/{repo}/issues/comments/{id} *)
Definition deleteComment (o r : string) (id : Z) (g : FakeGitHub)
  : Result unit * FakeGitHub :=
  if known_comment o r id g then
    (Ok tt,
     mkFakeGitHub (fake_pr g)
       (map_imap (λ k cs,
          Some (if in_repo o r k
                then List.filter
                       (λ c, negb (bool_decide (github.IssueComment_GetID c = id))) cs
                else cs)) (fake_comments g)))
  else (Err "404 Not Found", g).

(** PATCH /repos/{owner}/{repo}/issues/comments/{id}: only the body is
    taken from the request. *)
Definition editComment (o r : string) (id : Z) (c : github.IssueComment)
    (g : FakeGitHub) : Result unit * FakeGitHub :=
  if known_comment o r id g then
    (Ok tt,
     mkFakeGitHub (fake_pr g)
       (map_imap (λ k cs,
          Some (if in_repo o r k
                then List.map
                       (λ old,
                          if bool_decide (github.IssueComment_GetID old = id)
                          then {|
                            github.IssueComment_ID := github.IssueComment_ID old;
                            github.IssueComment_Body := github.IssueComment_Body c;
                            github.IssueComment_User := github.IssueComment_User old |}
                          else old) cs
                else cs)) (fake_comments g)))
  else (Err "404 Not Found", g).

Definition full_client : Client FakeGitHub := {|
  client_PullRequests_Get o r n := getPullRequest (o, r, n);
  client_Issues_ListComments := client_Issues_ListComments fake_client;
  client_Issues_ReplaceLabelsForIssue o r n labels := updateLabels (o, r, n) labels;
  client_Issues_DeleteComment := deleteComment;
  client_Issues_EditComment := editComment;
  client_Issues_CreateComment o r n c := createComment (o, r, n) c;
|}.

(** A provider that is down: every call fails. *)
Definition down_client : Client unit := {|
  client_PullRequests_Get o r n := λ s, (Err "503 Service Unavailable", s);
  client_Issues_ListComments o r n := λ s, (Err "503 Service Unavailable", s);
  client_Issues_ReplaceLabelsForIssue o r n labels :=
    λ s, (Err "503 Service Unavailable", s);
  client_Issues_DeleteComment o r id := λ s, (Err "503 Service Unavailable", s);
  client_Issues_EditComment o r id c := λ s, (Err "503 Service Unavailable", s);
  client_Issues_CreateComment o r n c := λ s, (Err "503 Service Unavailable", s);
|}.

(** ** github_test.go: the fixtures of the tests *)

Module fixture.

Definition owner : string := "foo".
Definition repo : string := "bar".
Definition prNum : Z := 1.

Definition pr : github.PullRequest := {|
  github.PullRequest_ID := Some prNum;
  github.PullRequest_HTMLURL := Some "https://github.com/foo/bar/pull/1";
  github.PullRequest_Base := Some {|
    github.PullRequestBranch_User := Some (github.mkUser (Some owner));
    github.PullRequestBranch_Repo :=
      Some (github.mkRepository (Some repo) (Some "https://github.com/foo/bar"));
    github.PullRequestBranch_Ref := Some "master";
    github.PullRequestBranch_SHA := Some "1" |};
  github.PullRequest_Head := Some {|
    github.PullRequestBranch_User := Some (github.mkUser (Some "baz"));
    github.PullRequestBranch_Repo :=
      Some (github.mkRepository (Some repo) (Some "https://github.com/baz/bar"));
    github.PullRequestBranch_Ref := Some "feature";
    github.PullRequestBranch_SHA := Some "2" |};
  github.PullRequest_Labels := [] |}.

Definition comment : github.IssueComment := {|
  github.IssueComment_ID := Some 1;
  github.IssueComment_Body := Some "hello world!";
  github.IssueComment_User := None |}.

(** The server as [newHandler] prepopulates it. *)
Definition gh : FakeGitHub :=
  AddComment owner repo prNum comment (AddPullRequest pr NewFakeGitHub).

(** The handler [newHandler] builds from the pull request's HTML URL. *)
Definition h : GitHubHandler := mkGitHubHandler owner repo prNum.

Definition dir : string := "/tmp".

(** The record [TestUpload] writes to [dir/pr.json]. *)
Definition tektonPR : PullRequest := {|
  PullRequest_Type := "github";
  PullRequest_ID := prNum;
  PullRequest_Head := Some (mkGitReference "https://github.com/baz/bar" "feature" "2");
  PullRequest_Base := Some (mkGitReference "https://github.com/foo/bar" "master" "1");
  PullRequest_Comments := mk_slice [
    mkComment "hello world!" "" 1 "";
    mkComment "abc123" "" 0 "" ];
  PullRequest_Labels := mk_slice [mkLabel "tacocat"];
  PullRequest_Raw := "" |}.

(** A world that holds [record] at [dir/pr.json] and nothing else. *)
Definition world_with {S} (record : PullRequest) (g : S) : World S :=
  mkWorld g {[ filepath_Join dir prFile := DocPullRequest record ]}.

(** A second provider comment, and the server holding both. *)
Definition comment2 : github.IssueComment := {|
  github.IssueComment_ID := Some 2;
  github.IssueComment_Body := Some "second thoughts";
  github.IssueComment_User := Some (github.mkUser (Some "baz")) |}.

Definition gh2 : FakeGitHub := AddComment owner repo prNum comment2 gh.

Definition with_comments (comments : list Comment) (labels : list Label)
  : PullRequest := {|
  PullRequest_Type := "github";
  PullRequest_ID := prNum;
  PullRequest_Head := PullRequest_Head tektonPR;
  PullRequest_Base := PullRequest_Base tektonPR;
  PullRequest_Comments := mk_slice comments;
  PullRequest_Labels := mk_slice labels;
  PullRequest_Raw := "" |}.

(** The second comment was removed from the record. *)
Definition removedPR : PullRequest :=
  with_comments [mkComment "hello world!" "" 1 ""] [].


(** Two comments were added to the record, neither with an ID. *)
Definition twoNewPR : PullRequest :=
  with_comments [mkComment "hello world!" "" 1 "";
                 mkComment "abc123" "" 0 "";
                 mkComment "xyz789" "" 0 ""] [].

(** [h.Upload(ctx, dir)] against [client], with [record] on disk. *)
Definition upload {S} (client : Client S) (record : PullRequest) (g : S)
  : Result unit * World S * list Event :=
  Upload client map_to_list h dir (world_with record g).

(** [h.Download(ctx, dir)] into an empty directory. *)
Definition download {S} (client : Client S) (g : S)
  : Result unit * World S * list Event :=
  Download client h dir (mkWorld g ∅).

End fixture.

(** ** Vocabulary of the properties *)

(** A path segment: a string without [/]. *)
Definition no_slash (s : string) : Prop := index_byte "/" s = None.

(** The calls [evs] of a run that ended with [r] stop at the first failed
    call: either every call succeeded, or all but the last did and the run
    ended with the error of the last. *)
Definition fail_fast {A} (r : Result A) (evs : list Event) : Prop :=
  Forall ev_ok evs ∨
  ∃ pre ev e, evs = pre ++ [ev] ∧ Forall ev_ok pre ∧ ev_error ev = Some e ∧ r = Err e.

(** A method stops at the first failed call, and leaves the provider in the
    state its calls, replayed in order, lead to. *)
Definition well_behaved {S A} (client : Client S) (m : M S A) : Prop :=
  ∀ w r w' evs, m w = (r, w', evs) →
    fail_fast r evs
    ∧ (is_Ok r = true → Forall ev_ok evs)
    ∧ remote w' = foldl (replay client) (remote w) evs.

(** The calls a complete run of [Upload] issues for the existing comment
    [ec] when the desired comments are [desired]. *)
Definition existing_events (h : GitHubHandler) (desired : gmap Z Comment)
    (ec : github.IssueComment) : list Event :=
  let id := github.IssueComment_GetID ec in
  match desired !! id with
  | None => [EvDeleteComment (owner h) (repo h) id (Ok tt)]
  | Some dc =>
      if String.eqb (Comment_Text dc) (github.IssueComment_GetBody ec) then []
      else [EvEditComment (owner h) (repo h) id
              (github.mkIssueComment None (Some (Comment_Text dc))
                 (github.IssueComment_User ec)) (Ok tt)]
  end.

(** The calls a complete run of the loop over the existing comments
    issues. *)
Fixpoint sync_events (h : GitHubHandler) (desired : gmap Z Comment)
    (existing : list github.IssueComment) : list Event :=
  match existing with
  | [] => []
  | ec :: rest =>
      existing_events h desired ec
      ++ sync_events h (delete (github.IssueComment_GetID ec) desired) rest
  end.

(** What is left of the desired comments once every existing comment has
    been dropped from them. *)
Definition remaining (desired : gmap Z Comment)
    (existing : list github.IssueComment) : gmap Z Comment :=
  foldl (λ m ec, delete (github.IssueComment_GetID ec) m) desired existing.

(** The call a complete run of [Upload] issues to create [dc]. *)
Definition create_event (h : GitHubHandler) (dc : Comment) : Event :=
  EvCreateComment (owner h) (repo h) (prNum h)
    (github.mkIssueComment None (Some (Comment_Text dc)) None) (Ok tt).

(** A method only issues calls of the kind [P], and writes no file. *)
Definition emits {S A} (P : Event → bool) (m : M S A) : Prop :=
  ∀ w r w' evs, m w = (r, w', evs) → Forall (λ ev, P ev = true) evs ∧ files w' = files w.

(** The file [Download] writes the raw payload of the comment [c] to. *)
Definition rawCommentPath (commentsPrefix : string) (c : github.IssueComment)
  : string :=
  filepath_Join commentsPrefix (pretty (github.IssueComment_GetID c) +:+ ".json").

(** The entry of the generic record that [Download] builds for the
    provider's comment [c]. *)
Definition comment_of (commentsPrefix : string) (c : github.IssueComment)
  : Comment := {|
  Comment_Text := github.IssueComment_GetBody c;
  Comment_Author := github.User_GetLogin (github.IssueComment_GetUser c);
  Comment_ID := github.IssueComment_GetID c;
  Comment_Raw := rawCommentPath commentsPrefix c |}.

(** The files left by the loop over the provider's comments. *)
Definition write_comments (commentsPrefix : string)
    (ic : list github.IssueComment) (fs : gmap string Doc) : gmap string Doc :=
  foldl (λ fs c, <[rawCommentPath commentsPrefix c := DocGitHubIssueComment c]> fs)
        fs ic.

(** What [filepath.Join] puts before a non-empty element. *)
Definition dir_prefix (dir : string) : string :=
  match dir with
  | EmptyString => EmptyString
  | _ => dir +:+ "/"
  end.

(** The generic record [Download] assembles from the provider's pull
    request [gpr] and comments [ic]. *)
Definition Download_record (dir : string) (gpr : github.PullRequest)
    (ic : list github.IssueComment) : PullRequest :=
  let rawPrefix := filepath_Join dir "github" in
  let head := github.PullRequest_GetHead gpr in
  let base := github.PullRequest_GetBase gpr in {|
  PullRequest_Type := "github";
  PullRequest_ID := github.PullRequest_GetID gpr;
  PullRequest_Head := Some {|
    GitReference_Repo :=
      github.Repository_GetCloneURL (github.PullRequestBranch_GetRepo head);
    GitReference_Branch := github.PullRequestBranch_GetRef head;
    GitReference_SHA := github.PullRequestBranch_GetSHA head |};
  PullRequest_Base := Some {|
    GitReference_Repo :=
      github.Repository_GetCloneURL (github.PullRequestBranch_GetRepo base);
    GitReference_Branch := github.PullRequestBranch_GetRef base;
    GitReference_SHA := github.PullRequestBranch_GetSHA base |};
  PullRequest_Comments :=
    mk_slice (comment_of (filepath_Join rawPrefix "comments") <$> ic);
  PullRequest_Labels :=
    mk_slice ((λ l, mkLabel (github.Label_GetName l)) <$> github.PullRequest_Labels gpr);
  PullRequest_Raw := filepath_Join rawPrefix "pr.json" |}.

(** Every byte of [s] satisfies [P]. *)
Fixpoint all_bytes (P : ascii → bool) (s : string) : bool :=
  match s with
  | EmptyString => true
  | String c rest => P c && all_bytes P rest
  end.

(** A byte that [url.Parse] reads as part of a path as it stands: not a
    control character and none of [#], [?] and [%]. *)
Definition path_byte (c : ascii) : bool :=
  negb (is_ctl c) && negb (Ascii.eqb c "#") && negb (Ascii.eqb c "?")
  && negb (Ascii.eqb c "%").

(** A byte of a path segment: a path byte other than [/]. *)
Definition segment_byte (c : ascii) : bool :=
  path_byte c && negb (Ascii.eqb c "/").

(** A byte of a host name: a letter, a digit, a dot or a hyphen. *)
Definition host_byte (c : ascii) : bool :=
  is_alpha c || (match digit_value c with Some _ => true | None => false end)
  || Ascii.eqb c "." || Ascii.eqb c "-".


(** A call that only reads from the provider. *)
Definition is_read (ev : Event) : bool :=
  match ev with
  | EvPullRequestsGet _ _ _ _ | EvListComments _ _ _ _ => true
  | _ => false
  end.


(** A byte that [url.Parse] reads as part of a query as it stands: not a
    control character and not [#]. *)
Definition query_byte (c : ascii) : bool :=
  negb (is_ctl c) && negb (Ascii.eqb c "#").

(** [strings.Join(segments, "/")]. *)
Definition join_path (segments : list string) : string :=
  String.concat "/" segments.


(** The repository a call addresses, and the pull request it names when it
    names one: the calls that delete and edit a comment name the comment
    only. *)
Definition ev_repository (ev : Event) : string * string :=
  match ev with
  | EvPullRequestsGet o r _ _ | EvListComments o r _ _
  | EvReplaceLabelsForIssue o r _ _ _ | EvDeleteComment o r _ _
  | EvEditComment o r _ _ _ | EvCreateComment o r _ _ _ => (o, r)
  end.

Definition ev_number (ev : Event) : option Z :=
  match ev with
  | EvPullRequestsGet _ _ n _ | EvListComments _ _ n _
  | EvReplaceLabelsForIssue _ _ n _ _ | EvCreateComment _ _ n _ _ => Some n
  | EvDeleteComment _ _ _ _ | EvEditComment _ _ _ _ _ => None
  end.

(** A call that addresses the repository and the pull request of [h]. *)
Definition addresses (h : GitHubHandler) (ev : Event) : Prop :=
  ev_repository ev = (owner h, repo h)
  ∧ (ev_number ev = None ∨ ev_number ev = Some (prNum h)).

(** The comment the record holds under [id]: the last of its comments with
    that ID. *)
Definition record_comment (pr : PullRequest) (id : Z) : option Comment :=
  last (List.filter (λ c, bool_decide (Comment_ID c = id))
          (elems (PullRequest_Comments pr))).

(** A byte of an owner or repository name that a request path carries as
    it stands: a letter, a digit, a hyphen or an underscore. *)
Definition name_byte (c : ascii) : bool :=
  is_alpha c || (match digit_value c with Some _ => true | None => false end)
  || Ascii.eqb c "-" || Ascii.eqb c "_".

(** The owner and the repository of [h] are non-empty names made of such
    bytes, so that the paths of the requests for [h] match the routes of
    the fake server with the owner and the repository of [h]. *)
Definition plain_names (h : GitHubHandler) : Prop :=
  owner h ≠ "" ∧ repo h ≠ ""
  ∧ all_bytes name_byte (owner h) = true ∧ all_bytes name_byte (repo h) = true.


(** ** Properties *)

(** *** strings *)

Lemma append_cons c a b : String c a +:+ b = String c (a +:+ b).
Proof. reflexivity. Qed.

Lemma split_byte_nonempty sep s : split_byte sep s ≠ [].
Proof.
  destruct s as [|c s]; simpl; [discriminate|].
  destruct (Ascii.eqb c sep); [discriminate|].
  destruct (split_byte sep s); discriminate.
Qed.

Lemma split_byte_length sep s :
  length (split_byte sep s) = Datatypes.S (count_byte sep s).
Proof.
  induction s as [|c s IH]; simpl; [reflexivity|].
  destruct (Ascii.eqb c sep); simpl; [by rewrite IH|].
  destruct (split_byte sep s) eqn:E; simpl in *; [discriminate|]. done.
Qed.

Lemma split_byte_no_sep sep s :
  index_byte sep s = None → split_byte sep s = [s].
Proof.
  induction s as [|c s IH]; simpl; [reflexivity|].
  destruct (Ascii.eqb c sep); [discriminate|].
  intros H. destruct (index_byte sep s); [discriminate|].
  by rewrite IH.
Qed.

Lemma split_byte_app sep a b :
  index_byte sep a = None →
  split_byte sep (a +:+ String sep b) = a :: split_byte sep b.
Proof.
  induction a as [|c a IH]; intros H.
  - change ("" +:+ String sep b) with (String sep b). simpl.
    by rewrite Ascii.eqb_refl.
  - rewrite append_cons. simpl in *.
    destruct (Ascii.eqb c sep); [discriminate|].
    destruct (index_byte sep a); [discriminate|].
    by rewrite IH.
Qed.


Lemma split_byte_sep sep b : split_byte sep (String sep b) = "" :: split_byte sep b.
Proof. simpl. by rewrite Ascii.eqb_refl. Qed.

Lemma slash_append x : "/" +:+ x = String "/" x.
Proof. reflexivity. Qed.

Lemma split_path o r tok tail :
  no_slash o → no_slash r → no_slash tok →
  strings_Split ("/" +:+ o +:+ "/" +:+ r +:+ "/" +:+ tok +:+ "/" +:+ tail) "/"
  = "" :: o :: r :: tok :: split_byte "/" tail.
Proof.
  intros Ho Hr Ht. unfold strings_Split.
  rewrite !slash_append, split_byte_sep.
  by rewrite !split_byte_app.
Qed.

Lemma append_assoc (a b c : string) : (a +:+ b) +:+ c = a +:+ (b +:+ c).
Proof. induction a as [|x a IH]; [done|]. rewrite !append_cons. by rewrite IH. Qed.

(** *** handler construction *)

(** The resolution as a function of the path that [url.Parse] returns:
    a path [/owner/repo/token/number] resolves, whatever the token, and the
    same path followed by a slash and anything does not. *)
Lemma NewGitHubHandler_of_path rawURL u o r tok num n :
  url_Parse rawURL = Ok u →
  Path u = "/" +:+ o +:+ "/" +:+ r +:+ "/" +:+ tok +:+ "/" +:+ num →
  no_slash o → no_slash r → no_slash tok → no_slash num →
  strconv_Atoi num = Ok n →
  NewGitHubHandler rawURL = Ok (mkGitHubHandler o r n)
  ∧ ∀ rawURL' u' suffix,
      url_Parse rawURL' = Ok u' →
      Path u' = Path u +:+ "/" +:+ suffix →
      NewGitHubHandler rawURL' =
        Err ("could not determine PR from URL: " +:+ rawURL').
Proof.
  intros Hu HP Ho Hr Ht Hn Hnum. split.
  - unfold NewGitHubHandler. rewrite Hu, HP, split_path by done.
    rewrite (split_byte_no_sep _ _ Hn). simpl. by rewrite Hnum.
  - intros rawURL' u' suffix Hu' HP'.
    unfold NewGitHubHandler. rewrite Hu', HP', HP.
    rewrite !append_assoc.
    rewrite split_path by done.
    rewrite (slash_append suffix), split_byte_app by done.
    destruct (split_byte "/" suffix) eqn:E; [by apply split_byte_nonempty in E|].
    reflexivity.
Qed.

(** C8 (as amended): [NewGitHubHandler] fails exactly when [url.Parse]
    rejects the URL, or the path does not split into exactly five segments
    (four slashes: empty, too short and too long paths alike), or the fifth
    segment is not an integer [strconv.Atoi] accepts.  The first failure
    carries the error of [url.Parse], the second the message "could not
    determine PR from URL", the third "error parsing PR number". *)
Theorem NewGitHubHandler_failure_conditions rawURL :
  (is_Ok (NewGitHubHandler rawURL) = false ↔
     (∃ e, url_Parse rawURL = Err e)
     ∨ (∃ u, url_Parse rawURL = Ok u ∧
          (count_byte "/" (Path u) ≠ 4%nat
           ∨ is_Ok (strconv_Atoi (nth 4 (strings_Split (Path u) "/") "")) = false)))
  ∧ (∀ e, url_Parse rawURL = Err e → NewGitHubHandler rawURL = Err e)
  ∧ (∀ u, url_Parse rawURL = Ok u →
       count_byte "/" (Path u) ≠ 4%nat →
       NewGitHubHandler rawURL
       = Err ("could not determine PR from URL: " +:+ rawURL))
  ∧ (∀ u, url_Parse rawURL = Ok u →
       count_byte "/" (Path u) = 4%nat →
       is_Ok (strconv_Atoi (nth 4 (strings_Split (Path u) "/") "")) = false →
       NewGitHubHandler rawURL
       = Err ("error parsing PR number: " +:+ nth 4 (strings_Split (Path u) "/") "")).
Proof.
  unfold NewGitHubHandler, strings_Split.
  destruct (url_Parse rawURL) as [u|e].
  - rewrite split_byte_length.
    destruct (Nat.eqb_spec (Datatypes.S (count_byte "/" (Path u))) 5) as [E|E];
      cbn [negb].
    + destruct (strconv_Atoi _) eqn:EA; cbn [is_Ok].
      * repeat split; try done.
        -- intros [[e ?]|(u' & [= <-] & [H|H])]; [done|lia|].
           rewrite EA in H. done.
        -- intros u' [= <-] H. lia.
        -- intros u' [= <-] _. by rewrite EA.
      * repeat split; try done.
        -- intros _. right. exists u. split; [done|]. right. by rewrite EA.
        -- intros u' [= <-] H. lia.
        -- intros u' [= <-] _. by rewrite EA.
    + repeat split; try done.
      * intros _. right. exists u. split; [done|]. left. lia.
      * intros u' [= <-] H. lia.
  - repeat split; try done.
    + intros _. left. by exists e.
    + by intros e' [= <-].
Qed.

Lemma NewGitHubHandler_failure_conditions_witness :
  NewGitHubHandler "" = Err "could not determine PR from URL: "
  ∧ NewGitHubHandler "https://github.com/owner/repo"
    = Err "could not determine PR from URL: https://github.com/owner/repo"
  ∧ NewGitHubHandler "https://github.com/owner/repo/pulls/foo"
    = Err "error parsing PR number: foo".
Proof.
  split; [|split].
  - exact (proj1 (proj2 (proj2 (NewGitHubHandler_failure_conditions "")))
             (mkURL "" "" "" "" "" "") eq_refl ltac:(discriminate)).
  - exact (proj1 (proj2 (proj2
             (NewGitHubHandler_failure_conditions "https://github.com/owner/repo")))
             (mkURL "https" "" "github.com" "/owner/repo" "" "") eq_refl
             ltac:(discriminate)).
  - exact (proj2 (proj2 (proj2
             (NewGitHubHandler_failure_conditions
                "https://github.com/owner/repo/pulls/foo")))
             (mkURL "https" "" "github.com" "/owner/repo/pulls/foo" "" "")
             eq_refl eq_refl eq_refl).
Defined.

(** C8 as stated fails: the handler is not built from a URL whose path
    goes on after the number, although the URL is not empty, has no fewer
    than five segments and carries a number in the fifth; and the empty URL
    and the too short one are refused with one and the same message. *)
Lemma NewGitHubHandler_rejects_extra_segments :
  NewGitHubHandler "https://github.com/owner/repo/pulls/1/files"
  = Err "could not determine PR from URL: https://github.com/owner/repo/pulls/1/files"
  ∧ (∃ u, url_Parse "https://github.com/owner/repo/pulls/1/files" = Ok u
          ∧ length (strings_Split (Path u) "/") = 6%nat
          ∧ strconv_Atoi (nth 4 (strings_Split (Path u) "/") "") = Ok 1)
  ∧ NewGitHubHandler "" = Err ("could not determine PR from URL: " +:+ "")
  ∧ NewGitHubHandler "https://github.com/owner/repo"
    = Err ("could not determine PR from URL: " +:+ "https://github.com/owner/repo").
Proof.
  split; [reflexivity|]. split; [|split; reflexivity].
  eexists. split; [reflexivity|]. split; reflexivity.
Qed.

(** C2 as stated fails: the handler is built from
    [.../owner/repo/pulls/1] and not from the same URL with a trailing
    slash. *)
Lemma NewGitHubHandler_rejects_trailing_slash :
  NewGitHubHandler "https://github.com/owner/repo/pulls/1"
  = Ok (mkGitHubHandler "owner" "repo" 1)
  ∧ NewGitHubHandler "https://github.com/owner/repo/pulls/1/"
    = Err "could not determine PR from URL: https://github.com/owner/repo/pulls/1/"
  ∧ NewGitHubHandler "https://github.com/owner/repo/pulls/1/"
    ≠ Ok (mkGitHubHandler "owner" "repo" 1).
Proof. split; [reflexivity|]. split; [reflexivity|discriminate]. Qed.

(** *** URLs made of a scheme, a host and a plain path *)

Lemma all_bytes_app P a b :
  all_bytes P (a +:+ b) = all_bytes P a && all_bytes P b.
Proof.
  induction a as [|c a IH]; [done|]. rewrite append_cons. simpl.
  by rewrite IH, andb_assoc.
Qed.

Lemma all_bytes_impl (P Q : ascii → bool) s :
  (∀ c, P c = true → Q c = true) → all_bytes P s = true → all_bytes Q s = true.
Proof.
  intros HPQ. induction s as [|c s IH]; [done|]. simpl.
  rewrite !andb_true_iff. intros [? ?]. auto.
Qed.

Lemma segment_path_byte c : segment_byte c = true → path_byte c = true.
Proof. unfold segment_byte. rewrite andb_true_iff. tauto. Qed.

Lemma segment_no_slash s : all_bytes segment_byte s = true → no_slash s.
Proof.
  unfold no_slash. induction s as [|c s IH]; [done|]. simpl.
  unfold segment_byte at 1. rewrite !andb_true_iff, negb_true_iff.
  intros [[_ Hc] Hs]. rewrite Hc. by rewrite IH.
Qed.

Lemma plain_no_CTL s :
  all_bytes path_byte s = true → stringContainsCTLByte s = false.
Proof.
  induction s as [|c s IH]; [done|]. simpl. unfold path_byte at 1.
  rewrite !andb_true_iff, !negb_true_iff. intros [[[[Hc _] _] _] Hs].
  by rewrite Hc, IH.
Qed.

Lemma plain_cut_hash s :
  all_bytes path_byte s = true → cut_byte "#" s = (s, None).
Proof.
  induction s as [|c s IH]; [done|]. simpl. unfold path_byte at 1.
  rewrite !andb_true_iff, !negb_true_iff. intros [[[[_ Hc] _] _] Hs].
  by rewrite Hc, IH.
Qed.

Lemma plain_cut_query s :
  all_bytes path_byte s = true → cut_byte "?" s = (s, None).
Proof.
  induction s as [|c s IH]; [done|]. simpl. unfold path_byte at 1.
  rewrite !andb_true_iff, !negb_true_iff. intros [[[[_ _] Hc] _] Hs].
  by rewrite Hc, IH.
Qed.

Lemma plain_last_byte s :
  all_bytes path_byte s = true →
  match last_byte s with Some "?"%char => true | _ => false end = false.
Proof.
  induction s as [|c s IH]; [done|]. simpl. unfold path_byte at 1.
  rewrite !andb_true_iff, !negb_true_iff. intros [[[[_ _] Hc] _] Hs].
  destruct s as [|d s]; [|by apply IH].
  destruct (Ascii.eqb_spec c "?") as [->|Hne]; [done|].
  destruct c as [[] [] [] [] [] [] [] []]; try done.
Qed.

Lemma plain_unescape s : all_bytes path_byte s = true → unescape s = Ok s.
Proof.
  induction s as [|c s IH]; [done|]. simpl all_bytes. unfold path_byte at 1.
  rewrite !andb_true_iff, !negb_true_iff. intros [[[[_ _] _] Hc] Hs].
  assert (∀ t, unescape (String c t) = match unescape t with
                                        | Ok t' => Ok (String c t')
                                        | Err e => Err e
                                        end) as ->.
  { intros t. destruct (Ascii.eqb_spec c "%") as [->|Hne]; [done|].
    destruct c as [[] [] [] [] [] [] [] []]; try done. }
  by rewrite IH.
Qed.

Lemma index_byte_app c a b :
  index_byte c a = None → index_byte c (a +:+ String c b) = Some (String.length a).
Proof.
  induction a as [|d a IH].
  - intros _. change ("" +:+ String c b) with (String c b). simpl.
    by rewrite Ascii.eqb_refl.
  - rewrite append_cons. simpl. destruct (Ascii.eqb d c); [done|].
    destruct (index_byte c a); [done|]. intros _. by rewrite IH.
Qed.

Lemma substring_app_l a b :
  String.substring 0 (String.length a) (a +:+ b) = a.
Proof.
  induction a as [|c a IH]; [by destruct b|]. rewrite append_cons. simpl.
  by rewrite IH.
Qed.

Lemma substring_app_r a b :
  String.substring (String.length a) (String.length (a +:+ b) - String.length a)
    (a +:+ b) = b.
Proof.
  induction a as [|c a IH].
  - change ("" +:+ b) with b. simpl. rewrite Nat.sub_0_r.
    clear. induction b as [|c b IH]; [done|]. simpl. by rewrite IH.
  - rewrite append_cons. simpl. apply IH.
Qed.

Lemma after_last_at_plain host :
  index_byte "@" host = None → after_last_at host = host.
Proof.
  intros H. unfold after_last_at. by rewrite split_byte_no_sep.
Qed.

Lemma substring_all s : String.substring 0 (String.length s) s = s.
Proof. induction s as [|c s IH]; [done|]. simpl. by rewrite IH. Qed.

Lemma has_prefix_slash s : has_prefix "/" (String "/" s) = true.
Proof. unfold has_prefix. simpl. destruct (ascii_dec "/" "/"); [by destruct s|done]. Qed.

Lemma has_prefix_slash2 s : has_prefix "//" (String "/" (String "/" s)) = true.
Proof.
  unfold has_prefix. simpl. destruct (ascii_dec "/" "/"); [by destruct s|done].
Qed.

(** The authority and the path that [url.Parse] splits [//host/path]
    into. *)
Lemma split_authority host path :
  no_slash host →
  let rest := String "/" (String "/" (host +:+ String "/" path)) in
  let authority := String.substring 2 (String.length rest - 2) rest in
  index_byte "/" authority = Some (String.length host)
  ∧ String.substring 0 (String.length host) authority = host
  ∧ String.substring (String.length host)
      (String.length authority - String.length host) authority
    = String "/" path.
Proof.
  intros Hhost rest authority.
  assert (authority = host +:+ String "/" path) as ->.
  { unfold authority, rest. simpl. rewrite Nat.sub_0_r. apply substring_all. }
  split; [by apply index_byte_app|]. split; [apply substring_app_l|].
  apply substring_app_r.
Qed.

(** For the schemes http, https and ssh, any host and any plain path,
    [url.Parse] returns the path as it is written. *)
Lemma url_Parse_plain scheme host path :
  scheme ∈ ["http"; "https"; "ssh"] →
  all_bytes segment_byte host = true →
  all_bytes path_byte path = true →
  ∃ u, url_Parse (scheme +:+ "://" +:+ host +:+ "/" +:+ path) = Ok u
       ∧ Path u = "/" +:+ path.
Proof.
  intros Hscheme Hhost Hpath.
  assert (Hwhole : all_bytes path_byte (scheme +:+ "://" +:+ host +:+ "/" +:+ path) = true).
  { rewrite !all_bytes_app, Hpath, (all_bytes_impl _ _ _ segment_path_byte Hhost).
    rewrite !andb_true_r.
    repeat (apply elem_of_cons in Hscheme as [->|Hscheme]; [done|]).
    by apply elem_of_nil in Hscheme. }
  assert (Hrest : all_bytes path_byte ("//" +:+ host +:+ "/" +:+ path) = true).
  { rewrite !all_bytes_app, Hpath, (all_bytes_impl _ _ _ segment_path_byte Hhost). done. }
  assert (Hslash : all_bytes path_byte (String "/" path) = true).
  { simpl. by rewrite Hpath. }
  unfold url_Parse. rewrite plain_cut_hash by done.
  assert (url_parse (scheme +:+ "://" +:+ host +:+ "/" +:+ path)
          = Ok (mkURL scheme "" (after_last_at host) ("/" +:+ path) "" "")) as ->;
    [|by eexists].
  unfold url_parse. rewrite plain_no_CTL by done.
  assert (String.eqb (scheme +:+ "://" +:+ host +:+ "/" +:+ path) "*" = false
          ∧ getScheme (scheme +:+ "://" +:+ host +:+ "/" +:+ path)
            = Ok (scheme, "//" +:+ host +:+ "/" +:+ path)
          ∧ lower scheme = scheme ∧ String.eqb scheme "" = false) as (-> & -> & -> & Hs).
  { repeat (apply elem_of_cons in Hscheme as [->|Hscheme]; [done|]).
    by apply elem_of_nil in Hscheme. }
  rewrite plain_last_byte by done. cbn [andb].
  rewrite plain_cut_query by done.
  change ("//" +:+ host +:+ "/" +:+ path)
    with (String "/" (String "/" (host +:+ String "/" path))).
  rewrite has_prefix_slash, has_prefix_slash2, Hs. cbn [negb andb orb].
  destruct (split_authority host path (segment_no_slash _ Hhost)) as (-> & -> & ->).
  by rewrite plain_unescape.
Qed.

Lemma digit_segment_byte c d : digit_value c = Some d → segment_byte c = true.
Proof. destruct c as [[] [] [] [] [] [] [] []]; done. Qed.

Lemma parse_digits_segment s acc n :
  parse_digits acc s = Some n → all_bytes segment_byte s = true.
Proof.
  revert acc. induction s as [|c s IH]; intros acc; [done|]. simpl.
  destruct (digit_value c) as [d|] eqn:E; [|done].
  intros H. rewrite (digit_segment_byte _ _ E). by eapply IH.
Qed.

(** What [strconv.Atoi] accepts is a path segment. *)
Lemma strconv_Atoi_segment s n :
  strconv_Atoi s = Ok n → all_bytes segment_byte s = true.
Proof.
  unfold strconv_Atoi.
  assert (Hbody : ∀ neg body,
    match body with
    | "" => Err "strconv.Atoi: invalid syntax"
    | _ =>
        match parse_digits 0 body with
        | None => Err "strconv.Atoi: invalid syntax"
        | Some n0 =>
            let v := if neg : bool then - n0 else n0 in
            if (MinInt <=? v) && (v <=? MaxInt) then Ok v
            else Err "strconv.Atoi: value out of range"
        end
    end = Ok n → all_bytes segment_byte body = true).
  { intros neg [|c body]; [done|].
    destruct (parse_digits 0 (String c body)) eqn:E; [|done].
    intros _. by eapply parse_digits_segment. }
  destruct s as [|c s]; [done|].
  destruct (Ascii.eqb_spec c "-") as [->|Hm].
  { intros H. apply (Hbody true s) in H. simpl. by rewrite H. }
  destruct (Ascii.eqb_spec c "+") as [->|Hp].
  { intros H. apply (Hbody false s) in H. simpl. by rewrite H. }
  intros H. apply (Hbody false (String c s)). revert H.
  destruct c as [[] [] [] [] [] [] [] []]; try done.
Qed.

Lemma host_segment_byte c : host_byte c = true → segment_byte c = true.
Proof. destruct c as [[] [] [] [] [] [] [] []]; done. Qed.

(** C2 (as amended): for the schemes http, https and ssh, any host name,
    any owner, repository and fourth segment, and any number
    [strconv.Atoi] accepts, [NewGitHubHandler] resolves
    [scheme://host/owner/repo/token/number] to [(owner, repo, number)]; the
    same URL followed by a slash, and by anything after it, is refused. *)
Theorem NewGitHubHandler_exact_shape scheme host o r tok num n :
  scheme ∈ ["http"; "https"; "ssh"] →
  all_bytes host_byte host = true →
  all_bytes segment_byte o = true →
  all_bytes segment_byte r = true →
  all_bytes segment_byte tok = true →
  strconv_Atoi num = Ok n →
  NewGitHubHandler
    (scheme +:+ "://" +:+ host +:+ "/" +:+ o +:+ "/" +:+ r +:+ "/" +:+ tok
     +:+ "/" +:+ num)
  = Ok (mkGitHubHandler o r n)
  ∧ ∀ suffix,
      all_bytes path_byte suffix = true →
      NewGitHubHandler
        (scheme +:+ "://" +:+ host +:+ "/" +:+ o +:+ "/" +:+ r +:+ "/" +:+ tok
         +:+ "/" +:+ num +:+ "/" +:+ suffix)
      = Err ("could not determine PR from URL: "
             +:+ scheme +:+ "://" +:+ host +:+ "/" +:+ o +:+ "/" +:+ r +:+ "/"
             +:+ tok +:+ "/" +:+ num +:+ "/" +:+ suffix).
Proof.
  intros Hscheme Hhost Ho Hr Htok Hnum.
  apply (all_bytes_impl _ _ _ host_segment_byte) in Hhost.
  pose proof (strconv_Atoi_segment _ _ Hnum) as Hn.
  assert (Hpath : ∀ tail, all_bytes path_byte tail = true →
            all_bytes path_byte (o +:+ "/" +:+ r +:+ "/" +:+ tok +:+ "/" +:+ tail) = true).
  { intros tail Htail. rewrite !all_bytes_app, Htail.
    by rewrite (all_bytes_impl _ _ o segment_path_byte Ho),
      (all_bytes_impl _ _ r segment_path_byte Hr),
      (all_bytes_impl _ _ tok segment_path_byte Htok). }
  destruct (url_Parse_plain scheme host (o +:+ "/" +:+ r +:+ "/" +:+ tok +:+ "/" +:+ num))
    as (u & Hu & HP); [done|done| |].
  { apply Hpath. by apply (all_bytes_impl _ _ _ segment_path_byte). }
  destruct (NewGitHubHandler_of_path _ u o r tok num n Hu HP) as [Hok Hsuffix];
    [by apply segment_no_slash..|done|].
  split; [done|]. intros suffix Hsuf.
  destruct (url_Parse_plain scheme host
              (o +:+ "/" +:+ r +:+ "/" +:+ tok +:+ "/" +:+ num +:+ "/" +:+ suffix))
    as (u' & Hu' & HP'); [done|done| |].
  { apply Hpath. rewrite !all_bytes_app, Hsuf.
    by rewrite (all_bytes_impl _ _ num segment_path_byte Hn). }
  apply (Hsuffix _ u' suffix Hu'). rewrite HP', HP.
  by rewrite !append_assoc.
Qed.

Lemma NewGitHubHandler_exact_shape_witness :
  NewGitHubHandler "ssh://example.com/owner/repo/foo/1"
  = Ok (mkGitHubHandler "owner" "repo" 1)
  ∧ NewGitHubHandler "ssh://example.com/owner/repo/foo/1/files"
    = Err "could not determine PR from URL: ssh://example.com/owner/repo/foo/1/files".
Proof.
  destruct (NewGitHubHandler_exact_shape "ssh" "example.com" "owner" "repo" "foo"
              "1" 1 ltac:(compute_done) eq_refl eq_refl eq_refl eq_refl eq_refl)
    as [H1 H2].
  split; [exact H1|]. exact (H2 "files" eq_refl).
Defined.
(** *** the synchronisation engine, against any provider *)

Section Synchronisation.

Context {S : Type} (client : Client S).
Context (range_map : gmap Z Comment → list (Z * Comment)).
Hypothesis range_map_perm : ∀ m, range_map m ≡ₚ map_to_list m.

(** **** sequencing *)

Lemma bind_run {A B} (m : M S A) (f : A → M S B) w r w' evs :
  bind m f w = (r, w', evs) →
  (∃ e, m w = (Err e, w', evs) ∧ r = Err e) ∨
  (∃ a w1 evs1 evs2,
      m w = (Ok a, w1, evs1) ∧ f a w1 = (r, w', evs2) ∧ evs = evs1 ++ evs2).
Proof.
  unfold bind. destruct (m w) as [[[a|e] w1] evs1].
  - destruct (f a w1) as [[r2 w2] evs2] eqn:E. intros [= <- <- <-].
    right. by exists a, w1, evs1, evs2.
  - intros [= <- <- <-]. left. by exists e.
Qed.

Lemma well_behaved_ret {A} (a : A) : well_behaved client (ret a).
Proof.
  intros w r w' evs [= <- <- <-]. repeat split; by constructor.
Qed.

Lemma well_behaved_bind {A B} (m : M S A) (f : A → M S B) :
  well_behaved client m → (∀ a, well_behaved client (f a)) →
  well_behaved client (bind m f).
Proof.
  intros Hm Hf w r w' evs Hrun.
  apply bind_run in Hrun as [(e & Hrun & ->)|(a & w1 & evs1 & evs2 & Hrun1 & Hrun2 & ->)].
  - destruct (Hm _ _ _ _ Hrun) as (H1 & H2 & H3). repeat split; try done.
    destruct H1 as [H1|(pre & ev & e' & -> & Hpre & Hev & [= ->])]; [by left|].
    right. by exists pre, ev, e'.
  - destruct (Hm _ _ _ _ Hrun1) as (_ & H2 & H3).
    destruct (Hf a _ _ _ _ Hrun2) as (K1 & K2 & K3).
    specialize (H2 eq_refl).
    split; [|split].
    + destruct K1 as [K1|(pre & ev & e' & -> & Hpre & Hev & ->)].
      * left. by apply Forall_app.
      * right. exists (evs1 ++ pre), ev, e'. rewrite app_assoc.
        repeat split; try done. by apply Forall_app.
    + intros Hr. apply Forall_app. auto.
    + by rewrite K3, H3, foldl_app.
Qed.

Ltac client_call :=
  let res := fresh "res" in let s := fresh "s" in let E := fresh "E" in
  intros ? ? ? ?; cbv beta delta [PullRequests_Get Issues_ListComments
    Issues_ReplaceLabelsForIssue Issues_DeleteComment Issues_EditComment
    Issues_CreateComment];
  match goal with
  | |- (let '(_, _) := ?call in _) = _ → _ => destruct call as [res s] eqn:E
  end;
  intros [= <- <- <-]; simpl; rewrite E; simpl;
  split; [|split; [|reflexivity]];
  [ destruct res as [a|e];
    [ left; by repeat constructor
    | right; eexists [], _, e; repeat split; by constructor ]
  | intros Hr; destruct res; [by repeat constructor|discriminate] ].

Lemma well_behaved_PullRequests_Get o r n :
  well_behaved client (PullRequests_Get client o r n).
Proof. client_call. Qed.
Lemma well_behaved_ListComments o r n :
  well_behaved client (Issues_ListComments client o r n).
Proof. client_call. Qed.
Lemma well_behaved_ReplaceLabels o r n l :
  well_behaved client (Issues_ReplaceLabelsForIssue client o r n l).
Proof. client_call. Qed.
Lemma well_behaved_DeleteComment o r n :
  well_behaved client (Issues_DeleteComment client o r n).
Proof. client_call. Qed.
Lemma well_behaved_EditComment o r n c :
  well_behaved client (Issues_EditComment client o r n c).
Proof. client_call. Qed.
Lemma well_behaved_CreateComment o r n c :
  well_behaved client (Issues_CreateComment client o r n c).
Proof. client_call. Qed.

Lemma well_behaved_writeJSON path d : well_behaved client (writeJSON path d).
Proof.
  intros w r w' evs [= <- <- <-]. repeat split; by constructor.
Qed.

Lemma well_behaved_readJSON path : well_behaved client (readJSON path).
Proof.
  intros w r w' evs. unfold readJSON.
  destruct (files w !! path) as [[]|]; intros [= <- <- <-];
    repeat split; by constructor.
Qed.

Lemma well_behaved_Upload_existing h existing desired :
  well_behaved client (Upload_existing client h existing desired).
Proof.
  revert desired. induction existing as [|ec rest IH]; intros desired; simpl.
  - apply well_behaved_ret.
  - apply well_behaved_bind; [|intros; apply IH].
    destruct (desired !! _) as [dc|].
    + destruct (negb _); [apply well_behaved_EditComment|apply well_behaved_ret].
    + apply well_behaved_DeleteComment.
Qed.

Lemma well_behaved_Upload_create h desired :
  well_behaved client (Upload_create client h desired).
Proof.
  induction desired as [|[id dc] rest IH]; simpl.
  - apply well_behaved_ret.
  - apply well_behaved_bind; [apply well_behaved_CreateComment|intros; apply IH].
Qed.

Lemma well_behaved_Upload h dir :
  well_behaved client (Upload client range_map h dir).
Proof.
  unfold Upload.
  apply well_behaved_bind; [apply well_behaved_readJSON|intros pr].
  apply well_behaved_bind; [apply well_behaved_ReplaceLabels|intros _].
  apply well_behaved_bind; [apply well_behaved_ListComments|intros existing].
  apply well_behaved_bind; [apply well_behaved_Upload_existing|intros desired].
  apply well_behaved_Upload_create.
Qed.


(** **** the kind of calls a method issues *)

Lemma emits_ret {A} P (a : A) : emits (S:=S) P (ret a).
Proof. intros w r w' evs [= <- <- <-]. by split. Qed.

Lemma emits_bind {A B} P (m : M S A) (f : A → M S B) :
  emits P m → (∀ a, emits P (f a)) → emits P (bind m f).
Proof.
  intros Hm Hf w r w' evs Hrun.
  apply bind_run in Hrun as [(e & Hrun & ->)|(a & w1 & evs1 & evs2 & Hrun1 & Hrun2 & ->)].
  - eauto.
  - destruct (Hm _ _ _ _ Hrun1), (Hf _ _ _ _ _ Hrun2).
    split; [by apply Forall_app|congruence].
Qed.

Ltac emits_call :=
  intros ? ? ? ?; cbv beta delta [PullRequests_Get Issues_ListComments
    Issues_ReplaceLabelsForIssue Issues_DeleteComment Issues_EditComment
    Issues_CreateComment];
  match goal with
  | |- (let '(_, _) := ?call in _) = _ → _ => destruct call
  end;
  intros [= <- <- <-]; split; [by repeat constructor|reflexivity].

Lemma emits_Upload_existing h existing desired :
  emits is_comment_mutation (Upload_existing client h existing desired).
Proof.
  revert desired. induction existing as [|ec rest IH]; intros desired; simpl.
  - apply emits_ret.
  - apply emits_bind; [|intros; apply IH].
    destruct (desired !! _) as [dc|]; [destruct (negb _)|];
      [emits_call|apply emits_ret|emits_call].
Qed.

Lemma emits_Upload_create h desired :
  emits is_comment_mutation (Upload_create client h desired).
Proof.
  induction desired as [|[id dc] rest IH]; simpl.
  - apply emits_ret.
  - apply emits_bind; [emits_call|intros; apply IH].
Qed.

(** **** runs of the client calls *)

Lemma ReplaceLabels_run o r n l w res w' evs :
  Issues_ReplaceLabelsForIssue client o r n l w = (res, w', evs) →
  evs = [EvReplaceLabelsForIssue o r n l res] ∧ files w' = files w.
Proof.
  unfold Issues_ReplaceLabelsForIssue.
  destruct (client_Issues_ReplaceLabelsForIssue _ _ _ _ _ _).
  by intros [= <- <- <-].
Qed.

Lemma ListComments_run o r n w res w' evs :
  Issues_ListComments client o r n w = (res, w', evs) →
  evs = [EvListComments o r n res] ∧ files w' = files w.
Proof.
  unfold Issues_ListComments. destruct (client_Issues_ListComments _ _ _ _ _).
  by intros [= <- <- <-].
Qed.

Lemma PullRequests_Get_run o r n w res w' evs :
  PullRequests_Get client o r n w = (res, w', evs) →
  evs = [EvPullRequestsGet o r n res] ∧ files w' = files w.
Proof.
  unfold PullRequests_Get. destruct (client_PullRequests_Get _ _ _ _ _).
  by intros [= <- <- <-].
Qed.

Lemma DeleteComment_run o r n w res w' evs :
  Issues_DeleteComment client o r n w = (res, w', evs) →
  evs = [EvDeleteComment o r n res] ∧ files w' = files w.
Proof.
  unfold Issues_DeleteComment. destruct (client_Issues_DeleteComment _ _ _ _ _).
  by intros [= <- <- <-].
Qed.

Lemma EditComment_run o r n c w res w' evs :
  Issues_EditComment client o r n c w = (res, w', evs) →
  evs = [EvEditComment o r n c res] ∧ files w' = files w.
Proof.
  unfold Issues_EditComment. destruct (client_Issues_EditComment _ _ _ _ _ _).
  by intros [= <- <- <-].
Qed.

Lemma CreateComment_run o r n c w res w' evs :
  Issues_CreateComment client o r n c w = (res, w', evs) →
  evs = [EvCreateComment o r n c res] ∧ files w' = files w.
Proof.
  unfold Issues_CreateComment. destruct (client_Issues_CreateComment _ _ _ _ _ _).
  by intros [= <- <- <-].
Qed.

Lemma readJSON_run path (w : World S) res w' evs :
  readJSON path w = (res, w', evs) →
  w' = w ∧ evs = [] ∧
  ∀ pr, res = Ok pr → files w !! path = Some (DocPullRequest pr).
Proof.
  unfold readJSON. destruct (files w !! path) as [[]|];
    intros [= <- <- <-]; repeat split; congruence.
Qed.

Lemma readJSON_ok path (w : World S) pr :
  files w !! path = Some (DocPullRequest pr) →
  readJSON (S:=S) path w = (Ok pr, w, []).
Proof. unfold readJSON. by intros ->. Qed.

(** **** complete runs of Upload *)

Lemma Upload_existing_ok h existing desired w m w' evs :
  Upload_existing client h existing desired w = (Ok m, w', evs) →
  m = remaining desired existing ∧ files w' = files w
  ∧ evs = sync_events h desired existing.
Proof.
  revert desired w m evs.
  induction existing as [|ec rest IH]; intros desired w m evs; simpl.
  - by intros [= <- <- <-].
  - intros Hrun.
    apply bind_run in Hrun as [(e & _ & [=])|(a & w1 & evs1 & evs2 & Hrun1 & Hrun2 & ->)].
    apply IH in Hrun2 as (-> & Hf & ->).
    unfold existing_events.
    destruct (desired !! _) as [dc|].
    + destruct (String.eqb _ _); simpl in Hrun1.
      * injection Hrun1 as <- <- <-. done.
      * apply EditComment_run in Hrun1 as [-> Hf1].
        assert (a = tt) as -> by by destruct a.
        split; [done|]. split; [congruence|].
        done.
    + apply DeleteComment_run in Hrun1 as [-> Hf1].
      assert (a = tt) as -> by by destruct a.
      split; [done|]. split; [congruence|]. done.
Qed.

Lemma Upload_create_ok h desired w w' evs :
  Upload_create client h desired w = (Ok tt, w', evs) →
  files w' = files w ∧ evs = create_event h <$> (snd <$> desired).
Proof.
  revert w evs. induction desired as [|[id dc] rest IH]; intros w evs; simpl.
  - by intros [= <- <-].
  - intros Hrun.
    apply bind_run in Hrun as [(e & _ & [=])|(a & w1 & evs1 & evs2 & Hrun1 & Hrun2 & ->)].
    apply IH in Hrun2 as (Hf & ->).
    apply CreateComment_run in Hrun1 as [-> Hf1]. destruct a.
    split; [congruence|done].
Qed.

Lemma elems_foldl_append {A B} (f : A → B) (l : list A) (acc : slice B) :
  foldl (λ acc x, append acc (f x)) acc l = mk_slice (elems acc ++ (f <$> l))
  ∨ (l = [] ∧ foldl (λ acc x, append acc (f x)) acc l = acc).
Proof.
  revert acc. induction l as [|x l IH]; intros acc; simpl; [by right|].
  left. destruct (IH (append acc (f x))) as [->|[-> ->]]; simpl.
  - by rewrite <- app_assoc.
  - done.
Qed.

Lemma Upload_labelNames_elems pr :
  elems (Upload_labelNames pr) = Label_Text <$> elems (PullRequest_Labels pr).
Proof.
  unfold Upload_labelNames.
  destruct (elems_foldl_append Label_Text (elems (PullRequest_Labels pr))
              (make (len (PullRequest_Labels pr)))) as [->|[-> ->]]; done.
Qed.

(** A complete run of [Upload]: the record was read, and the calls are the
    label replacement, the listing, one call per existing comment that is
    gone or changed, and one creation per desired comment that is left. *)
Lemma Upload_ok h dir w w' evs :
  Upload client range_map h dir w = (Ok tt, w', evs) →
  ∃ pr existing,
    files w !! filepath_Join dir prFile = Some (DocPullRequest pr)
    ∧ files w' = files w
    ∧ evs =
        EvReplaceLabelsForIssue (owner h) (repo h) (prNum h)
          (Label_Text <$> elems (PullRequest_Labels pr)) (Ok tt)
        :: EvListComments (owner h) (repo h) (prNum h) (Ok existing)
        :: sync_events h (Upload_desiredComments pr) existing
        ++ (create_event h <$>
              (snd <$> range_map (remaining (Upload_desiredComments pr) existing))).
Proof.
  unfold Upload. intros Hrun.
  apply bind_run in Hrun as [(e & _ & [=])|(pr & w1 & evs1 & evs2 & Hrun1 & Hrun & ->)].
  apply readJSON_run in Hrun1 as (-> & -> & Hpr). specialize (Hpr _ eq_refl).
  apply bind_run in Hrun as [(e & _ & [=])|([] & w2 & evs1 & evs3 & Hrun1 & Hrun & ->)].
  apply ReplaceLabels_run in Hrun1 as [-> Hf1].
  apply bind_run in Hrun as [(e & _ & [=])|(existing & w3 & evs1 & evs4 & Hrun1 & Hrun & ->)].
  apply ListComments_run in Hrun1 as [-> Hf2].
  apply bind_run in Hrun as [(e & _ & [=])|(rem & w4 & evs1 & evs5 & Hrun1 & Hrun & ->)].
  apply Upload_existing_ok in Hrun1 as (-> & Hf3 & ->).
  apply Upload_create_ok in Hrun as [Hf4 ->].
  exists pr, existing. rewrite Upload_labelNames_elems.
  split; [done|]. split; [congruence|]. done.
Qed.



(** **** the desired comments *)

Lemma lookup_foldl_insert_None (l : list Comment) (m : gmap Z Comment) id :
  foldl (λ m c, <[Comment_ID c := c]> m) m l !! id = None
  ↔ m !! id = None ∧ id ∉ Comment_ID <$> l.
Proof.
  revert m. induction l as [|c l IH]; intros m; simpl.
  - split; [intros H; split; [done|apply not_elem_of_nil]|by intros [? _]].
  - rewrite IH, not_elem_of_cons, lookup_insert_None. intuition congruence.
Qed.

Lemma desiredComments_None pr id :
  Upload_desiredComments pr !! id = None
  ↔ id ∉ Comment_ID <$> elems (PullRequest_Comments pr).
Proof.
  unfold Upload_desiredComments. rewrite lookup_foldl_insert_None.
  rewrite lookup_empty. tauto.
Qed.

Lemma lookup_foldl_insert_Some (l : list Comment) (m : gmap Z Comment) id dc :
  foldl (λ m c, <[Comment_ID c := c]> m) m l !! id = Some dc →
  m !! id = Some dc ∨ (dc ∈ l ∧ Comment_ID dc = id).
Proof.
  revert m. induction l as [|c l IH]; intros m; simpl; [by left|].
  intros H. apply IH in H as [H|[H1 H2]].
  - apply lookup_insert_Some in H as [[<- <-]|[_ H]]; [right|by left].
    split; [by left|done].
  - right. split; [by right|done].
Qed.

Lemma desiredComments_Some pr id dc :
  Upload_desiredComments pr !! id = Some dc →
  dc ∈ elems (PullRequest_Comments pr) ∧ Comment_ID dc = id.
Proof.
  intros H. apply lookup_foldl_insert_Some in H as [H|H]; [|done].
  by rewrite lookup_empty in H.
Qed.

(** Under each ID [desiredComments] holds the comment the record holds
    under it. *)
Lemma lookup_foldl_insert_last (l : list Comment) id :
  foldl (λ m c, <[Comment_ID c := c]> m) (∅ : gmap Z Comment) l !! id
  = last (List.filter (λ c, bool_decide (Comment_ID c = id)) l).
Proof.
  induction l as [|c l IH] using rev_ind; [done|].
  rewrite foldl_app, List.filter_app. cbn [foldl List.filter].
  destruct (decide (Comment_ID c = id)) as [Heq|Hne].
  - rewrite bool_decide_eq_true_2 by done. rewrite last_snoc.
    by rewrite Heq, lookup_insert_eq.
  - rewrite bool_decide_eq_false_2 by done. rewrite app_nil_r.
    by rewrite lookup_insert_ne.
Qed.

Lemma desiredComments_record_comment pr id :
  Upload_desiredComments pr !! id = record_comment pr id.
Proof. apply lookup_foldl_insert_last. Qed.

Lemma record_comment_Some pr id dc :
  record_comment pr id = Some dc →
  dc ∈ elems (PullRequest_Comments pr) ∧ Comment_ID dc = id.
Proof. rewrite <- desiredComments_record_comment. apply desiredComments_Some. Qed.

Lemma record_comment_is_Some pr id :
  is_Some (record_comment pr id)
  ↔ id ∈ Comment_ID <$> elems (PullRequest_Comments pr).
Proof.
  rewrite <- desiredComments_record_comment, <- not_eq_None_Some.
  rewrite desiredComments_None.
  destruct (decide (id ∈ Comment_ID <$> elems (PullRequest_Comments pr))); tauto.
Qed.

Lemma lookup_remaining desired existing id :
  remaining desired existing !! id =
    if decide (id ∈ github.IssueComment_GetID <$> existing) then None
    else desired !! id.
Proof.
  unfold remaining. revert desired.
  induction existing as [|ec rest IH]; intros desired.
  - rewrite decide_False; [done|apply not_elem_of_nil].
  - rewrite fmap_cons. cbn [foldl]. rewrite IH.
    destruct (decide (id ∈ github.IssueComment_GetID <$> rest)) as [Hin|Hnin].
    + rewrite decide_True; [done|by right].
    + destruct (decide (id = github.IssueComment_GetID ec)) as [->|Hne].
      * rewrite decide_True; [apply lookup_delete_eq|by left].
      * rewrite decide_False, lookup_delete_ne; [done|done|].
        rewrite not_elem_of_cons. done.
Qed.

(** **** the calls per existing comment *)

Lemma existing_events_delete h desired id ec :
  github.IssueComment_GetID ec ≠ id →
  existing_events h (delete id desired) ec = existing_events h desired ec.
Proof. intros Hne. unfold existing_events. by rewrite lookup_delete_ne. Qed.

Lemma existing_events_lookup h desired desired' ec :
  desired' !! github.IssueComment_GetID ec = desired !! github.IssueComment_GetID ec →
  existing_events h desired' ec = existing_events h desired ec.
Proof. unfold existing_events. by intros ->. Qed.

Lemma sync_events_agree h desired desired' existing :
  (∀ ec, ec ∈ existing →
     desired' !! github.IssueComment_GetID ec = desired !! github.IssueComment_GetID ec) →
  NoDup (github.IssueComment_GetID <$> existing) →
  sync_events h desired' existing = flat_map (existing_events h desired) existing.
Proof.
  revert desired'. induction existing as [|ec rest IH]; intros desired' Hagree; [done|].
  rewrite fmap_cons, NoDup_cons. intros [Hnotin Hnd]. simpl. f_equal.
  - apply existing_events_lookup, Hagree. by left.
  - apply IH; [|done]. intros ec' Hin.
    rewrite lookup_delete_ne; [apply Hagree; by right|].
    intros Heq. apply Hnotin. rewrite Heq. apply list_elem_of_fmap. by exists ec'.
Qed.

Lemma sync_events_flat_map h desired existing :
  NoDup (github.IssueComment_GetID <$> existing) →
  sync_events h desired existing = flat_map (existing_events h desired) existing.
Proof. by apply sync_events_agree. Qed.

Lemma filter_flat_map_nil {A B} (P : B → bool) (f : A → list B) (l : list A) :
  (∀ y, y ∈ l → List.filter P (f y) = []) →
  List.filter P (flat_map f l) = [].
Proof.
  induction l as [|y l IH]; intros Hnil; [done|]. simpl.
  rewrite List.filter_app, Hnil, IH; [done| |by left].
  intros z Hz. apply Hnil. by right.
Qed.

(** In a list without duplicate keys, the elements that [f] yields for
    the key of [x] are those it yields for [x]. *)
Lemma filter_flat_map_single {A B} (P : B → bool) (f : A → list B)
    (key : A → Z) (l : list A) (x : A) :
  NoDup (key <$> l) → x ∈ l →
  (∀ y, key y ≠ key x → List.filter P (f y) = []) →
  List.filter P (flat_map f l) = List.filter P (f x).
Proof.
  intros Hnd Hx Hother. induction l as [|y l IH]; [by apply elem_of_nil in Hx|].
  rewrite fmap_cons, NoDup_cons in Hnd. destruct Hnd as [Hy Hnd].
  simpl. rewrite List.filter_app.
  apply elem_of_cons in Hx as [->|Hx].
  - rewrite filter_flat_map_nil, app_nil_r; [done|].
    intros z Hz. apply Hother. intros Heq. apply Hy. rewrite <- Heq.
    apply list_elem_of_fmap. by exists z.
  - rewrite Hother; [by apply IH|].
    intros Heq. apply Hy. rewrite Heq. apply list_elem_of_fmap. by exists x.
Qed.

Lemma filter_existing_events_other h desired ec id :
  github.IssueComment_GetID ec ≠ id →
  List.filter (deletes id) (existing_events h desired ec) = []
  ∧ List.filter (edits id) (existing_events h desired ec) = [].
Proof.
  intros Hne. unfold existing_events.
  destruct (desired !! _); [destruct (String.eqb _ _)|]; simpl;
    rewrite ?bool_decide_eq_false_2 by done; done.
Qed.

Lemma filter_create_events (P : Event → bool) h (l : list Comment) :
  (∀ dc, P (create_event h dc) = false) →
  List.filter P (create_event h <$> l) = [].
Proof. intros HP. induction l as [|dc l IH]; simpl; [done|]. by rewrite HP. Qed.

(** The calls of a complete run that address one existing comment are the
    ones issued when the loop visits it. *)
Lemma filter_Upload_events (P : Event → bool) h pr existing ec :
  NoDup (github.IssueComment_GetID <$> existing) →
  ec ∈ existing →
  (∀ o r n l res, P (EvReplaceLabelsForIssue o r n l res) = false) →
  (∀ o r n res, P (EvListComments o r n res) = false) →
  (∀ dc, P (create_event h dc) = false) →
  (∀ ec', github.IssueComment_GetID ec' ≠ github.IssueComment_GetID ec →
     List.filter P (existing_events h (Upload_desiredComments pr) ec') = []) →
  List.filter P
    (EvReplaceLabelsForIssue (owner h) (repo h) (prNum h)
       (Label_Text <$> elems (PullRequest_Labels pr)) (Ok tt)
     :: EvListComments (owner h) (repo h) (prNum h) (Ok existing)
     :: sync_events h (Upload_desiredComments pr) existing
     ++ (create_event h <$>
           (snd <$> range_map (remaining (Upload_desiredComments pr) existing))))
  = List.filter P (existing_events h (Upload_desiredComments pr) ec).
Proof.
  intros Hnd Hin H1 H2 H3 H4. simpl. rewrite H1, H2, List.filter_app.
  rewrite filter_create_events, app_nil_r by done.
  rewrite sync_events_flat_map by done.
  by apply (filter_flat_map_single P _ github.IssueComment_GetID).
Qed.

Lemma ListComments_in_Upload h pr existing existing' :
  In (EvListComments (owner h) (repo h) (prNum h) (Ok existing'))
    (EvReplaceLabelsForIssue (owner h) (repo h) (prNum h)
       (Label_Text <$> elems (PullRequest_Labels pr)) (Ok tt)
     :: EvListComments (owner h) (repo h) (prNum h) (Ok existing)
     :: sync_events h (Upload_desiredComments pr) existing
     ++ (create_event h <$>
           (snd <$> range_map (remaining (Upload_desiredComments pr) existing)))) →
  existing' = existing.
Proof.
  intros [H|[H|H]]; [done|congruence|exfalso].
  apply in_app_or in H as [H|H].
  - revert H. generalize (Upload_desiredComments pr).
    induction existing as [|ec rest IH]; intros desired; simpl; [done|].
    intros H. apply in_app_or in H as [H|H]; [|by eapply IH].
    unfold existing_events in H.
    destruct (desired !! _); [destruct (String.eqb _ _)|]; simpl in H;
      intuition discriminate.
  - apply list_elem_of_In, list_elem_of_fmap in H as (dc & H & _). done.
Qed.

(** C5: in a complete run of [Upload] against a provider whose comments
    [existing] have pairwise distinct IDs, an existing comment whose ID no
    comment of the record has is deleted by exactly one call (and not
    edited); an existing comment whose ID some comment of the record has is
    not deleted; and when the comment the record holds under that ID (the
    last one, should several of its comments share the ID) has the text of
    the existing comment, the existing comment is neither deleted nor
    edited. *)
Theorem Upload_deletes_removed_comments h dir (w w' : World S) evs pr existing ec :
  files w !! filepath_Join dir prFile = Some (DocPullRequest pr) →
  Upload client range_map h dir w = (Ok tt, w', evs) →
  In (EvListComments (owner h) (repo h) (prNum h) (Ok existing)) evs →
  NoDup (github.IssueComment_GetID <$> existing) →
  ec ∈ existing →
  (github.IssueComment_GetID ec ∉ Comment_ID <$> elems (PullRequest_Comments pr) →
     List.filter (deletes (github.IssueComment_GetID ec)) evs
       = [EvDeleteComment (owner h) (repo h) (github.IssueComment_GetID ec) (Ok tt)]
     ∧ List.filter (edits (github.IssueComment_GetID ec)) evs = [])
  ∧ (github.IssueComment_GetID ec ∈ Comment_ID <$> elems (PullRequest_Comments pr) →
     List.filter (deletes (github.IssueComment_GetID ec)) evs = [])
  ∧ (∀ dc,
       record_comment pr (github.IssueComment_GetID ec) = Some dc →
       Comment_Text dc = github.IssueComment_GetBody ec →
       List.filter (deletes (github.IssueComment_GetID ec)) evs = []
       ∧ List.filter (edits (github.IssueComment_GetID ec)) evs = []).
Proof.
  intros Hfile Hrun Hlist Hnd Hin.
  apply Upload_ok in Hrun as (pr' & existing' & Hfile' & _ & ->).
  assert (pr' = pr) as -> by congruence.
  apply ListComments_in_Upload in Hlist as ->.
  rewrite !(filter_Upload_events _ h pr existing' ec)
    by (try done; intros; by apply filter_existing_events_other).
  unfold existing_events. rewrite desiredComments_record_comment.
  split; [|split].
  - intros Hgone. apply desiredComments_None in Hgone.
    rewrite desiredComments_record_comment in Hgone. rewrite Hgone. simpl.
    by rewrite bool_decide_eq_true_2.
  - intros [dc ->]%record_comment_is_Some. by destruct (String.eqb _ _).
  - intros dc -> ->. by rewrite String.eqb_refl.
Qed.


(** **** the paths Download writes *)

Lemma length_append (a b : string) :
  String.length (a +:+ b) = (String.length a + String.length b)%nat.
Proof. induction a as [|x a IH]; [done|]. rewrite append_cons. simpl. by rewrite IH. Qed.

Lemma append_inj_r (a b c : string) : a +:+ c = b +:+ c → a = b.
Proof.
  revert b. induction a as [|x a IH]; intros [|y b] H.
  - done.
  - apply (f_equal String.length) in H. rewrite !length_append in H. simpl in H. lia.
  - apply (f_equal String.length) in H. rewrite !length_append in H. simpl in H. lia.
  - rewrite !append_cons in H. injection H as -> H. f_equal. by apply IH.
Qed.

Lemma append_nil_r (a : string) : a +:+ "" = a.
Proof. induction a as [|x a IH]; [done|]. by rewrite append_cons, IH. Qed.

Lemma append_nonempty (a b : string) : b ≠ "" → a +:+ b ≠ "".
Proof. destruct a; [done|]. by rewrite append_cons. Qed.

Lemma filepath_Join_prefix (a b : string) :
  b ≠ "" → filepath_Join a b = dir_prefix a +:+ b.
Proof.
  intros Hb. unfold filepath_Join, dir_prefix.
  destruct a; [done|]. destruct b; [done|]. by rewrite append_assoc.
Qed.

Lemma dir_prefix_nonempty (a : string) : a ≠ "" → dir_prefix a = a +:+ "/".
Proof. by destruct a. Qed.

(** The four kinds of path [Download] writes, below the directory [dir]. *)
Lemma prPath_eq dir : filepath_Join dir prFile = dir_prefix dir +:+ "pr.json".
Proof. by apply filepath_Join_prefix. Qed.

Lemma rawPrefix_eq dir : filepath_Join dir "github" = dir_prefix dir +:+ "github".
Proof. by apply filepath_Join_prefix. Qed.

Lemma rawPR_eq dir :
  filepath_Join (filepath_Join dir "github") "pr.json"
  = dir_prefix dir +:+ "github/pr.json".
Proof.
  rewrite rawPrefix_eq, filepath_Join_prefix by done.
  rewrite dir_prefix_nonempty by by apply append_nonempty.
  by rewrite !append_assoc.
Qed.

Lemma commentsPrefix_eq dir :
  filepath_Join (filepath_Join dir "github") "comments"
  = dir_prefix dir +:+ "github/comments".
Proof.
  rewrite rawPrefix_eq, filepath_Join_prefix by done.
  rewrite dir_prefix_nonempty by by apply append_nonempty.
  by rewrite !append_assoc.
Qed.

Lemma json_name_nonempty (id : Z) : pretty id +:+ ".json" ≠ "".
Proof. by apply append_nonempty. Qed.

Lemma rawCommentPath_eq dir c :
  rawCommentPath (filepath_Join (filepath_Join dir "github") "comments") c
  = dir_prefix dir +:+ "github/comments/"
    +:+ pretty (github.IssueComment_GetID c) +:+ ".json".
Proof.
  unfold rawCommentPath.
  rewrite commentsPrefix_eq, filepath_Join_prefix by apply json_name_nonempty.
  rewrite dir_prefix_nonempty by by apply append_nonempty.
  by rewrite !append_assoc.
Qed.

Lemma rawCommentPath_inj dir c1 c2 :
  rawCommentPath (filepath_Join (filepath_Join dir "github") "comments") c1
  = rawCommentPath (filepath_Join (filepath_Join dir "github") "comments") c2 →
  github.IssueComment_GetID c1 = github.IssueComment_GetID c2.
Proof.
  rewrite !rawCommentPath_eq. intros H.
  do 2 apply String.app_inj in H. apply append_inj_r in H.
  by apply pretty_Z_inj in H.
Qed.

Lemma rawCommentPath_ne_rawPR dir c :
  rawCommentPath (filepath_Join (filepath_Join dir "github") "comments") c
  ≠ filepath_Join (filepath_Join dir "github") "pr.json".
Proof.
  rewrite rawCommentPath_eq, rawPR_eq. intros H.
  apply String.app_inj in H. discriminate H.
Qed.

Lemma rawCommentPath_ne_prPath dir c :
  rawCommentPath (filepath_Join (filepath_Join dir "github") "comments") c
  ≠ filepath_Join dir prFile.
Proof.
  rewrite rawCommentPath_eq, prPath_eq. intros H.
  apply String.app_inj in H. discriminate H.
Qed.

Lemma rawPR_ne_prPath dir :
  filepath_Join (filepath_Join dir "github") "pr.json" ≠ filepath_Join dir prFile.
Proof.
  rewrite rawPR_eq, prPath_eq. intros H.
  apply String.app_inj in H. discriminate H.
Qed.

(** **** the files of the comment loop *)

Lemma write_comments_cons prefix c ic fs :
  write_comments prefix (c :: ic) fs
  = write_comments prefix ic (<[rawCommentPath prefix c := DocGitHubIssueComment c]> fs).
Proof. reflexivity. Qed.

Lemma lookup_write_comments_other prefix ic fs p :
  (∀ c, c ∈ ic → rawCommentPath prefix c ≠ p) →
  write_comments prefix ic fs !! p = fs !! p.
Proof.
  revert fs. induction ic as [|c ic IH]; intros fs Hp; [done|].
  rewrite write_comments_cons, IH by (intros; apply Hp; by right).
  apply lookup_insert_ne, Hp. by left.
Qed.

Lemma lookup_write_comments dir ic fs c :
  NoDup (github.IssueComment_GetID <$> ic) → c ∈ ic →
  write_comments (filepath_Join (filepath_Join dir "github") "comments") ic fs
    !! rawCommentPath (filepath_Join (filepath_Join dir "github") "comments") c
  = Some (DocGitHubIssueComment c).
Proof.
  revert fs.
  induction ic as [|c' ic IH]; intros fs Hnd Hin; [by apply elem_of_nil in Hin|].
  rewrite fmap_cons, NoDup_cons in Hnd. destruct Hnd as [Hnotin Hnd].
  rewrite write_comments_cons.
  apply elem_of_cons in Hin as [->|Hin].
  - rewrite lookup_write_comments_other; [apply lookup_insert_eq|].
    intros c Hc Heq. apply rawCommentPath_inj in Heq. apply Hnotin.
    rewrite <- Heq. apply list_elem_of_fmap. by exists c.
  - by apply IH.
Qed.

(** **** complete runs of Download *)

Lemma writeJSON_run path d (w : World S) res w' evs :
  writeJSON path d w = (res, w', evs) →
  res = Ok tt ∧ w' = mkWorld (remote w) (<[path := d]> (files w)) ∧ evs = [].
Proof. by intros [= <- <- <-]. Qed.

Lemma os_MkdirAll_run path (w : World S) res w' evs :
  os_MkdirAll path w = (res, w', evs) → res = Ok tt ∧ w' = w ∧ evs = [].
Proof. by intros [= <- <- <-]. Qed.

Lemma Download_comments_run prefix ic l (w : World S) :
  Download_comments prefix ic (mk_slice l) w
  = (Ok (mk_slice (l ++ (comment_of prefix <$> ic))),
     mkWorld (remote w) (write_comments prefix ic (files w)), []).
Proof.
  revert l w. induction ic as [|c ic IH]; intros l w.
  - simpl. unfold ret, write_comments. simpl. rewrite app_nil_r. by destruct w.
  - cbn [Download_comments]. unfold bind at 1, writeJSON at 1.
    unfold append. cbn [elems]. rewrite IH. cbn [remote files].
    rewrite fmap_cons, write_comments_cons, <- app_assoc. reflexivity.
Qed.

Lemma Download_labels_eq labels :
  Download_labels labels
  = mk_slice ((λ l, mkLabel (github.Label_GetName l)) <$> labels).
Proof.
  unfold Download_labels.
  destruct (elems_foldl_append (λ l, mkLabel (github.Label_GetName l)) labels
              (make (length labels))) as [->|[-> ->]]; done.
Qed.

(** A complete run of [Download] issues the two fetches and leaves the raw
    pull request, one raw file per comment and the generic record. *)
Lemma Download_ok h dir (w w' : World S) evs :
  Download client h dir w = (Ok tt, w', evs) →
  ∃ gpr ic,
    evs = [EvPullRequestsGet (owner h) (repo h) (prNum h) (Ok gpr);
           EvListComments (owner h) (repo h) (prNum h) (Ok ic)]
    ∧ files w' =
        <[filepath_Join dir prFile := DocPullRequest (Download_record dir gpr ic)]>
          (write_comments (filepath_Join (filepath_Join dir "github") "comments") ic
             (<[filepath_Join (filepath_Join dir "github") "pr.json"
                  := DocGitHubPullRequest gpr]> (files w))).
Proof.
  unfold Download. intros Hrun.
  apply bind_run in Hrun as [(e & _ & [=])|(? & w1 & evs1 & evs2 & Hrun1 & Hrun & ->)].
  apply os_MkdirAll_run in Hrun1 as (_ & -> & ->).
  apply bind_run in Hrun as [(e & _ & [=])|(gpr & w2 & evs1 & evs3 & Hrun1 & Hrun & ->)].
  apply PullRequests_Get_run in Hrun1 as [-> Hf1].
  apply bind_run in Hrun as [(e & _ & [=])|(? & w3 & evs1 & evs4 & Hrun1 & Hrun & ->)].
  apply writeJSON_run in Hrun1 as (_ & -> & ->).
  apply bind_run in Hrun as [(e & _ & [=])|(? & w4 & evs1 & evs5 & Hrun1 & Hrun & ->)].
  apply os_MkdirAll_run in Hrun1 as (_ & -> & ->).
  apply bind_run in Hrun as [(e & _ & [=])|(ic & w5 & evs1 & evs6 & Hrun1 & Hrun & ->)].
  apply ListComments_run in Hrun1 as [-> Hf2].
  apply bind_run in Hrun as [(e & _ & [=])|(comments & w6 & evs1 & evs7 & Hrun1 & Hrun & ->)].
  unfold make in Hrun1. rewrite Download_comments_run in Hrun1.
  injection Hrun1 as <- <- <-.
  apply writeJSON_run in Hrun as (_ & -> & ->).
  exists gpr, ic. split; [done|]. cbn [files remote].
  rewrite Download_labels_eq, Hf2. cbn [files]. rewrite Hf1. reflexivity.
Qed.

Lemma Download_record_file h dir (w w' : World S) gpr ic :
  Download client h dir w
    = (Ok tt, w', [EvPullRequestsGet (owner h) (repo h) (prNum h) (Ok gpr);
                   EvListComments (owner h) (repo h) (prNum h) (Ok ic)]) →
  files w' =
    <[filepath_Join dir prFile := DocPullRequest (Download_record dir gpr ic)]>
      (write_comments (filepath_Join (filepath_Join dir "github") "comments") ic
         (<[filepath_Join (filepath_Join dir "github") "pr.json"
              := DocGitHubPullRequest gpr]> (files w))).
Proof.
  intros Hrun. apply Download_ok in Hrun as (gpr' & ic' & Hevs & ->).
  by injection Hevs as <- <-.
Qed.

(** C7: after a complete [Download] into [dir] from a provider whose
    comments have pairwise distinct IDs, [dir/pr.json] holds the generic
    record; its [Raw] is [dir/github/pr.json], which holds the pull request
    as the provider returned it; and the record's comments are the
    provider's, in order, each with [Raw] at
    [dir/github/comments/<id>.json], a file that holds the comment as the
    provider returned it. *)
Theorem Download_provenance h dir (w w' : World S) gpr ic :
  Download client h dir w
    = (Ok tt, w', [EvPullRequestsGet (owner h) (repo h) (prNum h) (Ok gpr);
                   EvListComments (owner h) (repo h) (prNum h) (Ok ic)]) →
  NoDup (github.IssueComment_GetID <$> ic) →
  ∃ pr,
    files w' !! filepath_Join dir "pr.json" = Some (DocPullRequest pr)
    ∧ PullRequest_Raw pr = filepath_Join dir "github/pr.json"
    ∧ files w' !! PullRequest_Raw pr = Some (DocGitHubPullRequest gpr)
    ∧ Forall2
        (λ (c : github.IssueComment) (dc : Comment),
           Comment_ID dc = github.IssueComment_GetID c
           ∧ Comment_Raw dc =
               filepath_Join dir
                 ("github/comments/" +:+ pretty (github.IssueComment_GetID c)
                  +:+ ".json")
           ∧ files w' !! Comment_Raw dc = Some (DocGitHubIssueComment c))
        ic (elems (PullRequest_Comments pr)).
Proof.
  intros Hrun Hnd. apply Download_record_file in Hrun as ->.
  exists (Download_record dir gpr ic). split; [apply lookup_insert_eq|].
  split; [|split].
  - cbn [Download_record PullRequest_Raw].
    rewrite rawPR_eq. symmetry. by apply filepath_Join_prefix.
  - cbn [Download_record PullRequest_Raw].
    rewrite lookup_insert_ne by (apply not_eq_sym, rawPR_ne_prPath).
    rewrite lookup_write_comments_other by (intros; apply rawCommentPath_ne_rawPR).
    apply lookup_insert_eq.
  - cbn [Download_record PullRequest_Comments elems].
    apply Forall2_fmap_r, Forall_Forall2_diag, Forall_forall. intros c Hc.
    unfold comment_of. cbn [Comment_ID Comment_Raw]. split; [done|]. split.
    + rewrite rawCommentPath_eq. symmetry.
      rewrite filepath_Join_prefix by by apply append_nonempty, json_name_nonempty.
      reflexivity.
    + rewrite lookup_insert_ne by (apply not_eq_sym, rawCommentPath_ne_prPath).
      by apply lookup_write_comments.
Qed.

(** C10: the record a complete [Download] writes has non-nil [Comments]
    and [Labels], of the lengths of the provider's comment and label
    lists; both are written as JSON arrays of these lengths, so as [[]]
    when the provider has none, and never as [null]. *)
Theorem Download_slices_non_nil h dir (w w' : World S) gpr ic :
  Download client h dir w
    = (Ok tt, w', [EvPullRequestsGet (owner h) (repo h) (prNum h) (Ok gpr);
                   EvListComments (owner h) (repo h) (prNum h) (Ok ic)]) →
  ∃ pr,
    files w' !! filepath_Join dir prFile = Some (DocPullRequest pr)
    ∧ is_nil (PullRequest_Comments pr) = false
    ∧ is_nil (PullRequest_Labels pr) = false
    ∧ len (PullRequest_Comments pr) = length ic
    ∧ len (PullRequest_Labels pr) = length (github.PullRequest_Labels gpr)
    ∧ (∃ items, member "Comments" (Marshal_PullRequest pr) = Some (JArray items)
                ∧ length items = length ic)
    ∧ (∃ items, member "Labels" (Marshal_PullRequest pr) = Some (JArray items)
                ∧ length items = length (github.PullRequest_Labels gpr)).
Proof.
  intros Hrun. apply Download_record_file in Hrun as ->.
  exists (Download_record dir gpr ic). split; [apply lookup_insert_eq|].
  cbn. unfold len. cbn. rewrite !length_fmap. repeat split; try done.
  - eexists. split; [reflexivity|]. by rewrite !length_fmap.
  - eexists. split; [reflexivity|]. by rewrite !length_fmap.
Qed.

(** **** any run of Upload *)

Lemma fail_fast_split {A} (r : Result A) evs pre ev post e :
  fail_fast r evs → evs = pre ++ ev :: post → ev_error ev = Some e →
  post = [] ∧ r = Err e.
Proof.
  intros [Hok|(pre' & ev' & e' & -> & Hpre & Hev & ->)] Hevs He.
  - subst evs. apply Forall_app in Hok as [_ Hok].
    apply Forall_cons in Hok as [Hok _]. unfold ev_ok in Hok. congruence.
  - destruct (exists_last (l:=ev :: post)) as (front & lst & Hlast); [done|].
    rewrite Hlast, app_assoc in Hevs.
    apply app_inj_tail in Hevs as [-> ->].
    destruct post as [|p post].
    + apply (app_inj_tail []) in Hlast as [_ ->].
      split; [done|]. congruence.
    + exfalso. destruct front as [|f front]; [by destruct post|].
      injection Hlast as <- _.
      apply Forall_app in Hpre as [_ Hpre].
      apply Forall_cons in Hpre as [Hpre _]. unfold ev_ok in Hpre. congruence.
Qed.

Lemma comment_mutation_call ev :
  is_comment_mutation ev = true → is_comment_call ev = true.
Proof. by destruct ev. Qed.

(** The calls of any run of [Upload] that got to read the record: the label
    replacement first, then calls on the comment endpoints only. *)
Lemma Upload_shape h dir (w w' : World S) res evs :
  Upload client range_map h dir w = (res, w', evs) →
  files w' = files w
  ∧ (evs = []
     ∨ ∃ pr r1 rest,
         files w !! filepath_Join dir prFile = Some (DocPullRequest pr)
         ∧ evs = EvReplaceLabelsForIssue (owner h) (repo h) (prNum h)
                   (Label_Text <$> elems (PullRequest_Labels pr)) r1 :: rest
         ∧ Forall (λ ev, is_comment_call ev = true) rest).
Proof.
  unfold Upload. intros Hrun.
  apply bind_run in Hrun as [(e & Hrun & ->)|(pr & w1 & evs1 & evs2 & Hrun1 & Hrun & ->)].
  { apply readJSON_run in Hrun as (-> & -> & _). split; [done|by left]. }
  apply readJSON_run in Hrun1 as (-> & -> & Hpr). specialize (Hpr _ eq_refl).
  rewrite Upload_labelNames_elems in Hrun.
  apply bind_run in Hrun as [(e & Hrun & ->)|([] & w2 & evs1 & evs3 & Hrun1 & Hrun & ->)].
  { apply ReplaceLabels_run in Hrun as [-> Hf]. split; [done|].
    right. by exists pr, (Err e), []. }
  apply ReplaceLabels_run in Hrun1 as [-> Hf1].
  apply bind_run in Hrun as [(e & Hrun & ->)|(existing & w3 & evs1 & evs4 & Hrun1 & Hrun & ->)].
  { apply ListComments_run in Hrun as [-> Hf]. split; [congruence|].
    right. exists pr, (Ok tt), [EvListComments (owner h) (repo h) (prNum h) (Err e)].
    repeat split; try done. by repeat constructor. }
  apply ListComments_run in Hrun1 as [-> Hf2].
  assert (Hloops : emits is_comment_mutation
            (desiredComments <- Upload_existing client h existing (Upload_desiredComments pr) ;;
             Upload_create client h (range_map desiredComments))).
  { apply emits_bind; [apply emits_Upload_existing|intros; apply emits_Upload_create]. }
  apply Hloops in Hrun as [Hmut Hf3]. split; [congruence|].
  right. eexists pr, (Ok tt), _. repeat split; try done.
  constructor; [done|]. eapply Forall_impl; [exact Hmut|]. apply comment_mutation_call.
Qed.

(** C9: in any run of [Upload], a call that fails is the last call issued
    and its error is what [Upload] returns; the provider is left in the
    state reached by the calls issued, none of which is undone, and no file
    is touched; in particular a failed label replacement is the only call
    of the run. *)
Theorem Upload_aborts_on_first_failure h dir (w w' : World S) res evs :
  Upload client range_map h dir w = (res, w', evs) →
  (∀ pre ev post e,
     evs = pre ++ ev :: post → ev_error ev = Some e → post = [] ∧ res = Err e)
  ∧ remote w' = foldl (replay client) (remote w) evs
  ∧ files w' = files w
  ∧ (∀ o r n labels e,
       In (EvReplaceLabelsForIssue o r n labels (Err e)) evs →
       evs = [EvReplaceLabelsForIssue o r n labels (Err e)] ∧ res = Err e).
Proof.
  intros Hrun.
  destruct (well_behaved_Upload h dir _ _ _ _ Hrun) as (Hff & _ & Hremote).
  destruct (Upload_shape _ _ _ _ _ _ Hrun) as [Hfiles Hshape].
  split; [|split; [done|split; [done|]]].
  - intros pre ev post e. by apply fail_fast_split.
  - intros o r n labels e Hin.
    destruct Hshape as [->|(pr & r1 & rest & _ & -> & Hrest)]; [done|].
    destruct Hin as [Heq|Hin].
    + injection Heq as <- <- <- <- ->.
      destruct (fail_fast_split _ _ [] _ rest e Hff eq_refl eq_refl) as [-> ->].
      done.
    + rewrite Forall_forall in Hrest. apply list_elem_of_In, Hrest in Hin. done.
Qed.

Lemma filter_ReplaceLabels_comment_calls (evs : list Event) :
  Forall (λ ev, is_comment_call ev = true) evs →
  List.filter is_ReplaceLabels evs = [].
Proof.
  induction 1 as [|ev rest Hev _ IH]; [done|].
  destruct ev; simpl in *; done.
Qed.

(** Whatever the outcome, the first call of [Upload] replaces the labels by
    the [Text] of the record's labels, and no later call does. *)
Lemma Upload_label_call h dir (w w' : World S) res evs pr :
  files w !! filepath_Join dir prFile = Some (DocPullRequest pr) →
  Upload client range_map h dir w = (res, w', evs) →
  ∃ r1 rest,
    evs = EvReplaceLabelsForIssue (owner h) (repo h) (prNum h)
            (Label_Text <$> elems (PullRequest_Labels pr)) r1 :: rest
    ∧ List.filter is_ReplaceLabels rest = [].
Proof.
  intros Hfile Hrun.
  destruct (Upload_shape _ _ _ _ _ _ Hrun) as [_ [->|(pr' & r1 & rest & Hfile' & -> & Hrest)]].
  - exfalso. unfold Upload in Hrun.
    apply bind_run in Hrun as [(e & Hrun & ->)|(? & w1 & evs1 & evs2 & Hrun1 & Hrun & Hevs)].
    + by rewrite (readJSON_ok _ _ _ Hfile) in Hrun.
    + apply bind_run in Hrun as [(e & Hrun & ->)|(? & w2 & evs3 & evs4 & Hrun2 & Hrun & ->)].
      * apply ReplaceLabels_run in Hrun as [-> _]. by destruct evs1.
      * apply ReplaceLabels_run in Hrun2 as [-> _]. by destruct evs1.
  - assert (pr' = pr) as -> by congruence.
    exists r1, rest. split; [done|].
    by apply filter_ReplaceLabels_comment_calls.
Qed.

Lemma filter_Create_sync_events h desired existing :
  List.filter is_Create (sync_events h desired existing) = [].
Proof.
  revert desired. induction existing as [|ec rest IH]; intros desired; simpl; [done|].
  rewrite List.filter_app, IH, app_nil_r. unfold existing_events.
  destruct (desired !! _); [destruct (String.eqb _ _)|]; done.
Qed.

Lemma filter_Create_create_events h (l : list Comment) :
  List.filter is_Create (create_event h <$> l) = create_event h <$> l.
Proof.
  induction l as [|x l IH]; [done|].
  rewrite fmap_cons. cbn -[fmap]. by rewrite IH.
Qed.


(** **** Download followed by Upload *)

Lemma lookup_foldl_insert_NoDup (l : list Comment) (m : gmap Z Comment) c :
  NoDup (Comment_ID <$> l) → c ∈ l →
  foldl (λ m c, <[Comment_ID c := c]> m) m l !! Comment_ID c = Some c.
Proof.
  revert m. induction l as [|c' l IH]; intros m Hnd Hin; [by apply elem_of_nil in Hin|].
  rewrite fmap_cons, NoDup_cons in Hnd. destruct Hnd as [Hnotin Hnd].
  apply elem_of_cons in Hin as [->|Hin]; simpl; [|by apply IH].
  destruct (foldl (λ m c, <[Comment_ID c := c]> m) (<[Comment_ID c' := c']> m) l
              !! Comment_ID c') as [dc|] eqn:E.
  - apply lookup_foldl_insert_Some in E as [E|[Hdc Hid]].
    + by rewrite lookup_insert_eq in E.
    + exfalso. apply Hnotin. rewrite <- Hid. apply list_elem_of_fmap. by exists dc.
  - apply lookup_foldl_insert_None in E as [E _]. by rewrite lookup_insert_eq in E.
Qed.

Lemma Comment_ID_comment_of prefix (ic : list github.IssueComment) :
  Comment_ID <$> (comment_of prefix <$> ic) = github.IssueComment_GetID <$> ic.
Proof. rewrite <- list_fmap_compose. by apply list_fmap_ext. Qed.

Lemma desiredComments_Download_record dir gpr ic ec :
  NoDup (github.IssueComment_GetID <$> ic) → ec ∈ ic →
  Upload_desiredComments (Download_record dir gpr ic) !! github.IssueComment_GetID ec
  = Some (comment_of (filepath_Join (filepath_Join dir "github") "comments") ec).
Proof.
  intros Hnd Hin. unfold Upload_desiredComments, Download_record.
  cbn [PullRequest_Comments elems].
  apply (lookup_foldl_insert_NoDup _ _ (comment_of _ ec)).
  - by rewrite Comment_ID_comment_of.
  - apply list_elem_of_fmap. by exists ec.
Qed.

(** When every existing comment is desired with the text it has, the loop
    over the existing comments issues no call. *)
Lemma Upload_existing_in_sync h existing desired (w : World S) :
  NoDup (github.IssueComment_GetID <$> existing) →
  (∀ ec, ec ∈ existing →
     ∃ dc, desired !! github.IssueComment_GetID ec = Some dc
           ∧ Comment_Text dc = github.IssueComment_GetBody ec) →
  Upload_existing client h existing desired w
  = (Ok (remaining desired existing), w, []).
Proof.
  revert desired. induction existing as [|ec rest IH]; intros desired Hnd Hsync; [done|].
  rewrite fmap_cons, NoDup_cons in Hnd. destruct Hnd as [Hnotin Hnd].
  destruct (Hsync ec) as (dc & Hdc & Htext); [by left|].
  cbn [Upload_existing]. rewrite Hdc, Htext, String.eqb_refl. cbn [negb].
  unfold bind at 1, ret at 1. rewrite IH; [done|done|].
  intros ec' Hin. destruct (Hsync ec') as (dc' & Hdc' & Htext'); [by right|].
  exists dc'. split; [|done]. rewrite lookup_delete_ne; [done|].
  intros Heq. apply Hnotin. rewrite Heq. apply list_elem_of_fmap. by exists ec'.
Qed.

Lemma remaining_Download_record dir gpr ic :
  remaining (Upload_desiredComments (Download_record dir gpr ic)) ic = ∅.
Proof.
  apply map_eq. intros id. rewrite lookup_remaining, lookup_empty.
  case_decide as Hin; [done|].
  apply desiredComments_None. cbn [Download_record PullRequest_Comments elems].
  by rewrite Comment_ID_comment_of.
Qed.

Lemma range_map_empty : range_map ∅ = [].
Proof.
  pose proof (range_map_perm ∅) as H. rewrite map_to_list_empty in H.
  by apply Permutation_nil_r in H.
Qed.

(** [Upload] right after [Download], the provider's comments unchanged:
    no comment is created, edited or deleted, and the labels are replaced
    once, by the names of the provider's labels. *)
Lemma Download_then_Upload_calls h dir (w0 w1 w2 : World S) gpr ic res evs :
  Download client h dir w0
    = (Ok tt, w1, [EvPullRequestsGet (owner h) (repo h) (prNum h) (Ok gpr);
                   EvListComments (owner h) (repo h) (prNum h) (Ok ic)]) →
  NoDup (github.IssueComment_GetID <$> ic) →
  Upload client range_map h dir w1 = (res, w2, evs) →
  (∀ ic', In (EvListComments (owner h) (repo h) (prNum h) (Ok ic')) evs → ic' = ic) →
  List.filter is_comment_mutation evs = []
  ∧ ∃ r1,
      List.filter is_ReplaceLabels evs
      = [EvReplaceLabelsForIssue (owner h) (repo h) (prNum h)
           (github.Label_GetName <$> github.PullRequest_Labels gpr) r1].
Proof.
  intros Hdown Hnd Hrun Hsame.
  apply Download_record_file in Hdown.
  assert (Hfile : files w1 !! filepath_Join dir prFile
                  = Some (DocPullRequest (Download_record dir gpr ic))).
  { rewrite Hdown. apply lookup_insert_eq. }
  assert (Hnames : Label_Text <$> elems (PullRequest_Labels (Download_record dir gpr ic))
                   = github.Label_GetName <$> github.PullRequest_Labels gpr).
  { cbn [Download_record PullRequest_Labels elems].
    rewrite <- list_fmap_compose. by apply list_fmap_ext. }
  unfold Upload in Hrun.
  apply bind_run in Hrun as [(e & Hrun & ->)|(pr & w3 & evs1 & evs2 & Hrun1 & Hrun & ->)].
  { by rewrite (readJSON_ok _ _ _ Hfile) in Hrun. }
  rewrite (readJSON_ok _ _ _ Hfile) in Hrun1. injection Hrun1 as <- <- <-.
  rewrite Upload_labelNames_elems, Hnames in Hrun.
  apply bind_run in Hrun as [(e & Hrun & ->)|([] & w4 & evs1 & evs3 & Hrun1 & Hrun & ->)].
  { apply ReplaceLabels_run in Hrun as [-> _]. split; [done|]. by eexists. }
  apply ReplaceLabels_run in Hrun1 as [-> _].
  apply bind_run in Hrun as [(e & Hrun & ->)|(existing & w5 & evs1 & evs4 & Hrun1 & Hrun & ->)].
  { apply ListComments_run in Hrun as [-> _]. split; [done|]. by eexists. }
  apply ListComments_run in Hrun1 as [-> _].
  assert (existing = ic) as ->.
  { apply Hsame. right. by left. }
  unfold bind in Hrun. rewrite Upload_existing_in_sync in Hrun; [|done|].
  - rewrite remaining_Download_record, range_map_empty in Hrun.
    injection Hrun as <- <- <-. split; [done|]. by eexists.
  - intros ec Hin. eexists. split; [by apply desiredComments_Download_record|done].
Qed.

End Synchronisation.

(** ** The properties on the fake server and on the test fixtures *)

(** The label route of the fake server overwrites the label set with the
    names it is sent, whatever the set was. *)
Lemma updateLabels_overwrites (k : key) (names : list string) (g : FakeGitHub) gpr :
  fake_pr g !! k = Some gpr →
  ∃ gpr',
    updateLabels k names g
    = (Ok tt, mkFakeGitHub (<[k := gpr']> (fake_pr g)) (fake_comments g))
    ∧ github.Label_GetName <$> github.PullRequest_Labels gpr' = names.
Proof.
  intros Hpr. unfold updateLabels. rewrite Hpr. eexists. split; [reflexivity|].
  cbn [github.PullRequest_Labels]. rewrite <- list_fmap_compose.
  induction names as [|n names IH]; [done|]. rewrite fmap_cons. by f_equal.
Qed.

(** C4: whatever the outcome of [Upload] and whatever the provider holds,
    the first call replaces the labels by the [Text] of the record's
    labels, in order, and no later call replaces labels; on the fake server
    that call leaves the pull request with exactly these names, so with no
    label at all when the record has none. *)
Theorem Upload_label_sync {S} (client : Client S) range_map h dir
    (w w' : World S) res evs pr :
  files w !! filepath_Join dir prFile = Some (DocPullRequest pr) →
  Upload client range_map h dir w = (res, w', evs) →
  (∃ r1 rest,
     evs = EvReplaceLabelsForIssue (owner h) (repo h) (prNum h)
             (Label_Text <$> elems (PullRequest_Labels pr)) r1 :: rest
     ∧ List.filter is_ReplaceLabels rest = [])
  ∧ (∀ (g : FakeGitHub) gpr,
       fake_pr g !! (owner h, repo h, prNum h) = Some gpr →
       ∃ gpr',
         updateLabels (owner h, repo h, prNum h)
           (Label_Text <$> elems (PullRequest_Labels pr)) g
         = (Ok tt,
            mkFakeGitHub (<[(owner h, repo h, prNum h) := gpr']> (fake_pr g))
              (fake_comments g))
         ∧ github.Label_GetName <$> github.PullRequest_Labels gpr'
           = Label_Text <$> elems (PullRequest_Labels pr)).
Proof.
  intros Hfile Hrun. split.
  - by eapply Upload_label_call.
  - intros g gpr. apply updateLabels_overwrites.
Qed.

(** C3: [Upload] right after [Download], with the provider's comments
    unchanged in between and their IDs pairwise distinct, creates, edits and
    deletes no comment, and replaces the labels once, by the names of the
    provider's labels; on the fake server that call leaves the label names
    as they were. *)
Theorem Download_then_Upload_unchanged {S} (client : Client S) range_map
    h dir (w0 w1 w2 : World S) gpr ic res evs :
  (∀ m, range_map m ≡ₚ map_to_list m) →
  Download client h dir w0
    = (Ok tt, w1, [EvPullRequestsGet (owner h) (repo h) (prNum h) (Ok gpr);
                   EvListComments (owner h) (repo h) (prNum h) (Ok ic)]) →
  NoDup (github.IssueComment_GetID <$> ic) →
  Upload client range_map h dir w1 = (res, w2, evs) →
  (∀ ic', In (EvListComments (owner h) (repo h) (prNum h) (Ok ic')) evs → ic' = ic) →
  List.filter is_comment_mutation evs = []
  ∧ (∃ r1,
       List.filter is_ReplaceLabels evs
       = [EvReplaceLabelsForIssue (owner h) (repo h) (prNum h)
            (github.Label_GetName <$> github.PullRequest_Labels gpr) r1])
  ∧ (∀ g : FakeGitHub,
       fake_pr g !! (owner h, repo h, prNum h) = Some gpr →
       ∃ gpr',
         updateLabels (owner h, repo h, prNum h)
           (github.Label_GetName <$> github.PullRequest_Labels gpr) g
         = (Ok tt,
            mkFakeGitHub (<[(owner h, repo h, prNum h) := gpr']> (fake_pr g))
              (fake_comments g))
         ∧ github.Label_GetName <$> github.PullRequest_Labels gpr'
           = github.Label_GetName <$> github.PullRequest_Labels gpr).
Proof.
  intros Hperm Hdown Hnd Hup Hsame.
  destruct (Download_then_Upload_calls client range_map Hperm h dir
              w0 w1 w2 gpr ic res evs Hdown Hnd Hup Hsame) as [Hmut Hlabels].
  split; [done|]. split; [done|].
  intros g. apply updateLabels_overwrites.
Qed.

Ltac in_list :=
  vm_compute; repeat (first [left; reflexivity | right]).

Lemma run_eta {A B C} (x : A * B * C) : x = (x.1.1, x.1.2, x.2).
Proof. by destruct x as [[? ?] ?]. Qed.

Lemma Upload_label_sync_witness :
  (∃ r1 rest,
     (fixture.upload fake_client fixture.removedPR
        (snd (updateLabels ("foo", "bar", 1) ["tacocat"; "wip"] fixture.gh))).2
     = EvReplaceLabelsForIssue "foo" "bar" 1 [] r1 :: rest
     ∧ List.filter is_ReplaceLabels rest = [])
  ∧ github.PullRequest_Labels <$>
      fake_pr (remote (fixture.upload fake_client fixture.removedPR
        (snd (updateLabels ("foo", "bar", 1) ["tacocat"; "wip"] fixture.gh))).1.2)
        !! ("foo", "bar", 1)
    = Some [].
Proof.
  split; [|compute_done].
  refine (proj1 (Upload_label_sync fake_client map_to_list fixture.h fixture.dir
                   (fixture.world_with fixture.removedPR _) _ _ _
                   fixture.removedPR _ (run_eta _))).
  compute_done.
Defined.

Lemma Upload_deletes_removed_comments_witness :
  (List.filter (deletes 2)
     (fixture.upload full_client fixture.removedPR fixture.gh2).2
   = [EvDeleteComment "foo" "bar" 2 (Ok tt)]
   ∧ List.filter (edits 2)
       (fixture.upload full_client fixture.removedPR fixture.gh2).2 = [])
  ∧ (List.filter (deletes 1)
       (fixture.upload full_client fixture.removedPR fixture.gh2).2 = []
     ∧ List.filter (edits 1)
         (fixture.upload full_client fixture.removedPR fixture.gh2).2 = []).
Proof.
  split.
  - refine (proj1 (Upload_deletes_removed_comments full_client map_to_list
                     fixture.h fixture.dir
                     (fixture.world_with fixture.removedPR fixture.gh2)
                     (fixture.upload full_client fixture.removedPR fixture.gh2).1.2
                     (fixture.upload full_client fixture.removedPR fixture.gh2).2
                     fixture.removedPR [fixture.comment; fixture.comment2]
                     fixture.comment2 _ _ _ _ _) _).
    + compute_done.
    + compute_done.
    + in_list.
    + compute_done.
    + apply list_elem_of_In. in_list.
    + compute_done.
  - refine (proj2 (proj2 (Upload_deletes_removed_comments full_client map_to_list
                     fixture.h fixture.dir
                     (fixture.world_with fixture.removedPR fixture.gh2)
                     (fixture.upload full_client fixture.removedPR fixture.gh2).1.2
                     (fixture.upload full_client fixture.removedPR fixture.gh2).2
                     fixture.removedPR [fixture.comment; fixture.comment2]
                     fixture.comment _ _ _ _ _))
              (mkComment "hello world!" "" 1 "") _ _).
    + compute_done.
    + compute_done.
    + in_list.
    + compute_done.
    + apply list_elem_of_In. in_list.
    + compute_done.
    + compute_done.
Defined.


Lemma Upload_aborts_on_first_failure_witness :
  (fixture.upload fake_client fixture.removedPR fixture.gh2).2
  = [EvReplaceLabelsForIssue "foo" "bar" 1 [] (Ok tt);
     EvListComments "foo" "bar" 1 (Ok [fixture.comment; fixture.comment2]);
     EvDeleteComment "foo" "bar" 2 (Err "404 Not Found")]
  ∧ (fixture.upload fake_client fixture.removedPR fixture.gh2).1.1
    = Err "404 Not Found"
  ∧ remote (fixture.upload fake_client fixture.removedPR fixture.gh2).1.2
    = foldl (replay fake_client) fixture.gh2
        (fixture.upload fake_client fixture.removedPR fixture.gh2).2
  ∧ (fixture.upload down_client fixture.tektonPR tt).2
    = [EvReplaceLabelsForIssue "foo" "bar" 1 ["tacocat"]
         (Err "503 Service Unavailable")].
Proof.
  split; [reflexivity|].
  destruct (Upload_aborts_on_first_failure fake_client map_to_list
              fixture.h fixture.dir
              (fixture.world_with fixture.removedPR fixture.gh2) _ _ _
              (run_eta _)) as (Hfirst & Hremote & _ & _).
  split; [|split; [exact Hremote|]].
  - exact (proj2 (Hfirst
      [EvReplaceLabelsForIssue "foo" "bar" 1 [] (Ok tt);
       EvListComments "foo" "bar" 1 (Ok [fixture.comment; fixture.comment2])]
      (EvDeleteComment "foo" "bar" 2 (Err "404 Not Found")) [] "404 Not Found"
      eq_refl eq_refl)).
  - destruct (Upload_aborts_on_first_failure down_client map_to_list
                fixture.h fixture.dir
                (fixture.world_with fixture.tektonPR tt) _ _ _
                (run_eta _)) as (_ & _ & _ & Hlabels).
    refine (proj1 (Hlabels "foo" "bar" 1 ["tacocat"] "503 Service Unavailable" _)).
    in_list.
Defined.

Lemma Download_provenance_witness :
  ∃ pr,
    files (fixture.download fake_client fixture.gh).1.2 !! "/tmp/pr.json"
    = Some (DocPullRequest pr)
    ∧ PullRequest_Raw pr = "/tmp/github/pr.json"
    ∧ files (fixture.download fake_client fixture.gh).1.2 !! "/tmp/github/pr.json"
      = Some (DocGitHubPullRequest fixture.pr)
    ∧ Forall2
        (λ (c : github.IssueComment) (dc : Comment),
           Comment_ID dc = github.IssueComment_GetID c
           ∧ Comment_Raw dc =
               filepath_Join "/tmp"
                 ("github/comments/" +:+ pretty (github.IssueComment_GetID c)
                  +:+ ".json")
           ∧ files (fixture.download fake_client fixture.gh).1.2 !! Comment_Raw dc
             = Some (DocGitHubIssueComment c))
        [fixture.comment] (elems (PullRequest_Comments pr)).
Proof.
  destruct (Download_provenance fake_client fixture.h fixture.dir
              (mkWorld fixture.gh ∅)
              (fixture.download fake_client fixture.gh).1.2
              fixture.pr [fixture.comment]
              ltac:(compute_done) ltac:(compute_done))
    as (pr & H1 & H2 & H3 & H4).
  exists pr. split; [exact H1|]. split; [exact H2|]. split; [|exact H4].
  rewrite <- H3. f_equal. exact (eq_sym H2).
Defined.

Lemma Download_slices_non_nil_witness :
  ∃ pr,
    files (fixture.download fake_client fixture.gh).1.2 !! "/tmp/pr.json"
    = Some (DocPullRequest pr)
    ∧ PullRequest_Labels pr = mk_slice []
    ∧ member "Labels" (Marshal_PullRequest pr) = Some (JArray [])
    ∧ len (PullRequest_Comments pr) = 1%nat.
Proof.
  destruct (Download_slices_non_nil fake_client fixture.h fixture.dir
              (mkWorld fixture.gh ∅)
              (fixture.download fake_client fixture.gh).1.2
              fixture.pr [fixture.comment] ltac:(compute_done))
    as (pr & H1 & H2 & H3 & H4 & H5 & H6 & items & H7 & H8).
  exists pr. split; [exact H1|].
  destruct items; [|discriminate H8].
  destruct (PullRequest_Labels pr) as [|[|l ls]] eqn:E; try discriminate.
  repeat split; try done.
Defined.

Lemma Download_then_Upload_unchanged_witness :
  (Upload fake_client map_to_list fixture.h fixture.dir
     (fixture.download fake_client fixture.gh).1.2).2
  = [EvReplaceLabelsForIssue "foo" "bar" 1 [] (Ok tt);
     EvListComments "foo" "bar" 1 (Ok [fixture.comment])]
  ∧ List.filter is_comment_mutation
      (Upload fake_client map_to_list fixture.h fixture.dir
         (fixture.download fake_client fixture.gh).1.2).2 = [].
Proof.
  split; [compute_done|].
  refine (proj1 (Download_then_Upload_unchanged fake_client map_to_list
                   fixture.h fixture.dir
                   (mkWorld fixture.gh ∅)
                   (fixture.download fake_client fixture.gh).1.2 _
                   fixture.pr [fixture.comment] _ _ _ _ _ (run_eta _) _)).
  - intros m. reflexivity.
  - compute_done.
  - compute_done.
  - intros ic' H. vm_compute in H.
    destruct H as [H|[H|[]]]; [discriminate H|]. by injection H.
Defined.

(** Two comments with the same ID, such as two without one, take the same
    slot of [desiredComments], where the later replaces the earlier. *)
Lemma desiredComments_same_ID pr c1 c2 :
  elems (PullRequest_Comments pr) = [c1; c2] →
  Comment_ID c1 = Comment_ID c2 →
  Upload_desiredComments pr = {[Comment_ID c2 := c2]}.
Proof.
  intros Hpr Hid. unfold Upload_desiredComments. rewrite Hpr. simpl.
  rewrite Hid. by rewrite insert_insert_eq, insert_empty.
Qed.

(** C1 (the code departs from it): with two comments without an ID added
    to the record, ["abc123"] and ["xyz789"], [Upload] on the fake server
    succeeds with a single creation, of ["xyz789"], and the server ends with
    two comments where three are expected. *)
Theorem Upload_two_new_comments_one_create :
  (fixture.upload fake_client fixture.twoNewPR fixture.gh).1.1 = Ok tt
  ∧ List.filter is_Create (fixture.upload fake_client fixture.twoNewPR fixture.gh).2
    = [EvCreateComment "foo" "bar" 1
         {| github.IssueComment_ID := None;
            github.IssueComment_Body := Some "xyz789";
            github.IssueComment_User := None |} (Ok tt)]
  ∧ fake_comments
      (remote (fixture.upload fake_client fixture.twoNewPR fixture.gh).1.2)
      !! ("foo", "bar", 1)
    = Some [fixture.comment;
            {| github.IssueComment_ID := Some 2;
               github.IssueComment_Body := Some "xyz789";
               github.IssueComment_User := None |}].
Proof. repeat split; compute_done. Qed.

(** *** the tests of github_test.go *)

(** TestUpload: the labels are replaced by ["tacocat"], the existing comment
    is left alone, ["abc123"] is created with ID 2, and nothing else of the
    pull request changes. *)
Example TestUpload :
  fixture.upload fake_client fixture.tektonPR fixture.gh
  = (Ok tt,
     fixture.world_with fixture.tektonPR
       (mkFakeGitHub
          {[ ("foo", "bar", 1) :=
               {| github.PullRequest_ID := github.PullRequest_ID fixture.pr;
                  github.PullRequest_HTMLURL := github.PullRequest_HTMLURL fixture.pr;
                  github.PullRequest_Head := github.PullRequest_Head fixture.pr;
                  github.PullRequest_Base := github.PullRequest_Base fixture.pr;
                  github.PullRequest_Labels := [github.mkLabel (Some "tacocat")] |} ]}
          {[ ("foo", "bar", 1) :=
               [fixture.comment;
                github.mkIssueComment (Some 2) (Some "abc123") None] ]}),
     [EvReplaceLabelsForIssue "foo" "bar" 1 ["tacocat"] (Ok tt);
      EvListComments "foo" "bar" 1 (Ok [fixture.comment]);
      EvCreateComment "foo" "bar" 1
        (github.mkIssueComment None (Some "abc123") None) (Ok tt)]).
Proof. compute_done. Qed.

(** TestGitHub: the generic record, the raw pull request and the raw comment
    that [Download] leaves in the directory. *)
Example TestGitHub :
  (fixture.download fake_client fixture.gh).1.1 = Ok tt
  ∧ files (fixture.download fake_client fixture.gh).1.2
    = {[ "/tmp/pr.json" :=
           DocPullRequest {|
             PullRequest_Type := "github";
             PullRequest_ID := 1;
             PullRequest_Head :=
               Some (mkGitReference "https://github.com/baz/bar" "feature" "2");
             PullRequest_Base :=
               Some (mkGitReference "https://github.com/foo/bar" "master" "1");
             PullRequest_Comments :=
               mk_slice [mkComment "hello world!" "" 1 "/tmp/github/comments/1.json"];
             PullRequest_Labels := mk_slice [];
             PullRequest_Raw := "/tmp/github/pr.json" |};
         "/tmp/github/pr.json" := DocGitHubPullRequest fixture.pr;
         "/tmp/github/comments/1.json" := DocGitHubIssueComment fixture.comment ]}.
Proof. split; compute_done. Qed.

(** X1: the calls of a complete run of [Upload]: the label replacement, the
    listing, one deletion or edit per existing comment that the record
    dropped or changed, in the provider's order, then one creation per
    desired comment whose ID no existing comment has. *)
Theorem Upload_complete_run {S} (client : Client S) range_map h dir
    (w w' : World S) evs :
  Upload client range_map h dir w = (Ok tt, w', evs) →
  ∃ pr existing,
    files w !! filepath_Join dir prFile = Some (DocPullRequest pr)
    ∧ files w' = files w
    ∧ evs =
        EvReplaceLabelsForIssue (owner h) (repo h) (prNum h)
          (Label_Text <$> elems (PullRequest_Labels pr)) (Ok tt)
        :: EvListComments (owner h) (repo h) (prNum h) (Ok existing)
        :: sync_events h (Upload_desiredComments pr) existing
        ++ (create_event h <$>
              (snd <$> range_map (remaining (Upload_desiredComments pr) existing))).
Proof. apply Upload_ok. Qed.

Lemma Upload_complete_run_witness :
  ∃ pr existing,
    files (fixture.world_with fixture.tektonPR fixture.gh) !! "/tmp/pr.json"
    = Some (DocPullRequest pr)
    ∧ files (fixture.upload fake_client fixture.tektonPR fixture.gh).1.2
      = files (fixture.world_with fixture.tektonPR fixture.gh)
    ∧ (fixture.upload fake_client fixture.tektonPR fixture.gh).2
      = EvReplaceLabelsForIssue "foo" "bar" 1
          (Label_Text <$> elems (PullRequest_Labels pr)) (Ok tt)
        :: EvListComments "foo" "bar" 1 (Ok existing)
        :: sync_events fixture.h (Upload_desiredComments pr) existing
        ++ (create_event fixture.h <$>
              (snd <$> map_to_list (remaining (Upload_desiredComments pr) existing))).
Proof.
  exact (Upload_complete_run fake_client map_to_list fixture.h fixture.dir
           (fixture.world_with fixture.tektonPR fixture.gh)
           (fixture.upload fake_client fixture.tektonPR fixture.gh).1.2
           (fixture.upload fake_client fixture.tektonPR fixture.gh).2
           ltac:(compute_done)).
Defined.

(** X2: the calls and the files of a complete run of [Download]: the pull
    request and the comments are fetched, in this order, and the directory
    gains the raw pull request, one raw file per comment and the generic
    record, every other file staying as it was. *)
Theorem Download_complete_run {S} (client : Client S) h dir (w w' : World S) evs :
  Download client h dir w = (Ok tt, w', evs) →
  ∃ gpr ic,
    evs = [EvPullRequestsGet (owner h) (repo h) (prNum h) (Ok gpr);
           EvListComments (owner h) (repo h) (prNum h) (Ok ic)]
    ∧ files w' =
        <[filepath_Join dir prFile := DocPullRequest (Download_record dir gpr ic)]>
          (write_comments (filepath_Join (filepath_Join dir "github") "comments") ic
             (<[filepath_Join (filepath_Join dir "github") "pr.json"
                  := DocGitHubPullRequest gpr]> (files w))).
Proof. apply Download_ok. Qed.

Lemma Download_complete_run_witness :
  ∃ gpr ic,
    (fixture.download fake_client fixture.gh).2
    = [EvPullRequestsGet "foo" "bar" 1 (Ok gpr);
       EvListComments "foo" "bar" 1 (Ok ic)]
    ∧ files (fixture.download fake_client fixture.gh).1.2 =
        <[ "/tmp/pr.json" := DocPullRequest (Download_record "/tmp" gpr ic)]>
          (write_comments "/tmp/github/comments" ic
             (<[ "/tmp/github/pr.json" := DocGitHubPullRequest gpr]> ∅)).
Proof.
  exact (Download_complete_run fake_client fixture.h fixture.dir
           (mkWorld fixture.gh ∅)
           (fixture.download fake_client fixture.gh).1.2
           (fixture.download fake_client fixture.gh).2
           ltac:(compute_done)).
Defined.

(** ** Runs that fail, and what a run leaves alone *)

Section Runs.

Context {S : Type} (client : Client S).
Context (range_map : gmap Z Comment → list (Z * Comment)).
Hypothesis range_map_perm : ∀ m, range_map m ≡ₚ map_to_list m.

(** The three ways a run of [Download] can go: the pull request cannot be
    fetched, the comments cannot be listed, or the run is complete. *)
Lemma Download_run h dir (w w' : World S) res evs :
  Download client h dir w = (res, w', evs) →
  (∃ e, res = Err e
        ∧ evs = [EvPullRequestsGet (owner h) (repo h) (prNum h) (Err e)]
        ∧ files w' = files w)
  ∨ (∃ gpr e, res = Err e
        ∧ evs = [EvPullRequestsGet (owner h) (repo h) (prNum h) (Ok gpr);
                 EvListComments (owner h) (repo h) (prNum h) (Err e)]
        ∧ files w' =
            <[filepath_Join (filepath_Join dir "github") "pr.json"
                := DocGitHubPullRequest gpr]> (files w))
  ∨ (∃ gpr ic, res = Ok tt
        ∧ evs = [EvPullRequestsGet (owner h) (repo h) (prNum h) (Ok gpr);
                 EvListComments (owner h) (repo h) (prNum h) (Ok ic)]
        ∧ files w' =
            <[filepath_Join dir prFile := DocPullRequest (Download_record dir gpr ic)]>
              (write_comments (filepath_Join (filepath_Join dir "github") "comments") ic
                 (<[filepath_Join (filepath_Join dir "github") "pr.json"
                      := DocGitHubPullRequest gpr]> (files w)))).
Proof.
  destruct res as [[]|e].
  - intros Hrun. right. right.
    apply Download_ok in Hrun as (gpr & ic & -> & Hf). by exists gpr, ic.
  - unfold Download. intros Hrun.
    apply bind_run in Hrun as [(e' & Hrun & _)|([] & w1 & evs1 & evs2 & Hrun1 & Hrun & ->)].
    { by apply os_MkdirAll_run in Hrun as ([=] & _). }
    apply os_MkdirAll_run in Hrun1 as (_ & -> & ->).
    apply bind_run in Hrun as [(e' & Hrun & [= <-])|(gpr & w2 & evs1 & evs3 & Hrun1 & Hrun & ->)].
    { apply PullRequests_Get_run in Hrun as [-> Hf]. left. by exists e. }
    apply PullRequests_Get_run in Hrun1 as [-> Hf1].
    apply bind_run in Hrun as [(e' & Hrun & _)|([] & w3 & evs1 & evs4 & Hrun1 & Hrun & ->)].
    { by apply writeJSON_run in Hrun as ([=] & _). }
    apply writeJSON_run in Hrun1 as (_ & -> & ->).
    apply bind_run in Hrun as [(e' & Hrun & _)|([] & w4 & evs1 & evs5 & Hrun1 & Hrun & ->)].
    { by apply os_MkdirAll_run in Hrun as ([=] & _). }
    apply os_MkdirAll_run in Hrun1 as (_ & -> & ->).
    apply bind_run in Hrun as [(e' & Hrun & [= <-])|(ic & w5 & evs1 & evs6 & Hrun1 & Hrun & ->)].
    { apply ListComments_run in Hrun as [-> Hf]. right. left. exists gpr, e.
      split; [done|]. split; [done|]. rewrite Hf. simpl. by rewrite Hf1. }
    apply ListComments_run in Hrun1 as [-> Hf2].
    apply bind_run in Hrun as [(e' & Hrun & _)|(cs & w6 & evs1 & evs7 & Hrun1 & Hrun & ->)].
    { unfold make in Hrun. rewrite Download_comments_run in Hrun. discriminate. }
    by apply writeJSON_run in Hrun as ([=] & _).
Qed.

(** X3: a provider call that fails ends [Download] with its error, and
    the generic record [dir/pr.json] is then as it was: it is written last.
    No comment file was written either.  If the pull request could not be
    fetched no file changed at all; if the comments could not be listed,
    [dir/github/pr.json] already holds the pull request that was fetched. *)
Theorem Download_failure_keeps_record h dir (w w' : World S) res evs ev e :
  Download client h dir w = (res, w', evs) →
  In ev evs → ev_error ev = Some e →
  res = Err e
  ∧ files w' !! filepath_Join dir prFile = files w !! filepath_Join dir prFile
  ∧ (∀ p, p ≠ filepath_Join (filepath_Join dir "github") "pr.json" →
          files w' !! p = files w !! p)
  ∧ ((evs = [EvPullRequestsGet (owner h) (repo h) (prNum h) (Err e)]
      ∧ files w' = files w)
     ∨ ∃ gpr,
         evs = [EvPullRequestsGet (owner h) (repo h) (prNum h) (Ok gpr);
                EvListComments (owner h) (repo h) (prNum h) (Err e)]
         ∧ files w' !! filepath_Join (filepath_Join dir "github") "pr.json"
           = Some (DocGitHubPullRequest gpr)).
Proof.
  intros Hrun Hin He.
  apply Download_run in Hrun
    as [(e' & -> & -> & Hf)|[(gpr & e' & -> & -> & Hf)|(gpr & ic & -> & -> & Hf)]].
  - destruct Hin as [<-|[]]. injection He as <-.
    rewrite Hf. split; [done|]. split; [done|]. split; [done|]. by left.
  - destruct Hin as [<-|[<-|[]]]; [done|]. injection He as <-.
    rewrite Hf. split; [done|]. split; [|split].
    + apply lookup_insert_ne, rawPR_ne_prPath.
    + intros p Hp. by apply lookup_insert_ne.
    + right. exists gpr. split; [done|]. apply lookup_insert_eq.
  - by destruct Hin as [<-|[<-|[]]].
Qed.

(** The files in which a run of [Download] that listed the comments [ic]
    may differ from the files it started from. *)
Lemma Download_written dir gpr ic (fs : gmap string Doc) p :
  p ≠ filepath_Join dir prFile →
  p ≠ filepath_Join (filepath_Join dir "github") "pr.json" →
  (∀ c, c ∈ ic →
        rawCommentPath (filepath_Join (filepath_Join dir "github") "comments") c ≠ p) →
  (<[filepath_Join dir prFile := DocPullRequest (Download_record dir gpr ic)]>
     (write_comments (filepath_Join (filepath_Join dir "github") "comments") ic
        (<[filepath_Join (filepath_Join dir "github") "pr.json"
             := DocGitHubPullRequest gpr]> fs))) !! p = fs !! p.
Proof.
  intros H1 H2 H3.
  rewrite lookup_insert_ne by done.
  rewrite lookup_write_comments_other by done.
  by rewrite lookup_insert_ne.
Qed.

Lemma write_comments_is_Some prefix ic (fs : gmap string Doc) p :
  is_Some (fs !! p) → is_Some (write_comments prefix ic fs !! p).
Proof.
  revert fs. induction ic as [|c ic IH]; intros fs Hp; [done|].
  rewrite write_comments_cons. apply IH.
  destruct (decide (rawCommentPath prefix c = p)) as [->|Hne].
  - rewrite lookup_insert_eq. by eexists.
  - by rewrite lookup_insert_ne.
Qed.

Lemma insert_is_Some (fs : gmap string Doc) k d p :
  is_Some (fs !! p) → is_Some (<[k := d]> fs !! p).
Proof.
  intros Hp. destruct (decide (k = p)) as [->|Hne].
  - rewrite lookup_insert_eq. by eexists.
  - by rewrite lookup_insert_ne.
Qed.

(** What a run of [Download] may change, and that it removes nothing. *)
Lemma Download_changes h dir (w w' : World S) res evs :
  Download client h dir w = (res, w', evs) →
  (∀ p, is_Some (files w !! p) → is_Some (files w' !! p))
  ∧ (∀ p, files w' !! p ≠ files w !! p →
       p = filepath_Join dir prFile
       ∨ p = filepath_Join (filepath_Join dir "github") "pr.json"
       ∨ ∃ ic c,
           In (EvListComments (owner h) (repo h) (prNum h) (Ok ic)) evs
           ∧ c ∈ ic
           ∧ p = rawCommentPath
                   (filepath_Join (filepath_Join dir "github") "comments") c).
Proof.
  intros Hrun.
  apply Download_run in Hrun
    as [(e & -> & -> & Hf)|[(gpr & e & -> & -> & Hf)|(gpr & ic & -> & -> & Hf)]];
    rewrite Hf.
  - split; [done|]. by intros p [].
  - split; [intros p; apply insert_is_Some|].
    intros p Hp. right. left.
    destruct (decide (p = filepath_Join (filepath_Join dir "github") "pr.json"))
      as [->|Hne]; [done|].
    by rewrite lookup_insert_ne in Hp.
  - split.
    { intros p Hp. by apply insert_is_Some, write_comments_is_Some, insert_is_Some. }
    intros p Hp.
    destruct (decide (p = filepath_Join dir prFile)) as [->|H1]; [by left|].
    destruct (decide (p = filepath_Join (filepath_Join dir "github") "pr.json"))
      as [->|H2]; [by right; left|].
    right. right. exists ic.
    destruct (decide (Exists
      (λ c, rawCommentPath (filepath_Join (filepath_Join dir "github") "comments") c = p)
      ic)) as [Hex|Hnex].
    + apply Exists_exists in Hex as (c & Hc & <-). exists c.
      split; [|done]. right. by left.
    + destruct Hp. apply Download_written; [done..|].
      intros c Hc Heq. apply Hnex, Exists_exists. by exists c.
Qed.

(** X4: no run of [Download], complete or not, removes a file, and the
    only files it can change are [dir/pr.json], [dir/github/pr.json] and the
    raw files of the comments the provider listed, all of them in [dir]: a
    raw comment file left by an earlier download stays when the comment is
    no longer listed. *)
Theorem Download_never_removes_files h dir (w w' : World S) res evs :
  Download client h dir w = (res, w', evs) →
  (∀ p, is_Some (files w !! p) → is_Some (files w' !! p))
  ∧ (∀ p, files w' !! p ≠ files w !! p →
       p = filepath_Join dir prFile
       ∨ p = filepath_Join (filepath_Join dir "github") "pr.json"
       ∨ ∃ ic c,
           In (EvListComments (owner h) (repo h) (prNum h) (Ok ic)) evs
           ∧ c ∈ ic
           ∧ p = rawCommentPath
                   (filepath_Join (filepath_Join dir "github") "comments") c)
  ∧ (∀ p, files w' !! p ≠ files w !! p → ∃ name, p = filepath_Join dir name).
Proof.
  intros Hrun. destruct (Download_changes _ _ _ _ _ _ Hrun) as [Hkeep Hchanged].
  split; [done|]. split; [done|]. intros p Hp.
  destruct (Hchanged p Hp) as [->|[->|(ic & c & _ & _ & ->)]].
  - by eexists.
  - exists "github/pr.json". rewrite rawPR_eq. by rewrite filepath_Join_prefix.
  - exists ("github/comments/" +:+ pretty (github.IssueComment_GetID c) +:+ ".json").
    rewrite rawCommentPath_eq. by rewrite filepath_Join_prefix.
Qed.


(** The raw file of a listed comment holds what the loop over the comments
    wrote, whatever the directory held before. *)
Lemma lookup_write_comments_base prefix ic (fs fs' : gmap string Doc) p :
  Exists (λ c, rawCommentPath prefix c = p) ic →
  write_comments prefix ic fs !! p = write_comments prefix ic fs' !! p.
Proof.
  revert fs fs'. induction ic as [|c ic IH]; intros fs fs' Hex.
  { by apply Exists_nil in Hex. }
  rewrite !write_comments_cons.
  destruct (decide (Exists (λ c, rawCommentPath prefix c = p) ic)) as [Hin|Hout].
  - by apply IH.
  - apply Exists_cons in Hex as [<-|Hin]; [|done].
    rewrite !lookup_write_comments_other.
    + by rewrite !lookup_insert_eq.
    + intros c' Hc' Heq. apply Hout, Exists_exists. by exists c'.
    + intros c' Hc' Heq. apply Hout, Exists_exists. by exists c'.
Qed.

(** X5: downloading again into the same directory, the provider answering
    as before, leaves every file as the first download left it. *)
Theorem Download_twice_same_files h dir (w0 w1 w1' w2 : World S) evs :
  Download client h dir w0 = (Ok tt, w1, evs) →
  files w1' = files w1 →
  Download client h dir w1' = (Ok tt, w2, evs) →
  files w2 = files w1.
Proof.
  intros Hrun1 Hsame Hrun2.
  apply Download_ok in Hrun1 as (gpr & ic & -> & Hf1).
  apply Download_ok in Hrun2 as (gpr' & ic' & [= <- <-] & Hf2).
  rewrite Hf2, Hsame. apply map_eq. intros p.
  destruct (decide (p = filepath_Join dir prFile)) as [->|H1].
  { by rewrite Hf1, !lookup_insert_eq. }
  rewrite lookup_insert_ne by done.
  assert (files w1 !! p
          = write_comments (filepath_Join (filepath_Join dir "github") "comments") ic
              (<[filepath_Join (filepath_Join dir "github") "pr.json"
                   := DocGitHubPullRequest gpr]> (files w0)) !! p) as Hw1.
  { rewrite Hf1. by rewrite lookup_insert_ne. }
  rewrite Hw1.
  destruct (decide (Exists
    (λ c, rawCommentPath (filepath_Join (filepath_Join dir "github") "comments") c = p)
    ic)) as [Hex|Hnex].
  { by apply lookup_write_comments_base. }
  assert (∀ c, c ∈ ic →
            rawCommentPath (filepath_Join (filepath_Join dir "github") "comments") c ≠ p)
    as Hother.
  { intros c Hc Heq. apply Hnex, Exists_exists. by exists c. }
  rewrite !lookup_write_comments_other by done.
  destruct (decide (p = filepath_Join (filepath_Join dir "github") "pr.json"))
    as [->|H2].
  { by rewrite !lookup_insert_eq. }
  rewrite !lookup_insert_ne by done.
  rewrite Hw1, lookup_write_comments_other by done.
  by rewrite lookup_insert_ne.
Qed.

(** **** the calls of any run of [Upload] *)

Lemma readJSON_bind {A} path (w : World S) pr (f : PullRequest → M S A) :
  files w !! path = Some (DocPullRequest pr) →
  (pr <- readJSON path ;; f pr) w = f pr w.
Proof.
  intros Hfile. unfold bind. rewrite (readJSON_ok _ _ _ Hfile).
  by destruct (f pr w) as [[r w1] evs].
Qed.

(** The calls of the loop over the existing comments, in any run: each
    addresses a listed comment; an edit carries the text the desired
    comments hold under that ID and the user of the listed comment; a
    deletion is for an ID the desired comments lack, the listed IDs being
    distinct. *)
Lemma Upload_existing_calls h existing desired (w w' : World S) res evs ev :
  Upload_existing client h existing desired w = (res, w', evs) →
  In ev evs →
  (∃ ec r', ec ∈ existing
      ∧ ev = EvDeleteComment (owner h) (repo h) (github.IssueComment_GetID ec) r'
      ∧ (NoDup (github.IssueComment_GetID <$> existing) →
         desired !! github.IssueComment_GetID ec = None))
  ∨ (∃ ec dc r', ec ∈ existing
      ∧ desired !! github.IssueComment_GetID ec = Some dc
      ∧ Comment_Text dc ≠ github.IssueComment_GetBody ec
      ∧ ev = EvEditComment (owner h) (repo h) (github.IssueComment_GetID ec)
               (github.mkIssueComment None (Some (Comment_Text dc))
                  (github.IssueComment_User ec)) r').
Proof.
  revert desired w evs. induction existing as [|ec rest IH]; intros desired w evs.
  { intros [= <- <- <-] []. }
  cbn [Upload_existing]. intros Hrun Hin.
  assert (∀ evs2 w1,
            Upload_existing client h rest
              (delete (github.IssueComment_GetID ec) desired) w1 = (res, w', evs2) →
            In ev evs2 →
            (∃ ec0 r', ec0 ∈ ec :: rest
               ∧ ev = EvDeleteComment (owner h) (repo h)
                        (github.IssueComment_GetID ec0) r'
               ∧ (NoDup (github.IssueComment_GetID <$> ec :: rest) →
                  desired !! github.IssueComment_GetID ec0 = None))
            ∨ (∃ ec0 dc r', ec0 ∈ ec :: rest
               ∧ desired !! github.IssueComment_GetID ec0 = Some dc
               ∧ Comment_Text dc ≠ github.IssueComment_GetBody ec0
               ∧ ev = EvEditComment (owner h) (repo h)
                        (github.IssueComment_GetID ec0)
                        (github.mkIssueComment None (Some (Comment_Text dc))
                           (github.IssueComment_User ec0)) r')) as Hrest.
  { intros evs2 w1 Hrec Hin2.
    destruct (IH _ _ _ Hrec Hin2)
      as [(ec0 & r' & Hec0 & -> & Hnone)|(ec0 & dc & r' & Hec0 & Hsome & Hne & ->)].
    - left. exists ec0, r'. split; [by right|]. split; [done|].
      rewrite fmap_cons. intros Hnd. apply NoDup_cons in Hnd as [Hfresh Hnd].
      specialize (Hnone Hnd). apply lookup_delete_None in Hnone as [Heq|]; [|done].
      destruct Hfresh. rewrite Heq. by apply list_elem_of_fmap_2.
    - right. exists ec0, dc, r'. split; [by right|].
      apply lookup_delete_Some in Hsome as [_ Hsome]. done. }
  destruct (desired !! github.IssueComment_GetID ec) as [dc|] eqn:Hlook.
  - destruct (negb (Comment_Text dc =? github.IssueComment_GetBody ec)%string)
      eqn:Htext.
    + apply bind_run in Hrun
        as [(e & Hrun & _)|([] & w1 & evs1 & evs2 & Hrun1 & Hrun & ->)].
      * apply EditComment_run in Hrun as [-> _].
        destruct Hin as [<-|[]]. right. exists ec, dc, (Err e).
        split; [by left|]. split; [done|]. split; [|done].
        apply negb_true_iff, String.eqb_neq in Htext. done.
      * apply EditComment_run in Hrun1 as [-> _].
        apply in_app_or in Hin as [[<-|[]]|Hin]; [|by eapply Hrest].
        right. exists ec, dc, (Ok tt).
        split; [by left|]. split; [done|]. split; [|done].
        apply negb_true_iff, String.eqb_neq in Htext. done.
    + apply bind_run in Hrun
        as [(e & [=] & _)|([] & w1 & evs1 & evs2 & [= <- <-] & Hrun & ->)].
      by eapply Hrest.
  - apply bind_run in Hrun
      as [(e & Hrun & _)|([] & w1 & evs1 & evs2 & Hrun1 & Hrun & ->)].
    + apply DeleteComment_run in Hrun as [-> _].
      destruct Hin as [<-|[]]. left. exists ec, (Err e).
      split; [by left|]. done.
    + apply DeleteComment_run in Hrun1 as [-> _].
      apply in_app_or in Hin as [[<-|[]]|Hin]; [|by eapply Hrest].
      left. exists ec, (Ok tt). split; [by left|]. done.
Qed.

(** The calls of the loop over what is left of the desired comments, in
    any run: each creates one of them, with its text and nothing else. *)
Lemma Upload_create_calls h desired (w w' : World S) res evs ev :
  Upload_create client h desired w = (res, w', evs) →
  In ev evs →
  ∃ kd r', kd ∈ desired
    ∧ ev = EvCreateComment (owner h) (repo h) (prNum h)
             (github.mkIssueComment None (Some (Comment_Text kd.2)) None) r'.
Proof.
  revert w evs. induction desired as [|[k dc] rest IH]; intros w evs.
  { intros [= <- <- <-] []. }
  cbn [Upload_create]. intros Hrun Hin.
  apply bind_run in Hrun
    as [(e & Hrun & _)|([] & w1 & evs1 & evs2 & Hrun1 & Hrun & ->)].
  - apply CreateComment_run in Hrun as [-> _]. destruct Hin as [<-|[]].
    exists (k, dc), (Err e). split; [by left|done].
  - apply CreateComment_run in Hrun1 as [-> _].
    apply in_app_or in Hin as [[<-|[]]|Hin].
    + exists (k, dc), (Ok tt). split; [by left|done].
    + destruct (IH _ _ Hrun Hin) as (kd & r' & Hkd & ->).
      exists kd, r'. split; [by right|done].
Qed.

(** The stages of any run of [Upload] that found the record: the label
    call, the listing, the loop over the listed comments and the loop over
    what is left of the desired ones, each reached only if the one before
    succeeded. *)
Lemma Upload_stages h dir (w w' : World S) res evs pr :
  files w !! filepath_Join dir prFile = Some (DocPullRequest pr) →
  Upload client range_map h dir w = (res, w', evs) →
  ∃ r1 rest,
    evs = EvReplaceLabelsForIssue (owner h) (repo h) (prNum h)
            (Label_Text <$> elems (PullRequest_Labels pr)) r1 :: rest
    ∧ (rest = []
       ∨ ∃ rl rest',
           rest = EvListComments (owner h) (repo h) (prNum h) rl :: rest'
           ∧ (rest' = []
              ∨ ∃ existing w3 w4 r evs1 evs2,
                  rl = Ok existing ∧ rest' = evs1 ++ evs2
                  ∧ Upload_existing client h existing (Upload_desiredComments pr) w3
                    = (r, w4, evs1)
                  ∧ (evs2 = []
                     ∨ ∃ m, r = Ok m
                         ∧ Upload_create client h (range_map m) w4 = (res, w', evs2)))).
Proof.
  unfold Upload. intros Hfile Hrun.
  rewrite (readJSON_bind _ _ _ _ Hfile) in Hrun.
  rewrite Upload_labelNames_elems in Hrun.
  apply bind_run in Hrun
    as [(e & Hrun & _)|([] & w2 & evs1 & evs3 & Hrun1 & Hrun & ->)].
  { apply ReplaceLabels_run in Hrun as [-> _]. eexists _, []. split; [done|by left]. }
  apply ReplaceLabels_run in Hrun1 as [-> _]. eexists _, _. split; [done|]. right.
  apply bind_run in Hrun
    as [(e & Hrun & _)|(existing & w3 & evs1 & evs4 & Hrun1 & Hrun & ->)].
  { apply ListComments_run in Hrun as [-> _]. eexists _, []. split; [done|by left]. }
  apply ListComments_run in Hrun1 as [-> _]. eexists _, _. split; [done|]. right.
  apply bind_run in Hrun
    as [(e & Hrun & _)|(m & w4 & evs1 & evs5 & Hrun1 & Hrun & ->)].
  { eexists existing, w3, w', (Err e), evs4, []. rewrite app_nil_r.
    repeat split; try done. by left. }
  eexists existing, w3, w4, (Ok m), evs1, evs5.
  repeat split; try done. right. by exists m.
Qed.


(** X6: in every run of [Upload], complete or not, a comment is edited
    only if the provider listed it and the record holds under its ID a
    comment with another text, and the call carries that text and the user
    of the listed comment; a comment is created only from a record comment
    whose ID the listing lacks, and the call carries its text and nothing
    else; a comment is deleted only if the provider listed it and, the
    listed IDs being distinct, no comment of the record has its ID. *)
Theorem Upload_calls_come_from_record h dir (w w' : World S) res evs pr :
  files w !! filepath_Join dir prFile = Some (DocPullRequest pr) →
  Upload client range_map h dir w = (res, w', evs) →
  (∀ o r id c r', In (EvEditComment o r id c r') evs →
     ∃ dc existing ec,
       dc ∈ elems (PullRequest_Comments pr) ∧ Comment_ID dc = id
       ∧ In (EvListComments (owner h) (repo h) (prNum h) (Ok existing)) evs
       ∧ ec ∈ existing ∧ github.IssueComment_GetID ec = id
       ∧ Comment_Text dc ≠ github.IssueComment_GetBody ec
       ∧ c = github.mkIssueComment None (Some (Comment_Text dc))
               (github.IssueComment_User ec))
  ∧ (∀ o r n c r', In (EvCreateComment o r n c r') evs →
     ∃ dc existing,
       dc ∈ elems (PullRequest_Comments pr)
       ∧ In (EvListComments (owner h) (repo h) (prNum h) (Ok existing)) evs
       ∧ (Comment_ID dc ∉ github.IssueComment_GetID <$> existing)
       ∧ c = github.mkIssueComment None (Some (Comment_Text dc)) None)
  ∧ (∀ o r id r', In (EvDeleteComment o r id r') evs →
     ∃ existing,
       In (EvListComments (owner h) (repo h) (prNum h) (Ok existing)) evs
       ∧ id ∈ github.IssueComment_GetID <$> existing
       ∧ (NoDup (github.IssueComment_GetID <$> existing) →
          id ∉ Comment_ID <$> elems (PullRequest_Comments pr))).
Proof.
  intros Hfile Hrun.
  destruct (Upload_stages _ _ _ _ _ _ _ Hfile Hrun) as (r1 & rest & -> & Hrest).
  assert (∀ ev, In ev (EvReplaceLabelsForIssue (owner h) (repo h) (prNum h)
                         (Label_Text <$> elems (PullRequest_Labels pr)) r1 :: rest) →
            is_comment_mutation ev = true →
            ∃ existing w3 w4 r evs1 evs2,
              rest = EvListComments (owner h) (repo h) (prNum h) (Ok existing)
                     :: evs1 ++ evs2
              ∧ Upload_existing client h existing (Upload_desiredComments pr) w3
                = (r, w4, evs1)
              ∧ (evs2 = []
                 ∨ ∃ m, r = Ok m
                     ∧ Upload_create client h (range_map m) w4 = (res, w', evs2))
              ∧ In ev (evs1 ++ evs2)) as Hstage.
  { intros ev [<-|Hin] Hmut; [discriminate|].
    destruct Hrest as [->|(rl & rest' & -> & Hrest)]; [by destruct Hin|].
    destruct Hin as [<-|Hin]; [discriminate|].
    destruct Hrest as [->|(existing & w3 & w4 & r & evs1 & evs2 & -> & -> & H1 & H2)];
      [by destruct Hin|].
    by exists existing, w3, w4, r, evs1, evs2. }
  assert (∀ existing tail,
            In (EvListComments (owner h) (repo h) (prNum h) (Ok existing))
               (EvReplaceLabelsForIssue (owner h) (repo h) (prNum h)
                  (Label_Text <$> elems (PullRequest_Labels pr)) r1
                :: EvListComments (owner h) (repo h) (prNum h) (Ok existing) :: tail))
    as Hlisted.
  { intros. right. by left. }
  split; [|split].
  - intros o r id c r' Hin.
    destruct (Hstage _ Hin eq_refl)
      as (existing & w3 & w4 & r0 & evs1 & evs2 & -> & H1 & H2 & Hin').
    apply in_app_or in Hin' as [Hin'|Hin'].
    + destruct (Upload_existing_calls _ _ _ _ _ _ _ _ H1 Hin')
        as [(ec & r2 & _ & [=] & _)|(ec & dc & r2 & Hec & Hsome & Hne & Heq)].
      injection Heq as -> -> -> -> ->.
      apply desiredComments_Some in Hsome as [Hdc Hid].
      exists dc, existing, ec. by repeat split.
    + destruct H2 as [->|(m & -> & H2)]; [by destruct Hin'|].
      by destruct (Upload_create_calls _ _ _ _ _ _ _ H2 Hin') as (kd & r2 & _ & [=]).
  - intros o r n c r' Hin.
    destruct (Hstage _ Hin eq_refl)
      as (existing & w3 & w4 & r0 & evs1 & evs2 & -> & H1 & H2 & Hin').
    apply in_app_or in Hin' as [Hin'|Hin'].
    + by destruct (Upload_existing_calls _ _ _ _ _ _ _ _ H1 Hin')
        as [(ec & r2 & _ & [=] & _)|(ec & dc & r2 & _ & _ & _ & [=])].
    + destruct H2 as [->|(m & -> & H2)]; [by destruct Hin'|].
      destruct (Upload_create_calls _ _ _ _ _ _ _ H2 Hin')
        as ([k dc] & r2 & Hkd & [= -> -> -> -> ->]).
      apply Upload_existing_ok in H1 as (-> & _ & _).
      rewrite range_map_perm in Hkd. apply elem_of_map_to_list in Hkd.
      rewrite lookup_remaining in Hkd. case_decide as Hex; [done|].
      apply desiredComments_Some in Hkd as [Hdc <-].
      exists dc, existing. by repeat split.
  - intros o r id r' Hin.
    destruct (Hstage _ Hin eq_refl)
      as (existing & w3 & w4 & r0 & evs1 & evs2 & -> & H1 & H2 & Hin').
    exists existing. split; [done|].
    apply in_app_or in Hin' as [Hin'|Hin'].
    + destruct (Upload_existing_calls _ _ _ _ _ _ _ _ H1 Hin')
        as [(ec & r2 & Hec & [= -> -> ->] & Hnone)|(ec & dc & r2 & _ & _ & _ & [=])].
      split; [by apply list_elem_of_fmap_2|].
      intros Hnd. by apply desiredComments_None, Hnone.
    + destruct H2 as [->|(m & -> & H2)]; [by destruct Hin'|].
      by destruct (Upload_create_calls _ _ _ _ _ _ _ H2 Hin') as (kd & r2 & _ & [=]).
Qed.

(** The IDs under which [desiredComments] holds a comment are the IDs of
    the record's comments, and those of what is left after the loop over
    the listed comments are the ones the listing lacks. *)
Lemma dom_desiredComments pr :
  dom (Upload_desiredComments pr)
  =@{gset Z} list_to_set (Comment_ID <$> elems (PullRequest_Comments pr)).
Proof.
  apply set_eq. intros id. rewrite elem_of_list_to_set.
  destruct (decide (id ∈ Comment_ID <$> elems (PullRequest_Comments pr)))
    as [Hin|Hout].
  - split; [done|]. intros _. apply elem_of_dom.
    destruct (Upload_desiredComments pr !! id) eqn:E; [by eexists|].
    by apply desiredComments_None in E.
  - split; [|done]. intros Hdom. apply elem_of_dom in Hdom as [dc Hdc].
    apply desiredComments_None in Hout. congruence.
Qed.

Lemma dom_remaining desired existing :
  dom (remaining desired existing)
  =@{gset Z} dom desired ∖ list_to_set (github.IssueComment_GetID <$> existing).
Proof.
  apply set_eq. intros id.
  rewrite elem_of_difference, elem_of_list_to_set, !elem_of_dom, lookup_remaining.
  case_decide as Hin.
  - split; [by intros [? [=]]|]. by intros [_ []].
  - tauto.
Qed.

(** X7: a complete run of [Upload] creates as many comments as the record
    has distinct comment IDs that the provider's listing lacks: comments of
    the record that share an ID, such as several new ones that all have the
    ID 0, count once. *)
Theorem Upload_creates_one_per_new_ID h dir (w w' : World S) evs pr existing :
  files w !! filepath_Join dir prFile = Some (DocPullRequest pr) →
  Upload client range_map h dir w = (Ok tt, w', evs) →
  In (EvListComments (owner h) (repo h) (prNum h) (Ok existing)) evs →
  length (List.filter is_Create evs)
  = size (list_to_set (Comment_ID <$> elems (PullRequest_Comments pr))
            ∖ list_to_set (github.IssueComment_GetID <$> existing) : gset Z).
Proof.
  intros Hfile Hrun Hlist.
  apply Upload_ok in Hrun as (pr' & existing' & Hfile' & _ & ->).
  assert (pr' = pr) as -> by congruence.
  apply ListComments_in_Upload in Hlist as ->.
  cbn [List.filter is_Create]. rewrite List.filter_app.
  rewrite filter_Create_sync_events, filter_Create_create_events. cbn [app].
  rewrite !length_fmap, range_map_perm.
  by rewrite <- dom_desiredComments, <- dom_remaining, size_dom,
    length_map_to_list.
Qed.

(** X8: without a record there is no call.  When [dir/pr.json] does not
    exist, [Upload] fails with the error of opening it, before any call to
    the provider, and leaves the provider and the files as they were; when
    it holds a record, [Upload] does call the provider. *)
Theorem Upload_without_record h dir (w : World S) :
  (files w !! filepath_Join dir prFile = None →
   Upload client range_map h dir w
   = (Err ("open " +:+ filepath_Join dir prFile +:+ ": no such file or directory"),
      w, []))
  ∧ (∀ pr, files w !! filepath_Join dir prFile = Some (DocPullRequest pr) →
           (Upload client range_map h dir w).2 ≠ []).
Proof.
  split.
  - intros Hfile. unfold Upload, bind, readJSON. by rewrite Hfile.
  - intros pr Hfile.
    destruct (Upload client range_map h dir w) as [[res w'] evs] eqn:Hrun.
    by destruct (Upload_stages _ _ _ _ _ _ _ Hfile Hrun) as (r1 & rest & -> & _).
Qed.

(** X21: no call reaches another repository or pull request.  Every call
    that [Download] or [Upload] issues, in any run, addresses the owner
    and the repository of the handler, and the number of the handler when
    it names a pull request. *)
Theorem calls_address_the_handler h dir (w w' : World S) res evs :
  Download client h dir w = (res, w', evs)
  ∨ Upload client range_map h dir w = (res, w', evs) →
  Forall (addresses h) evs.
Proof.
  intros [Hrun|Hrun].
  - apply Download_run in Hrun
      as [(e & _ & -> & _)|[(gpr & e & _ & -> & _)|(gpr & ic & _ & -> & _)]];
      repeat constructor; by right.
  - destruct (files w !! filepath_Join dir prFile) as [[pr| |]|] eqn:Hfile.
    2-4: unfold Upload, bind, readJSON in Hrun; rewrite Hfile in Hrun;
      injection Hrun as <- <- <-; constructor.
    destruct (Upload_stages _ _ _ _ _ _ _ Hfile Hrun) as (r1 & rest & -> & Hrest).
    constructor; [split; [done|by right]|].
    destruct Hrest as [->|(rl & rest' & -> & Hrest)]; [constructor|].
    constructor; [split; [done|by right]|].
    destruct Hrest
      as [->|(existing & w3 & w4 & r & evs1 & evs2 & -> & -> & H1 & H2)];
      [constructor|].
    apply Forall_app. split; apply Forall_forall; intros ev Hin;
      apply list_elem_of_In in Hin.
    + destruct (Upload_existing_calls _ _ _ _ _ _ _ _ H1 Hin)
        as [(ec & r2 & _ & -> & _)|(ec & dc & r2 & _ & _ & _ & ->)];
        (split; [done|by left]).
    + destruct H2 as [->|(m & -> & H2)]; [by destruct Hin|].
      destruct (Upload_create_calls _ _ _ _ _ _ _ H2 Hin) as (kd & r2 & _ & ->).
      split; [done|by right].
Qed.

(** **** main *)

Lemma well_behaved_fail {A} e : well_behaved client (fail (A:=A) e).
Proof.
  intros w r w' evs [= <- <- <-]. split; [left; constructor|].
  split; [discriminate|done].
Qed.

Lemma well_behaved_Download_comments prefix ic acc :
  well_behaved client (Download_comments (S:=S) prefix ic acc).
Proof.
  revert acc. induction ic as [|c ic IH]; intros acc; cbn [Download_comments].
  - apply well_behaved_ret.
  - apply well_behaved_bind; [apply well_behaved_writeJSON|]. intros _. apply IH.
Qed.

Lemma well_behaved_Download h dir : well_behaved client (Download client h dir).
Proof.
  unfold Download, os_MkdirAll.
  repeat first
    [ apply well_behaved_bind; [|intros ?]
    | apply well_behaved_ret
    | apply well_behaved_PullRequests_Get
    | apply well_behaved_ListComments
    | apply well_behaved_writeJSON
    | apply well_behaved_Download_comments ].
Qed.

Lemma well_behaved_main prURL path mode :
  well_behaved client (main client range_map prURL path mode).
Proof.
  unfold main. destruct (NewGitHubHandler prURL) as [h|e].
  - destruct (mode =? "download")%string; [apply well_behaved_Download|].
    destruct (mode =? "upload")%string; [apply well_behaved_Upload|].
    apply well_behaved_ret.
  - apply well_behaved_fail.
Qed.

Lemma Download_reads h dir (w w' : World S) res evs :
  Download client h dir w = (res, w', evs) → Forall (λ ev, is_read ev = true) evs.
Proof.
  intros Hrun.
  apply Download_run in Hrun
    as [(e & _ & -> & _)|[(gpr & e & _ & -> & _)|(gpr & ic & _ & -> & _)]];
    by repeat constructor.
Qed.

(** X9: [main] touches one side only.  Unless the mode is ["download"] it
    changes no file; unless the mode is ["upload"] it only reads from the
    provider; with any other mode it does nothing at all and succeeds, if
    the URL resolves; and when the URL does not resolve, as with the
    default, empty, URL, it fails before any call, whatever the mode. *)
Theorem main_touches_one_side prURL path mode (w w' : World S) res evs :
  main client range_map prURL path mode w = (res, w', evs) →
  (mode ≠ "download" → files w' = files w)
  ∧ (mode ≠ "upload" → Forall (λ ev, is_read ev = true) evs)
  ∧ (mode ≠ "download" → mode ≠ "upload" →
       evs = [] ∧ w' = w
       ∧ (is_Ok res = true ↔ is_Ok (NewGitHubHandler prURL) = true))
  ∧ (∀ e, NewGitHubHandler prURL = Err e →
       res = Err ("error creating GitHub client: " +:+ e) ∧ evs = [] ∧ w' = w)
  ∧ (prURL = "" → is_Ok res = false ∧ evs = [] ∧ w' = w).
Proof.
  unfold main. intros Hrun.
  destruct (NewGitHubHandler prURL) as [h|e] eqn:Hh.
  - destruct (String.eqb_spec mode "download") as [->|Hd].
    { split; [done|]. split; [intros _; by eapply Download_reads|].
      split; [done|]. split; [done|]. by intros ->. }
    destruct (String.eqb_spec mode "upload") as [->|Hu].
    { split; [intros _; by apply Upload_shape in Hrun as [? _]|].
      split; [done|]. split; [done|]. split; [done|]. by intros ->. }
    injection Hrun as <- <- <-.
    split; [done|]. split; [by constructor|]. split; [done|].
    split; [done|]. by intros ->.
  - injection Hrun as <- <- <-.
    split; [done|]. split; [by constructor|]. split; [done|].
    split; [by intros ? [= <-]|]. done.
Qed.

(** X10: every error surfaces.  A provider call that fails in a run of
    [main] is the last call of the run, and [main] ends in failure with the
    error of that call; a run that ends in success made only calls that
    succeeded; and the provider is left as the calls issued leave it. *)
Theorem main_surfaces_every_error prURL path mode (w w' : World S) res evs :
  main client range_map prURL path mode w = (res, w', evs) →
  (∀ pre ev post e,
     evs = pre ++ ev :: post → ev_error ev = Some e → post = [] ∧ res = Err e)
  ∧ (is_Ok res = true → Forall ev_ok evs)
  ∧ remote w' = foldl (replay client) (remote w) evs.
Proof.
  intros Hrun. destruct (well_behaved_main _ _ _ _ _ _ _ Hrun) as (Hff & Hok & Hre).
  split; [|done]. intros pre ev post e -> He. by eapply fail_fast_split.
Qed.

End Runs.

(** ** More on handler construction *)

Lemma split_byte_join s : join_path (split_byte "/" s) = s.
Proof.
  unfold join_path. induction s as [|c s IH]; [done|]. simpl.
  destruct (Ascii.eqb_spec c "/") as [->|Hne].
  - destruct (split_byte "/" s) as [|seg segs] eqn:E;
      [by apply split_byte_nonempty in E|].
    change (String.concat "/" ("" :: seg :: segs))
      with ("/" +:+ String.concat "/" (seg :: segs)).
    by rewrite IH.
  - destruct (split_byte "/" s) as [|seg segs] eqn:E;
      [by apply split_byte_nonempty in E|].
    rewrite <- IH. by destruct segs.
Qed.

Lemma split_byte_no_slash s : Forall no_slash (split_byte "/" s).
Proof.
  unfold no_slash. induction s as [|c s IH]; [by repeat constructor|]. simpl.
  destruct (Ascii.eqb_spec c "/") as [->|Hne]; [by constructor|].
  destruct (split_byte "/" s) as [|seg segs].
  { constructor; [|constructor]. simpl. by destruct (Ascii.eqb_spec c "/"). }
  apply Forall_cons in IH as [Hseg Hsegs]. constructor; [|done]. simpl.
  destruct (Ascii.eqb_spec c "/"); [done|]. by rewrite Hseg.
Qed.

Lemma strconv_Atoi_range s n : strconv_Atoi s = Ok n → MinInt ≤ n ≤ MaxInt.
Proof.
  unfold strconv_Atoi.
  assert (Hbody : ∀ neg body,
    match body with
    | "" => Err "strconv.Atoi: invalid syntax"
    | _ =>
        match parse_digits 0 body with
        | None => Err "strconv.Atoi: invalid syntax"
        | Some n0 =>
            let v := if neg : bool then - n0 else n0 in
            if (MinInt <=? v) && (v <=? MaxInt) then Ok v
            else Err "strconv.Atoi: value out of range"
        end
    end = Ok n → MinInt ≤ n ≤ MaxInt).
  { intros neg [|c body]; [done|].
    destruct (parse_digits 0 (String c body)); [|done]. cbv zeta.
    destruct (_ && _) eqn:E; [|done]. intros [= <-].
    apply andb_true_iff in E as [?%Z.leb_le ?%Z.leb_le]. done. }
  destruct s as [|c s]; [done|].
  destruct (Ascii.eqb_spec c "-") as [->|Hm]; [apply (Hbody true s)|].
  destruct (Ascii.eqb_spec c "+") as [->|Hp]; [apply (Hbody false s)|].
  intros H. apply (Hbody false (String c s)). revert H.
  destruct c as [[] [] [] [] [] [] [] []]; try done.
Qed.

(** X11: whenever [NewGitHubHandler] succeeds, the path of the URL, once
    decoded, is made of exactly five segments; the owner and the repository
    of the handler are the second and the third, so neither contains a
    slash, and the number is what [strconv.Atoi] reads from the fifth, within
    the range of [int].  The first and the fourth segment are not looked
    at. *)
Theorem NewGitHubHandler_resolves_five_segments rawURL h :
  NewGitHubHandler rawURL = Ok h →
  ∃ u first tok num,
    url_Parse rawURL = Ok u
    ∧ Path u = join_path [first; owner h; repo h; tok; num]
    ∧ no_slash first ∧ no_slash (owner h) ∧ no_slash (repo h)
    ∧ no_slash tok ∧ no_slash num
    ∧ strconv_Atoi num = Ok (prNum h)
    ∧ MinInt ≤ prNum h ≤ MaxInt.
Proof.
  unfold NewGitHubHandler. destruct (url_Parse rawURL) as [u|e]; [|done].
  pose proof (split_byte_join (Path u)) as Hjoin.
  pose proof (split_byte_no_slash (Path u)) as Hseg.
  unfold strings_Split.
  destruct (split_byte "/" (Path u)) as [|s0 [|s1 [|s2 [|s3 [|s4 [|s5 l]]]]]];
    try done.
  cbn [length Nat.eqb negb nth].
  destruct (strconv_Atoi s4) as [n|e] eqn:Hnum; [|done].
  intros [= <-]. exists u, s0, s3, s4. cbn [owner repo prNum].
  apply Forall_cons in Hseg as [H0 Hseg]. apply Forall_cons in Hseg as [H1 Hseg].
  apply Forall_cons in Hseg as [H2 Hseg]. apply Forall_cons in Hseg as [H3 Hseg].
  apply Forall_cons in Hseg as [H4 _].
  repeat split; try done; by apply strconv_Atoi_range in Hnum as [? ?].
Qed.

(** *** query and fragment *)

Lemma path_query_byte c : path_byte c = true → query_byte c = true.
Proof.
  unfold path_byte, query_byte. rewrite !andb_true_iff. tauto.
Qed.

Lemma query_no_CTL s :
  all_bytes query_byte s = true → stringContainsCTLByte s = false.
Proof.
  induction s as [|c s IH]; [done|]. simpl. unfold query_byte at 1.
  rewrite !andb_true_iff, !negb_true_iff. intros [[Hc _] Hs].
  by rewrite Hc, IH.
Qed.

Lemma query_no_hash s : all_bytes query_byte s = true → index_byte "#" s = None.
Proof.
  induction s as [|c s IH]; [done|]. simpl. unfold query_byte at 1.
  rewrite !andb_true_iff, !negb_true_iff. intros [[_ Hc] Hs].
  by rewrite Hc, IH.
Qed.

Lemma plain_no_question s :
  all_bytes path_byte s = true → index_byte "?" s = None.
Proof.
  induction s as [|c s IH]; [done|]. simpl. unfold path_byte at 1.
  rewrite !andb_true_iff, !negb_true_iff. intros [[[[_ _] Hc] _] Hs].
  by rewrite Hc, IH.
Qed.

Lemma cut_byte_app c a b :
  index_byte c a = None → cut_byte c (a +:+ String c b) = (a, Some b).
Proof.
  induction a as [|d a IH]; intros H.
  - change ("" +:+ String c b) with (String c b). simpl. by rewrite Ascii.eqb_refl.
  - rewrite append_cons. simpl in *.
    destruct (Ascii.eqb d c); [discriminate|].
    destruct (index_byte c a); [discriminate|]. by rewrite IH.
Qed.

Lemma cut_byte_none c a : index_byte c a = None → cut_byte c a = (a, None).
Proof.
  induction a as [|d a IH]; [done|]. simpl.
  destruct (Ascii.eqb d c); [discriminate|].
  destruct (index_byte c a); [discriminate|]. intros _. by rewrite IH.
Qed.

Lemma count_byte_app c a b :
  count_byte c (a +:+ b) = (count_byte c a + count_byte c b)%nat.
Proof.
  induction a as [|d a IH]; [done|]. rewrite append_cons. simpl. rewrite IH. lia.
Qed.

Lemma count_byte_none c a : index_byte c a = None → count_byte c a = 0%nat.
Proof.
  induction a as [|d a IH]; [done|]. simpl.
  destruct (Ascii.eqb d c); [discriminate|].
  destruct (index_byte c a); [discriminate|]. intros _. by rewrite IH.
Qed.

Lemma last_byte_app a c b : last_byte (a +:+ String c b) = last_byte (String c b).
Proof.
  induction a as [|d a IH]; [done|]. rewrite append_cons.
  change (last_byte (String d (a +:+ String c b)))
    with (match a +:+ String c b with
          | "" => Some d
          | _ => last_byte (a +:+ String c b)
          end).
  rewrite <- IH. by destruct a.
Qed.

Lemma last_byte_count c s : last_byte s = Some c → (0 < count_byte c s)%nat.
Proof.
  induction s as [|d s IH]; [done|].
  destruct s as [|d' s].
  - intros [= ->]. simpl. rewrite Ascii.eqb_refl. lia.
  - intros H. apply IH in H. cbn [count_byte] in *. lia.
Qed.

Lemma drop_last_app a c : drop_last (a +:+ String c "") = a.
Proof.
  induction a as [|d a IH]; [done|]. rewrite append_cons.
  change (drop_last (String d (a +:+ String c "")))
    with (match a +:+ String c "" with
          | "" => ""
          | _ => String d (drop_last (a +:+ String c ""))
          end).
  rewrite IH. by destruct a.
Qed.

(** What [url.Parse] takes as the query of [a?q], when [a] has no [?]: a
    lone [?] at the end is dropped, and otherwise the text is cut at the
    first [?]. *)
Lemma query_cut a q :
  index_byte "?" a = None →
  (if (match last_byte (a +:+ String "?" q) with
       | Some "?"%char => true
       | _ => false
       end) && (count_byte "?" (a +:+ String "?" q) =? 1)%nat
   then (drop_last (a +:+ String "?" q), "")
   else match cut_byte "?" (a +:+ String "?" q) with
        | (before, Some after) => (before, after)
        | (before, None) => (before, "")
        end) = (a, q).
Proof.
  intros Ha. rewrite cut_byte_app by done.
  destruct (_ && _) eqn:E; [|done].
  apply andb_true_iff in E as [Hlast Hcount].
  apply Nat.eqb_eq in Hcount.
  rewrite count_byte_app, (count_byte_none _ _ Ha) in Hcount.
  cbn [count_byte] in Hcount. rewrite Ascii.eqb_refl in Hcount.
  destruct q as [|d q]; [by rewrite drop_last_app|].
  rewrite last_byte_app in Hlast.
  change (last_byte (String "?" (String d q))) with (last_byte (String d q)) in Hlast.
  destruct (last_byte (String d q)) as [x|] eqn:Hx; [|done].
  assert (x = "?"%char) as ->.
  { destruct x as [[] [] [] [] [] [] [] []]; done. }
  apply last_byte_count in Hx. lia.
Qed.

Lemma stringContainsCTLByte_app a b :
  stringContainsCTLByte (a +:+ b)
  = stringContainsCTLByte a || stringContainsCTLByte b.
Proof.
  induction a as [|c a IH]; [done|]. rewrite append_cons. simpl.
  by rewrite IH, orb_assoc.
Qed.

Lemma index_byte_app_none c a b :
  index_byte c a = None → index_byte c b = None → index_byte c (a +:+ b) = None.
Proof.
  intros Ha Hb. induction a as [|d a IH]; [done|]. rewrite append_cons.
  simpl in *. destruct (Ascii.eqb d c); [done|].
  destruct (index_byte c a); [done|]. by rewrite IH.
Qed.

(** [url.Parse] on a scheme, a host, a plain path and a query. *)
Lemma url_parse_query scheme host path q :
  scheme ∈ ["http"; "https"; "ssh"] →
  all_bytes segment_byte host = true →
  all_bytes path_byte path = true →
  all_bytes query_byte q = true →
  url_parse ((scheme +:+ "://" +:+ host +:+ "/" +:+ path) +:+ "?" +:+ q)
  = Ok (mkURL scheme "" (after_last_at host) ("/" +:+ path) q "").
Proof.
  intros Hscheme Hhost Hpath Hq.
  assert (Hrest : all_bytes path_byte ("//" +:+ host +:+ "/" +:+ path) = true).
  { rewrite !all_bytes_app, Hpath, (all_bytes_impl _ _ _ segment_path_byte Hhost). done. }
  assert (Hslash : all_bytes path_byte (String "/" path) = true).
  { simpl. by rewrite Hpath. }
  assert (Hctl : stringContainsCTLByte
                   ((scheme +:+ "://" +:+ host +:+ "/" +:+ path) +:+ "?" +:+ q) = false).
  { rewrite !stringContainsCTLByte_app, (query_no_CTL q Hq).
    rewrite (plain_no_CTL path Hpath),
      (plain_no_CTL host (all_bytes_impl _ _ _ segment_path_byte Hhost)).
    repeat (apply elem_of_cons in Hscheme as [->|Hscheme]; [done|]).
    by apply elem_of_nil in Hscheme. }
  unfold url_parse. rewrite Hctl.
  rewrite !append_assoc.
  assert (String.eqb (scheme +:+ "://" +:+ host +:+ "/" +:+ path +:+ "?" +:+ q) "*" = false
          ∧ getScheme (scheme +:+ "://" +:+ host +:+ "/" +:+ path +:+ "?" +:+ q)
            = Ok (scheme, "//" +:+ host +:+ "/" +:+ path +:+ "?" +:+ q)
          ∧ lower scheme = scheme ∧ String.eqb scheme "" = false) as (-> & -> & -> & Hs).
  { repeat (apply elem_of_cons in Hscheme as [->|Hscheme]; [done|]).
    by apply elem_of_nil in Hscheme. }
  assert ("//" +:+ host +:+ "/" +:+ path +:+ "?" +:+ q
          = ("//" +:+ host +:+ "/" +:+ path) +:+ String "?" q) as ->
    by (by rewrite !append_assoc).
  rewrite query_cut by (by apply plain_no_question).
  change ("//" +:+ host +:+ "/" +:+ path)
    with (String "/" (String "/" (host +:+ String "/" path))).
  rewrite has_prefix_slash, has_prefix_slash2, Hs. cbn [negb andb orb].
  destruct (split_authority host path (segment_no_slash _ Hhost)) as (-> & -> & ->).
  by rewrite plain_unescape.
Qed.

Lemma url_Parse_no_fragment x url :
  index_byte "#" x = None → url_parse x = Ok url → url_Parse x = Ok url.
Proof.
  intros Hx Hurl. unfold url_Parse. by rewrite cut_byte_none, Hurl.
Qed.

Lemma url_Parse_fragment x url f :
  index_byte "#" x = None → url_parse x = Ok url → is_Ok (unescape f) = true →
  ∃ u, url_Parse (x +:+ "#" +:+ f) = Ok u ∧ Path u = Path url.
Proof.
  intros Hx Hurl Hf. unfold url_Parse.
  change (x +:+ "#" +:+ f) with (x +:+ String "#" f).
  rewrite cut_byte_app, Hurl by done.
  destruct f as [|c f]; [by eexists|].
  destruct (unescape (String c f)); [by eexists|done].
Qed.

Lemma url_parse_scheme_host scheme host path :
  scheme ∈ ["http"; "https"; "ssh"] →
  all_bytes segment_byte host = true →
  all_bytes path_byte path = true →
  ∃ u, url_parse (scheme +:+ "://" +:+ host +:+ "/" +:+ path) = Ok u
       ∧ Path u = "/" +:+ path.
Proof.
  intros Hscheme Hhost Hpath.
  destruct (url_Parse_plain scheme host path Hscheme Hhost Hpath) as (u & Hu & HP).
  exists u. split; [|done]. revert Hu. unfold url_Parse.
  rewrite plain_cut_hash.
  - by destruct (url_parse _).
  - rewrite !all_bytes_app, Hpath, (all_bytes_impl _ _ _ segment_path_byte Hhost).
    rewrite !andb_true_r.
    repeat (apply elem_of_cons in Hscheme as [->|Hscheme]; [done|]).
    by apply elem_of_nil in Hscheme.
Qed.

Lemma plain_no_hash s : all_bytes path_byte s = true → index_byte "#" s = None.
Proof. intros H. by apply query_no_hash, (all_bytes_impl _ _ _ path_query_byte). Qed.

(** X12: a query and a fragment are ignored.  A URL
    [scheme://host/owner/repo/token/number] followed by [?] and a query, by
    [#] and a fragment, or by both, resolves to [(owner, repo, number)] as
    the URL alone does: the trailing [#issuecomment-1] of a link to a
    comment does no harm, where a trailing [/files] does. *)
Theorem NewGitHubHandler_ignores_query_and_fragment
    scheme host o r tok num n q f :
  scheme ∈ ["http"; "https"; "ssh"] →
  all_bytes host_byte host = true →
  all_bytes segment_byte o = true →
  all_bytes segment_byte r = true →
  all_bytes segment_byte tok = true →
  strconv_Atoi num = Ok n →
  all_bytes query_byte q = true →
  is_Ok (unescape f) = true →
  let base :=
    scheme +:+ "://" +:+ host +:+ "/" +:+ o +:+ "/" +:+ r +:+ "/" +:+ tok
    +:+ "/" +:+ num in
  NewGitHubHandler (base +:+ "?" +:+ q) = Ok (mkGitHubHandler o r n)
  ∧ NewGitHubHandler (base +:+ "#" +:+ f) = Ok (mkGitHubHandler o r n)
  ∧ NewGitHubHandler (base +:+ "?" +:+ q +:+ "#" +:+ f) = Ok (mkGitHubHandler o r n).
Proof.
  intros Hscheme Hhost Ho Hr Htok Hnum Hq Hf base.
  apply (all_bytes_impl _ _ _ host_segment_byte) in Hhost.
  pose proof (strconv_Atoi_segment _ _ Hnum) as Hn.
  assert (Hpath : all_bytes path_byte
                    (o +:+ "/" +:+ r +:+ "/" +:+ tok +:+ "/" +:+ num) = true).
  { rewrite !all_bytes_app.
    by rewrite (all_bytes_impl _ _ o segment_path_byte Ho),
      (all_bytes_impl _ _ r segment_path_byte Hr),
      (all_bytes_impl _ _ tok segment_path_byte Htok),
      (all_bytes_impl _ _ num segment_path_byte Hn). }
  assert (Hbase : all_bytes path_byte base = true).
  { unfold base. rewrite !all_bytes_app in *.
    rewrite (all_bytes_impl _ _ _ segment_path_byte Hhost).
    apply andb_true_iff in Hpath as [-> ->]. rewrite !andb_true_r.
    repeat (apply elem_of_cons in Hscheme as [->|Hscheme]; [done|]).
    by apply elem_of_nil in Hscheme. }
  assert (Hresolve : ∀ rawURL u,
            url_Parse rawURL = Ok u →
            Path u = "/" +:+ o +:+ "/" +:+ r +:+ "/" +:+ tok +:+ "/" +:+ num →
            NewGitHubHandler rawURL = Ok (mkGitHubHandler o r n)).
  { intros rawURL u Hu HP.
    by apply (NewGitHubHandler_of_path rawURL u o r tok num n Hu HP);
      try apply segment_no_slash. }
  pose proof (url_parse_query scheme host _ q Hscheme Hhost Hpath Hq) as Hquery.
  fold base in Hquery.
  destruct (url_parse_scheme_host scheme host _ Hscheme Hhost Hpath) as (u0 & Hu0 & HP0).
  fold base in Hu0.
  assert (Hhash : index_byte "#" (base +:+ "?" +:+ q) = None).
  { apply index_byte_app_none; [by apply plain_no_hash|].
    apply query_no_hash. change ("?" +:+ q) with (String "?" q).
    cbn [all_bytes]. by rewrite Hq. }
  split; [|split].
  - eapply Hresolve; [apply url_Parse_no_fragment; [done|exact Hquery]|done].
  - destruct (url_Parse_fragment base u0 f (plain_no_hash _ Hbase) Hu0 Hf)
      as (u & Hu & HP).
    eapply Hresolve; [exact Hu|]. by rewrite HP.
  - destruct (url_Parse_fragment (base +:+ "?" +:+ q) _ f Hhash Hquery Hf)
      as (u & Hu & HP).
    eapply Hresolve; [|exact HP]. rewrite <- Hu. f_equal.
    by rewrite !append_assoc.
Qed.

(** *** URLs without a scheme *)

Lemma host_byte_scheme c :
  host_byte c = true → is_alpha c = true ∨ is_scheme_extra c = true.
Proof. destruct c as [[] [] [] [] [] [] [] []]; cbv; auto. Qed.

Lemma host_byte_plain c :
  host_byte c = true →
  Ascii.eqb c "/" = false ∧ Ascii.eqb c ":" = false ∧ Ascii.eqb c "*" = false.
Proof. destruct c as [[] [] [] [] [] [] [] []]; cbv; auto. Qed.

Lemma getScheme_from_no_scheme first acc a b whole :
  all_bytes host_byte a = true →
  getScheme_from first acc (a +:+ String "/" b) whole = Ok ("", whole).
Proof.
  revert first acc. induction a as [|c a IH]; intros first acc; [done|].
  rewrite append_cons. cbn [all_bytes getScheme_from].
  intros [Hc Ha]%andb_true_iff.
  destruct (host_byte_scheme c Hc) as [->| ->].
  - by apply IH.
  - destruct (is_alpha c); [by apply IH|]. destruct first; [done|by apply IH].
Qed.

Lemma host_no_colon s : all_bytes host_byte s = true → index_byte ":" s = None.
Proof.
  induction s as [|c s IH]; [done|]. cbn [all_bytes index_byte].
  intros [Hc Hs]%andb_true_iff.
  destruct (host_byte_plain c Hc) as (_ & -> & _). by rewrite IH.
Qed.

Lemma has_prefix_other p c s :
  Ascii.eqb c "/" = false → has_prefix (String "/" p) (String c s) = false.
Proof.
  intros Hc. unfold has_prefix. cbn [String.prefix].
  destruct (Ascii.ascii_dec "/" c) as [<-|]; done.
Qed.

(** [url.Parse] on a path without scheme and host. *)
Lemma url_Parse_path first path :
  all_bytes host_byte first = true →
  all_bytes path_byte path = true →
  first ≠ "" ∨ has_prefix "/" path = false →
  ∃ u, url_Parse (first +:+ "/" +:+ path) = Ok u
       ∧ Path u = first +:+ "/" +:+ path.
Proof.
  intros Hfirst Hpath Hshape.
  assert (Hwhole : all_bytes path_byte (first +:+ "/" +:+ path) = true).
  { rewrite !all_bytes_app, Hpath.
    by rewrite (all_bytes_impl _ _ first
                  (λ c H, segment_path_byte c (host_segment_byte c H)) Hfirst). }
  exists (mkURL "" "" "" (first +:+ "/" +:+ path) "" ""). split; [|done].
  apply url_Parse_no_fragment; [by apply plain_no_hash|].
  unfold url_parse, getScheme. rewrite plain_no_CTL by done.
  change (first +:+ "/" +:+ path) with (first +:+ String "/" path) at 2.
  rewrite getScheme_from_no_scheme by done.
  rewrite plain_last_byte by done. cbn [andb lower].
  rewrite plain_cut_query by done.
  assert (((first +:+ "/" +:+ path) =? "*")%string = false) as ->.
  { destruct first as [|c first]; [done|]. rewrite append_cons.
    cbn [all_bytes] in Hfirst. apply andb_true_iff in Hfirst as [Hc _].
    destruct (host_byte_plain c Hc) as (_ & _ & Hstar).
    apply String.eqb_neq. intros [= -> _]. done. }
  change (("" =? "")%string) with true. cbn [negb andb orb].
  destruct first as [|c first].
  - destruct Hshape as [Hne|Hshape]; [done|].
    change ("" +:+ "/" +:+ path) with (String "/" path).
    rewrite has_prefix_slash. cbn [negb andb].
    assert (has_prefix "//" (String "/" path) = false) as ->.
    { destruct path as [|d path]; [done|].
      unfold has_prefix in *. cbn [String.prefix] in *.
      by destruct (Ascii.ascii_dec "/" "/"). }
    rewrite andb_false_r. by rewrite plain_unescape.
  - cbn [all_bytes] in Hfirst. apply andb_true_iff in Hfirst as [Hc Hfirst].
    destruct (host_byte_plain c Hc) as (Hslash & Hcolon & _).
    rewrite append_cons.
    rewrite !has_prefix_other by done.
    cbn [negb andb].
    change (String c (first +:+ "/" +:+ path))
      with (String c first +:+ String "/" path).
    rewrite cut_byte_app.
    2: { simpl. rewrite Hslash.
         by rewrite (segment_no_slash first
                       (all_bytes_impl _ _ _ host_segment_byte Hfirst)). }
    cbn [fst index_byte]. rewrite Hcolon, (host_no_colon _ Hfirst). cbn [fmap option_fmap option_map].
    by rewrite plain_unescape.
Qed.

Lemma NewGitHubHandler_of_segments rawURL u first o r tok num n :
  url_Parse rawURL = Ok u →
  Path u = first +:+ "/" +:+ o +:+ "/" +:+ r +:+ "/" +:+ tok +:+ "/" +:+ num →
  no_slash first → no_slash o → no_slash r → no_slash tok → no_slash num →
  strconv_Atoi num = Ok n →
  NewGitHubHandler rawURL = Ok (mkGitHubHandler o r n).
Proof.
  intros Hu HP Hf Ho Hr Ht Hn Hnum.
  unfold NewGitHubHandler, strings_Split. rewrite Hu, HP.
  rewrite !slash_append. rewrite !split_byte_app by done.
  rewrite (split_byte_no_sep _ _ Hn). simpl. by rewrite Hnum.
Qed.

(** X13: the scheme and the host are optional.  A URL without a scheme
    whose path is [first/owner/repo/token/number], such as
    [github.com/owner/repo/pull/1], or [/owner/repo/pull/1] where the
    first segment is empty, resolves to [(owner, repo, number)]: the first
    segment is not looked at. *)
Theorem NewGitHubHandler_without_scheme first o r tok num n :
  all_bytes host_byte first = true →
  all_bytes segment_byte o = true →
  all_bytes segment_byte r = true →
  all_bytes segment_byte tok = true →
  strconv_Atoi num = Ok n →
  first ≠ "" ∨ o ≠ "" →
  NewGitHubHandler
    (first +:+ "/" +:+ o +:+ "/" +:+ r +:+ "/" +:+ tok +:+ "/" +:+ num)
  = Ok (mkGitHubHandler o r n).
Proof.
  intros Hfirst Ho Hr Htok Hnum Hshape.
  pose proof (strconv_Atoi_segment _ _ Hnum) as Hn.
  destruct (url_Parse_path first (o +:+ "/" +:+ r +:+ "/" +:+ tok +:+ "/" +:+ num))
    as (u & Hu & HP); [done| |..].
  { rewrite !all_bytes_app.
    by rewrite (all_bytes_impl _ _ o segment_path_byte Ho),
      (all_bytes_impl _ _ r segment_path_byte Hr),
      (all_bytes_impl _ _ tok segment_path_byte Htok),
      (all_bytes_impl _ _ num segment_path_byte Hn). }
  { destruct Hshape as [?|Hne]; [by left|right].
    destruct o as [|c o]; [done|]. rewrite append_cons.
    cbn [all_bytes] in Ho. apply andb_true_iff in Ho as [Hc _].
    unfold segment_byte in Hc. apply andb_true_iff in Hc as [_ Hc].
    apply negb_true_iff in Hc. by apply has_prefix_other. }
  eapply NewGitHubHandler_of_segments; [exact Hu|exact HP|..|done];
    try by apply segment_no_slash.
  by apply segment_no_slash, (all_bytes_impl _ _ _ host_segment_byte).
Qed.

(** *** numbers written in decimal and read back *)

Lemma digit_value_pretty d :
  (d < 10)%N → digit_value (pretty_N_char d) = Some (Z.of_N d).
Proof.
  intros Hd.
  assert (d = 0 ∨ d = 1 ∨ d = 2 ∨ d = 3 ∨ d = 4 ∨ d = 5 ∨ d = 6 ∨ d = 7
          ∨ d = 8 ∨ d = 9)%N as Hcases by lia.
  repeat (destruct Hcases as [->|Hcases]; [done|]). by subst.
Qed.

Lemma pretty_N_char_digit d : ∃ v, digit_value (pretty_N_char d) = Some v.
Proof. unfold pretty_N_char. repeat case_match; by eexists. Qed.

(** The decimal digits of [x], written before [s], read back as [x]
    followed by what [s] reads as. *)
Lemma parse_digits_pretty x s :
  parse_digits 0 (pretty_N_go x s) = parse_digits (Z.of_N x) s.
Proof.
  revert s. induction (N.lt_wf_0 x) as [x _ IH]. intros s.
  destruct (decide (x = 0)%N) as [->|Hx]; [by rewrite pretty_N_go_0|].
  rewrite pretty_N_go_step by lia.
  rewrite IH by (apply N.div_lt; lia).
  cbn [parse_digits]. rewrite digit_value_pretty by (apply N.mod_lt; lia).
  f_equal. rewrite N2Z.inj_div, N2Z.inj_mod. change (Z.of_N 10) with 10.
  pose proof (Z.div_mod (Z.of_N x) 10). lia.
Qed.

Lemma ParseUint_from_pretty x s :
  Z.of_N x ≤ maxUint64 →
  ParseUint_from 0 (pretty_N_go x s) = ParseUint_from (Z.of_N x) s.
Proof.
  revert s. induction (N.lt_wf_0 x) as [x _ IH]. intros s Hmax.
  destruct (decide (x = 0)%N) as [->|Hx]; [by rewrite pretty_N_go_0|].
  rewrite pretty_N_go_step by lia.
  assert (Z.of_N (x `div` 10) = Z.of_N x `div` 10) as Hdiv.
  { by rewrite N2Z.inj_div. }
  assert (Z.of_N (x `mod` 10) = Z.of_N x `mod` 10) as Hmod.
  { by rewrite N2Z.inj_mod. }
  pose proof (Z.div_mod (Z.of_N x) 10 ltac:(done)) as Hdm.
  pose proof (Z.mod_pos_bound (Z.of_N x) 10 ltac:(done)) as Hbound.
  rewrite IH; [|apply N.div_lt; lia|rewrite Hdiv; unfold maxUint64 in *; lia].
  cbn [ParseUint_from]. rewrite digit_value_pretty by (apply N.mod_lt; lia).
  rewrite Hdiv, Hmod.
  assert ((maxUint64 `div` 10 + 1 <=? Z.of_N x `div` 10) = false) as ->.
  { apply Z.leb_gt. unfold maxUint64 in *.
    change ((2 ^ 64 - 1) `div` 10 + 1) with 1844674407370955162.
    change (2 ^ 64 - 1) with 18446744073709551615 in Hmax. lia. }
  cbv zeta.
  assert ((maxUint64 <? 10 * (Z.of_N x `div` 10) + Z.of_N x `mod` 10) = false) as ->.
  { apply Z.ltb_ge. lia. }
  f_equal. lia.
Qed.

Lemma pretty_N_go_digit x s :
  (0 < x)%N →
  ∃ d rest, pretty_N_go x s = String (pretty_N_char d) rest.
Proof.
  revert s. induction (N.lt_wf_0 x) as [x _ IH]. intros s Hx.
  rewrite pretty_N_go_step by done.
  destruct (decide (x `div` 10 = 0)%N) as [->|Hdiv].
  - rewrite pretty_N_go_0. by eexists _, _.
  - apply IH; [apply N.div_lt; lia|by apply N.neq_0_lt_0].
Qed.

Lemma pretty_positive_digit (p : positive) :
  ∃ d rest, pretty p = String (pretty_N_char d) rest
            ∧ parse_digits 0 (String (pretty_N_char d) rest) = Some (Z.pos p)
            ∧ ParseUint_from 0 (String (pretty_N_char d) rest)
              = if decide (Z.pos p ≤ maxUint64) then Ok (Z.pos p)
                else ParseUint_from 0 (String (pretty_N_char d) rest).
Proof.
  unfold pretty, pretty_positive, pretty, pretty_N.
  rewrite decide_False by done.
  destruct (pretty_N_go_digit (N.pos p) "" ltac:(done)) as (d & rest & Heq).
  exists d, rest. split; [done|]. rewrite <- Heq. split.
  - by rewrite parse_digits_pretty.
  - case_decide; [|done]. by rewrite ParseUint_from_pretty.
Qed.

Lemma digit_not_sign c v :
  digit_value c = Some v → Ascii.eqb c "-" = false ∧ Ascii.eqb c "+" = false.
Proof. destruct c as [[] [] [] [] [] [] [] []]; done. Qed.

Lemma strconv_Atoi_unsigned c s :
  Ascii.eqb c "-" = false → Ascii.eqb c "+" = false →
  strconv_Atoi (String c s)
  = match parse_digits 0 (String c s) with
    | None => Err "strconv.Atoi: invalid syntax"
    | Some n =>
        if (MinInt <=? n) && (n <=? MaxInt) then Ok n
        else Err "strconv.Atoi: value out of range"
    end.
Proof. destruct c as [[] [] [] [] [] [] [] []]; done. Qed.

Lemma strconv_ParseInt_unsigned c s :
  Ascii.eqb c "-" = false → Ascii.eqb c "+" = false →
  strconv_ParseInt (String c s)
  = match ParseUint_from 0 (String c s) with
    | Err e => Err ("strconv.ParseInt: " +:+ e)
    | Ok un =>
        if 2 ^ 63 <=? un then Err "strconv.ParseInt: value out of range"
        else Ok un
    end.
Proof. destruct c as [[] [] [] [] [] [] [] []]; done. Qed.

(** What [fmt.Sprintf("%d", n)] writes, [strconv.Atoi] reads back. *)
Lemma strconv_Atoi_pretty (n : Z) :
  MinInt ≤ n ≤ MaxInt → strconv_Atoi (pretty n) = Ok n.
Proof.
  intros [Hmin%Z.leb_le Hmax%Z.leb_le]. destruct n as [|p|p].
  - done.
  - change (pretty (Z.pos p)) with (pretty p).
    destruct (pretty_positive_digit p) as (d & rest & -> & Hparse & _).
    destruct (pretty_N_char_digit d) as [v Hv].
    destruct (digit_not_sign _ _ Hv) as [Hm Hp].
    rewrite strconv_Atoi_unsigned, Hparse by done. by rewrite Hmin, Hmax.
  - change (pretty (Z.neg p)) with (String "-" (pretty p)).
    destruct (pretty_positive_digit p) as (d & rest & -> & Hparse & _).
    unfold strconv_Atoi. rewrite Hparse. cbv zeta.
    change (- Z.pos p) with (Z.neg p). by rewrite Hmin, Hmax.
Qed.

(** What [fmt.Sprintf("%d", n)] writes for an [int64],
    [strconv.ParseInt(_, 10, 64)] reads back. *)
Lemma strconv_ParseInt_pretty (n : Z) :
  - 2 ^ 63 ≤ n < 2 ^ 63 → strconv_ParseInt (pretty n) = Ok n.
Proof.
  intros Hn. destruct n as [|p|p].
  - done.
  - change (pretty (Z.pos p)) with (pretty p).
    destruct (pretty_positive_digit p) as (d & rest & -> & _ & Hparse).
    rewrite decide_True in Hparse by (unfold maxUint64; lia).
    destruct (pretty_N_char_digit d) as [v Hv].
    destruct (digit_not_sign _ _ Hv) as [Hm Hp].
    rewrite strconv_ParseInt_unsigned, Hparse by done.
    assert ((2 ^ 63 <=? Z.pos p) = false) as -> by (apply Z.leb_gt; lia). done.
  - change (pretty (Z.neg p)) with (String "-" (pretty p)).
    destruct (pretty_positive_digit p) as (d & rest & -> & _ & Hparse).
    rewrite decide_True in Hparse by (unfold maxUint64; lia).
    unfold strconv_ParseInt. rewrite Hparse. cbv zeta. cbn [negb andb].
    assert ((2 ^ 63 <? Z.pos p) = false) as -> by (apply Z.ltb_ge; lia). done.
Qed.

(** X14: the recipe by which the tests build a handler works for any pull
    request.  When the HTML URL of a pull request is
    [https://github.com/owner/repo/pull/number], written with the login of
    its base user, the name of its base repository and its ID in decimal,
    the handler built from that URL addresses the key under which
    [AddPullRequest] stores the pull request, and the fake server answers
    with it. *)
Theorem handler_of_HTMLURL_finds_pull_request o r n gpr g :
  all_bytes segment_byte o = true →
  all_bytes segment_byte r = true →
  MinInt ≤ n ≤ MaxInt →
  github.PullRequest_GetHTMLURL gpr
  = "https://github.com/" +:+ o +:+ "/" +:+ r +:+ "/pull/" +:+ pretty n →
  github.User_GetLogin
    (github.PullRequestBranch_GetUser (github.PullRequest_GetBase gpr)) = o →
  github.Repository_GetName
    (github.PullRequestBranch_GetRepo (github.PullRequest_GetBase gpr)) = r →
  github.PullRequest_GetID gpr = n →
  NewGitHubHandler (github.PullRequest_GetHTMLURL gpr) = Ok (mkGitHubHandler o r n)
  ∧ getPullRequest (o, r, n) (AddPullRequest gpr g) = (Ok gpr, AddPullRequest gpr g).
Proof.
  intros Ho Hr Hn Hurl Hlogin Hname Hid. split.
  - rewrite Hurl.
    pose proof (strconv_Atoi_pretty n Hn) as Hnum.
    pose proof (strconv_Atoi_segment _ _ Hnum) as Hseg.
    destruct (url_Parse_plain "https" "github.com"
                (o +:+ "/" +:+ r +:+ "/" +:+ "pull" +:+ "/" +:+ pretty n))
      as (u & Hu & HP); [by right; left|done| |].
    { rewrite !all_bytes_app.
      by rewrite (all_bytes_impl _ _ o segment_path_byte Ho),
        (all_bytes_impl _ _ r segment_path_byte Hr),
        (all_bytes_impl _ _ _ segment_path_byte Hseg). }
    by apply (NewGitHubHandler_of_path _ u o r "pull" (pretty n) n Hu HP);
      try apply segment_no_slash.
  - unfold getPullRequest, AddPullRequest. cbn [fake_pr].
    by rewrite Hlogin, Hname, Hid, lookup_insert_eq.
Qed.

Lemma digit_value_nonneg c d : digit_value c = Some d → 0 ≤ d.
Proof.
  unfold digit_value. destruct (_ && _) eqn:E; [|done]. intros [= <-].
  apply andb_true_iff in E as [?%Z.leb_le _]. lia.
Qed.

Lemma ParseUint_from_nonneg s n un :
  ParseUint_from n s = Ok un → 0 ≤ n → 0 ≤ un.
Proof.
  revert n. induction s as [|c s IH]; intros n; cbn [ParseUint_from].
  { by intros [= <-]. }
  destruct (digit_value c) as [d|] eqn:Hd; [|done].
  destruct (_ <=? n); [done|]. cbv zeta. destruct (_ <? _); [done|].
  intros Hrec Hn. apply (IH _ Hrec). apply digit_value_nonneg in Hd. lia.
Qed.

(** What [strconv.ParseInt(_, 10, 64)] returns is an [int64]. *)
Lemma strconv_ParseInt_range s n :
  strconv_ParseInt s = Ok n → - 2 ^ 63 ≤ n < 2 ^ 63.
Proof.
  assert (Hbody : ∀ (neg : bool) body,
    match ParseUint_from 0 body with
    | Err e => Err ("strconv.ParseInt: " +:+ e)
    | Ok un =>
        if negb neg && (2 ^ 63 <=? un)
        then Err "strconv.ParseInt: value out of range"
        else if neg && (2 ^ 63 <? un)
        then Err "strconv.ParseInt: value out of range"
        else Ok (if neg then - un else un)
    end = Ok n → - 2 ^ 63 ≤ n < 2 ^ 63).
  { intros neg body. destruct (ParseUint_from 0 body) as [un|e] eqn:E; [|done].
    apply ParseUint_from_nonneg in E; [|done].
    destruct neg; cbn [negb andb].
    - destruct (Z.ltb_spec (2 ^ 63) un); [done|]. intros [= <-]. lia.
    - destruct (Z.leb_spec (2 ^ 63) un); [done|]. intros [= <-]. lia. }
  destruct s as [|c s]; [done|].
  destruct (Ascii.eqb_spec c "-") as [->|Hm].
  { destruct s; [done|]. apply (Hbody true). }
  destruct (Ascii.eqb_spec c "+") as [->|Hp].
  { destruct s; [done|]. apply (Hbody false). }
  rewrite strconv_ParseInt_unsigned by (by apply Ascii.eqb_neq).
  intros H. apply (Hbody false (String c s)). cbn [negb andb]. revert H.
  by destruct (ParseUint_from 0 (String c s)).
Qed.

(** X15: [prKey] recovers the key from the variables of the route as the
    client fills them in, the number being written in decimal; a request
    whose route has no number has no key; and the number of a key is
    always an [int64], read from the route by [strconv.ParseInt]. *)
Theorem prKey_of_route o r n :
  - 2 ^ 63 ≤ n < 2 ^ 63 →
  prKey {[ "owner" := o; "repo" := r; "number" := pretty n ]} = Ok (o, r, n)
  ∧ (∀ vars, vars !! "number" = None → is_Ok (prKey vars) = false)
  ∧ (∀ vars k, prKey vars = Ok k →
       k.1.1 = default "" (vars !! "owner")
       ∧ k.1.2 = default "" (vars !! "repo")
       ∧ strconv_ParseInt (default "" (vars !! "number")) = Ok k.2
       ∧ - 2 ^ 63 ≤ k.2 < 2 ^ 63).
Proof.
  intros Hn. split; [|split].
  - unfold prKey.
    rewrite (lookup_insert_ne _ "owner" "number") by done.
    rewrite (lookup_insert_ne _ "repo" "number") by done.
    rewrite lookup_singleton_eq. cbn [from_option id].
    rewrite strconv_ParseInt_pretty by done.
    rewrite lookup_insert_eq, lookup_insert_ne, lookup_insert_eq by done. done.
  - intros vars Hvars. unfold prKey. by rewrite Hvars.
  - intros vars k. unfold prKey.
    destruct (strconv_ParseInt _) as [pr|e] eqn:E; [|done]. intros [= <-].
    cbn [fst snd]. apply strconv_ParseInt_range in E. done.
Qed.

(** ** The fake server *)

(** The comments of [k] after the requests [cs] to create a comment: each
    new comment is numbered one more than the comments the pull request
    has by then. *)
Lemma createComment_foldl k cs g :
  let old := default [] (fake_comments g !! k) in
  let g' := foldl (λ g c, (createComment k c g).2) g cs in
  default [] (fake_comments g' !! k)
  = old ++ imap (λ i c, github.mkIssueComment
                          (Some (Z.of_nat (length old + i) + 1))
                          (github.IssueComment_Body c)
                          (github.IssueComment_User c)) cs
  ∧ fake_pr g' = fake_pr g
  ∧ ∀ k', k' ≠ k → fake_comments g' !! k' = fake_comments g !! k'.
Proof.
  revert g. induction cs as [|c cs IH]; intros g old g'.
  { subst old g'. cbn [foldl imap]. by rewrite app_nil_r. }
  subst g'. cbn [foldl].
  destruct (IH (createComment k c g).2) as (Hk & Hpr & Hother).
  split; [|split].
  - rewrite Hk. unfold createComment. cbn [snd fake_comments].
    rewrite lookup_insert_eq. cbn [from_option id]. fold old.
    rewrite <- app_assoc. f_equal. rewrite imap_cons. cbn [app]. f_equal.
    + by rewrite Nat.add_0_r.
    + apply imap_ext. intros i x _. cbn [compose].
      rewrite length_app. cbn [length]. do 3 f_equal. lia.
  - by rewrite Hpr.
  - intros k' Hk'. rewrite Hother by done. unfold createComment.
    cbn [snd fake_comments]. by rewrite lookup_insert_ne.
Qed.

(** X16: on the fake server, the ID of a created comment is one more than
    the number of comments the pull request has, and the comment is put
    after them; the pull requests and the comments of the other pull
    requests stay as they are.  The comments of a pull request that only
    ever got comments by creation are therefore numbered 1, 2, 3, ..., and
    their IDs are pairwise distinct. *)
Theorem createComment_numbers_comments k cs g :
  let old := default [] (fake_comments g !! k) in
  let g' := foldl (λ g c, (createComment k c g).2) g cs in
  (getComments k g').1
  = Ok (old ++ imap (λ i c, github.mkIssueComment
                              (Some (Z.of_nat (length old + i) + 1))
                              (github.IssueComment_Body c)
                              (github.IssueComment_User c)) cs)
  ∧ fake_pr g' = fake_pr g
  ∧ (∀ k', k' ≠ k → (getComments k' g').1 = (getComments k' g).1)
  ∧ (old = [] →
     ∀ l, (getComments k g').1 = Ok l →
          github.IssueComment_GetID <$> l
          = (λ i, Z.of_nat i + 1) <$> seq 0 (length cs)
          ∧ NoDup (github.IssueComment_GetID <$> l)).
Proof.
  intros old g'. destruct (createComment_foldl k cs g) as (Hk & Hpr & Hother).
  fold old g' in Hk, Hpr, Hother.
  unfold getComments. cbn [fst]. rewrite Hk.
  split; [done|]. split; [done|]. split.
  { intros k' Hk'. by rewrite Hother. }
  intros Hold l [= <-]. rewrite Hold. cbn [app length Nat.add].
  rewrite fmap_imap.
  assert (imap (λ n, github.IssueComment_GetID
                       ∘ (λ c, github.mkIssueComment (Some (Z.of_nat n + 1))
                                 (github.IssueComment_Body c)
                                 (github.IssueComment_User c))) cs
          = (λ i, Z.of_nat i + 1) <$> seq 0 (length cs)) as ->.
  { by rewrite <- imap_seq_0. }
  split; [done|]. apply NoDup_fmap_2; [|apply NoDup_seq].
  intros i j Hij. lia.
Qed.

Lemma getPullRequest_fst k g :
  (getPullRequest k g).1
  = match fake_pr g !! k with
    | Some pr => Ok pr
    | None => Err "404 Not Found"
    end.
Proof. unfold getPullRequest. by destruct (fake_pr g !! k). Qed.

(** X17: the fake server serves what it was given.  A pull request added
    by [AddPullRequest] is served under the login of its base user, the
    name of its base repository and its ID; a comment added by [AddComment]
    is listed after the comments the pull request had, with the ID it came
    with, whether or not the server has the pull request; neither touches
    what is stored under another key, and the two GET routes leave the
    server as it is. *)
Theorem fake_server_serves_what_was_added gpr o r n c g :
  let k := (github.User_GetLogin
              (github.PullRequestBranch_GetUser (github.PullRequest_GetBase gpr)),
            github.Repository_GetName
              (github.PullRequestBranch_GetRepo (github.PullRequest_GetBase gpr)),
            github.PullRequest_GetID gpr) in
  (getPullRequest k (AddPullRequest gpr g)).1 = Ok gpr
  ∧ (∀ k', k' ≠ k →
       (getPullRequest k' (AddPullRequest gpr g)).1 = (getPullRequest k' g).1)
  ∧ (∀ k', (getComments k' (AddPullRequest gpr g)).1 = (getComments k' g).1)
  ∧ (getComments (o, r, n) (AddComment o r n c g)).1
    = Ok (default [] (fake_comments g !! (o, r, n)) ++ [c])
  ∧ (∀ k', k' ≠ (o, r, n) →
       (getComments k' (AddComment o r n c g)).1 = (getComments k' g).1)
  ∧ (∀ k', (getPullRequest k' (AddComment o r n c g)).1 = (getPullRequest k' g).1)
  ∧ (∀ k' g0, (getPullRequest k' g0).2 = g0 ∧ (getComments k' g0).2 = g0).
Proof.
  intros k. rewrite !getPullRequest_fst.
  unfold getComments, AddPullRequest, AddComment.
  cbn [fake_pr fake_comments fst snd]. fold k.
  split; [by rewrite lookup_insert_eq|].
  split.
  { intros k' Hk'. rewrite !getPullRequest_fst. cbn [fake_pr].
    rewrite lookup_insert_ne by (intros E; by apply Hk'). done. }
  split; [done|].
  split.
  { rewrite lookup_insert_eq. cbn [from_option id].
    by destruct (fake_comments g !! _). }
  split; [intros k' Hk'; by rewrite lookup_insert_ne by (intros E; by apply Hk')|].
  split; [intros k'; by rewrite !getPullRequest_fst|].
  intros k' g0. unfold getPullRequest. by destruct (fake_pr g0 !! k').
Qed.

(** [Download] from the fake server, when it has the pull request and the
    number of the handler is not 0. *)
Lemma Download_fake_known h dir (w : World FakeGitHub) gpr :
  fake_pr (remote w) !! (owner h, repo h, prNum h) = Some gpr →
  prNum h ≠ 0 →
  let ic := default [] (fake_comments (remote w) !! (owner h, repo h, prNum h)) in
  Download fake_client h dir w
  = (Ok tt,
     mkWorld (remote w)
       (<[filepath_Join dir prFile := DocPullRequest (Download_record dir gpr ic)]>
          (write_comments (filepath_Join (filepath_Join dir "github") "comments") ic
             (<[filepath_Join (filepath_Join dir "github") "pr.json"
                  := DocGitHubPullRequest gpr]> (files w)))),
     [EvPullRequestsGet (owner h) (repo h) (prNum h) (Ok gpr);
      EvListComments (owner h) (repo h) (prNum h) (Ok ic)]).
Proof.
  intros Hpr Hn%Z.eqb_neq ic.
  unfold Download, bind, os_MkdirAll, ret, PullRequests_Get, Issues_ListComments,
    writeJSON.
  cbn [fake_client client_PullRequests_Get client_Issues_ListComments remote files].
  rewrite Hn.
  unfold getPullRequest, getComments. subst ic. unfold key in *.
  rewrite Hpr. cbn [remote files].
  unfold make. rewrite Download_comments_run. cbn [remote files app].
  rewrite Download_labels_eq. reflexivity.
Qed.

(** [Download] from the fake server, when it has the pull request and the
    number of the handler is 0: the listing of the comments is refused. *)
Lemma Download_fake_zero h dir (w : World FakeGitHub) gpr :
  fake_pr (remote w) !! (owner h, repo h, prNum h) = Some gpr →
  prNum h = 0 →
  Download fake_client h dir w
  = (Err "404 Not Found",
     mkWorld (remote w)
       (<[filepath_Join (filepath_Join dir "github") "pr.json"
            := DocGitHubPullRequest gpr]> (files w)),
     [EvPullRequestsGet (owner h) (repo h) (prNum h) (Ok gpr);
      EvListComments (owner h) (repo h) (prNum h) (Err "404 Not Found")]).
Proof.
  intros Hpr Hz%Z.eqb_eq.
  unfold Download, bind, os_MkdirAll, ret, PullRequests_Get, Issues_ListComments,
    writeJSON.
  cbn [fake_client client_PullRequests_Get client_Issues_ListComments remote files].
  unfold getPullRequest. unfold key in *. rewrite Hpr. cbn [remote files].
  rewrite Hz. reflexivity.
Qed.

(** [Download] from the fake server, when it lacks the pull request. *)
Lemma Download_fake_unknown h dir (w : World FakeGitHub) :
  fake_pr (remote w) !! (owner h, repo h, prNum h) = None →
  Download fake_client h dir w
  = (Err "404 Not Found", w,
     [EvPullRequestsGet (owner h) (repo h) (prNum h) (Err "404 Not Found")]).
Proof.
  intros Hpr. unfold Download, bind, os_MkdirAll, ret, PullRequests_Get.
  cbn [fake_client client_PullRequests_Get remote files].
  unfold getPullRequest. unfold key in *. rewrite Hpr. by destruct w.
Qed.

(** X19: [Download] from the fake server, for a handler with plain owner
    and repository names.  It never changes the server.  It succeeds
    exactly when the server has the pull request under the owner, the
    repository and the number of the handler and that number is not 0; the
    record it then writes is made from that pull request and from the
    comments listed under the same key, none when there is no such list.
    Without the pull request it fails at its first call and writes nothing;
    with it and the number 0 it fails at the listing of the comments. *)
Theorem Download_from_fake_server h dir (w : World FakeGitHub) :
  plain_names h →
  let k := (owner h, repo h, prNum h) in
  let run := Download fake_client h dir w in
  remote run.1.2 = remote w
  ∧ (is_Ok run.1.1 = true ↔ is_Some (fake_pr (remote w) !! k) ∧ prNum h ≠ 0)
  ∧ (∀ gpr, fake_pr (remote w) !! k = Some gpr → prNum h ≠ 0 →
       run.1.1 = Ok tt
       ∧ files run.1.2 !! filepath_Join dir prFile
         = Some (DocPullRequest
                   (Download_record dir gpr
                      (default [] (fake_comments (remote w) !! k)))))
  ∧ (fake_pr (remote w) !! k = None →
       files run.1.2 = files w
       ∧ ∃ e, run.2 = [EvPullRequestsGet (owner h) (repo h) (prNum h) (Err e)])
  ∧ (∀ gpr, fake_pr (remote w) !! k = Some gpr → prNum h = 0 →
       ∃ e, run.2 = [EvPullRequestsGet (owner h) (repo h) (prNum h) (Ok gpr);
                     EvListComments (owner h) (repo h) (prNum h) (Err e)]).
Proof.
  intros _ k run. subst run.
  destruct (fake_pr (remote w) !! k) as [gpr|] eqn:Hpr.
  - destruct (decide (prNum h = 0)) as [Hz|Hn].
    + rewrite (Download_fake_zero h dir w gpr Hpr Hz). cbn [fst snd remote files].
      split; [done|]. split; [split; [done|by intros [_ ?]]|].
      split; [by intros|]. split; [done|].
      intros ? [= <-] _. by eexists.
    + rewrite (Download_fake_known h dir w gpr Hpr Hn). cbn [fst snd remote files].
      split; [done|]. split; [split; [by eauto|done]|].
      split; [|split; [done|by intros]].
      intros ? [= <-] _. split; [done|]. apply lookup_insert_eq.
  - rewrite (Download_fake_unknown h dir w Hpr). cbn [fst snd].
    split; [done|]. split; [split; [done|by intros [[? [=]] _]]|].
    split; [done|]. split; [|done].
    intros _. split; [done|]. by eexists.
Qed.







(** **** what the fake server lets [Upload] do *)

(** The fake server has no route to delete or edit a comment: the loop
    over the listed comments gets through only if it has nothing to do,
    every listed comment being among the desired ones with the text it
    has, and no ID being listed twice. *)
Lemma Upload_existing_fake h existing desired (w w' : World FakeGitHub) m evs :
  Upload_existing fake_client h existing desired w = (Ok m, w', evs) →
  NoDup (github.IssueComment_GetID <$> existing)
  ∧ ∀ ec, ec ∈ existing →
      ∃ dc, desired !! github.IssueComment_GetID ec = Some dc
            ∧ Comment_Text dc = github.IssueComment_GetBody ec.
Proof.
  revert desired w evs. induction existing as [|ec rest IH]; intros desired w evs.
  { intros _. split; [constructor|]. by intros ec ?%elem_of_nil. }
  cbn [Upload_existing]. intros Hrun.
  apply bind_run in Hrun
    as [(e & _ & [=])|([] & w1 & evs1 & evs2 & Hhead & Hrun & ->)].
  destruct (desired !! github.IssueComment_GetID ec) as [dc|] eqn:Hlook;
    [|discriminate Hhead].
  destruct (negb (Comment_Text dc =? github.IssueComment_GetBody ec)%string)
    eqn:Htext; [discriminate Hhead|].
  apply negb_false_iff, String.eqb_eq in Htext.
  destruct (IH _ _ _ Hrun) as [Hnd Hall].
  assert (github.IssueComment_GetID ec ∉ github.IssueComment_GetID <$> rest) as Hfresh.
  { intros (ec' & Hid & Hec')%list_elem_of_fmap.
    destruct (Hall ec' Hec') as (dc' & Hdc' & _).
    rewrite <- Hid, lookup_delete_eq in Hdc'. discriminate. }
  split; [rewrite fmap_cons; by constructor|].
  intros ec0 [->|Hin]%elem_of_cons; [by exists dc|].
  destruct (Hall ec0 Hin) as (dc0 & Hdc0 & Htext0).
  exists dc0. split; [|done]. by apply lookup_delete_Some in Hdc0 as [_ ?].
Qed.

(** The route that creates a comment never refuses. *)
Lemma Upload_create_fake h desired (w : World FakeGitHub) :
  (Upload_create fake_client h desired w).1.1 = Ok tt.
Proof.
  revert w. induction desired as [|[k dc] rest IH]; intros w; [done|].
  cbn [Upload_create]. unfold bind, Issues_CreateComment.
  cbn [fake_client client_Issues_CreateComment]. unfold createComment.
  match goal with
  | |- context [Upload_create fake_client h rest ?w1] =>
      specialize (IH w1);
      destruct (Upload_create fake_client h rest w1) as [[r w2] evs2]
  end.
  exact IH.
Qed.

(** [Upload] to the fake server, step by step. *)
Lemma Upload_fake_run range_map h dir (w : World FakeGitHub) pr :
  files w !! filepath_Join dir prFile = Some (DocPullRequest pr) →
  let k : key := (owner h, repo h, prNum h) in
  let names := Label_Text <$> elems (PullRequest_Labels pr) in
  let existing := default [] (fake_comments (remote w) !! k) in
  (fake_pr (remote w) !! k = None →
   is_Ok (Upload fake_client range_map h dir w).1.1 = false)
  ∧ (prNum h = 0 →
     is_Ok (Upload fake_client range_map h dir w).1.1 = false)
  ∧ (is_Some (fake_pr (remote w) !! k) → prNum h ≠ 0 →
     ∃ w2,
       (Upload fake_client range_map h dir w).1.1
       = match Upload_existing fake_client h existing (Upload_desiredComments pr) w2 with
         | (Err e, _, _) => Err e
         | (Ok m, w3, _) => (Upload_create fake_client h (range_map m) w3).1.1
         end).
Proof.
  intros Hfile k names existing. unfold Upload.
  rewrite (readJSON_bind _ _ _ _ Hfile), Upload_labelNames_elems. fold names.
  split; [|split].
  - intros Hpr. unfold bind at 1. unfold Issues_ReplaceLabelsForIssue.
    cbn [fake_client client_Issues_ReplaceLabelsForIssue]. fold k.
    unfold updateLabels. by rewrite Hpr.
  - intros Hz%Z.eqb_eq. unfold bind at 1. unfold Issues_ReplaceLabelsForIssue.
    cbn [fake_client client_Issues_ReplaceLabelsForIssue]. fold k.
    destruct (updateLabels k names (remote w)) as [[[]|e] g1]; [|done].
    unfold bind at 1. unfold Issues_ListComments.
    cbn [fake_client client_Issues_ListComments remote files].
    rewrite Hz. done.
  - intros [gpr Hpr] Hn%Z.eqb_neq. unfold bind at 1.
    unfold Issues_ReplaceLabelsForIssue.
    cbn [fake_client client_Issues_ReplaceLabelsForIssue]. fold k.
    destruct (updateLabels_overwrites k names _ _ Hpr) as (gpr' & -> & _).
    unfold bind at 1. unfold Issues_ListComments.
    cbn [fake_client client_Issues_ListComments remote files]. rewrite Hn.
    cbn [getComments fake_comments]. fold k. fold existing.
    exists (mkWorld (mkFakeGitHub (<[k:=gpr']> (fake_pr (remote w)))
                       (fake_comments (remote w))) (files w)).
    unfold bind at 1.
    destruct (Upload_existing fake_client h existing (Upload_desiredComments pr) _)
      as [[[m|e] w3] evs3]; [|reflexivity].
    by destruct (Upload_create fake_client h (range_map m) w3) as [[r w4] evs4].
Qed.

(** X22: what the fake server lets [Upload] do, for a handler with plain
    owner and repository names.  The server of the tests has no route to
    delete or edit a comment, and none for the listing that is asked for
    the number 0, so [Upload] to it succeeds exactly when the number of
    the handler is not 0, the server has the pull request, and nothing is
    to be deleted or edited: the IDs of its comments are pairwise distinct
    and, for each of its comments, the comment the record holds under its
    ID has the text it has. *)
Theorem Upload_to_fake_server_succeeds_iff range_map h dir
    (w : World FakeGitHub) pr :
  files w !! filepath_Join dir prFile = Some (DocPullRequest pr) →
  plain_names h →
  let k : key := (owner h, repo h, prNum h) in
  let existing := default [] (fake_comments (remote w) !! k) in
  is_Ok (Upload fake_client range_map h dir w).1.1 = true
  ↔ prNum h ≠ 0
    ∧ is_Some (fake_pr (remote w) !! k)
    ∧ NoDup (github.IssueComment_GetID <$> existing)
    ∧ ∀ ec, ec ∈ existing →
        ∃ dc, record_comment pr (github.IssueComment_GetID ec) = Some dc
              ∧ Comment_Text dc = github.IssueComment_GetBody ec.
Proof.
  intros Hfile _ k existing.
  setoid_rewrite <- desiredComments_record_comment.
  destruct (Upload_fake_run range_map h dir w pr Hfile) as (Hnone & Hzero & Hsome).
  fold k existing in Hnone, Hzero, Hsome.
  destruct (decide (prNum h = 0)) as [Hz|Hn].
  { rewrite Hzero by done. split; [done|]. by intros [? _]. }
  destruct (fake_pr (remote w) !! k) as [gpr|] eqn:Hpr.
  2: { rewrite Hnone by done. split; [done|]. by intros (_ & [? [=]] & _). }
  destruct Hsome as (w2 & ->); [by eexists|done|].
  split.
  - destruct (Upload_existing fake_client h existing (Upload_desiredComments pr) w2)
      as [[[m|e] w3] evs3] eqn:Hrun; [|done].
    intros _. split; [done|]. split; [by eexists|]. by eapply Upload_existing_fake.
  - intros (_ & _ & Hnd & Hall).
    rewrite (Upload_existing_in_sync fake_client h existing _ w2 Hnd Hall).
    by rewrite Upload_create_fake.
Qed.

(** X20: of the comments of the record that share an ID, [Upload] keeps
    the last: [desiredComments] holds, under each ID, the last comment of
    the record with that ID, and nothing under an ID no comment has.  The
    earlier comments with the same ID are dropped before any call is
    made. *)
Theorem Upload_desiredComments_last_wins pr id :
  Upload_desiredComments pr !! id
  = last (List.filter (λ c, bool_decide (Comment_ID c = id))
            (elems (PullRequest_Comments pr))).
Proof.
  unfold Upload_desiredComments.
  induction (elems (PullRequest_Comments pr)) as [|c l IH] using rev_ind; [done|].
  rewrite foldl_app, List.filter_app. cbn [foldl List.filter].
  destruct (decide (Comment_ID c = id)) as [Heq|Hne].
  - rewrite bool_decide_eq_true_2 by done. rewrite last_snoc.
    by rewrite Heq, lookup_insert_eq.
  - rewrite bool_decide_eq_false_2 by done. rewrite app_nil_r.
    by rewrite lookup_insert_ne.
Qed.

(** ** Instances on the fixtures of the tests *)

Lemma Download_failure_keeps_record_witness :
  (fixture.download down_client tt).1.1 = Err "503 Service Unavailable"
  ∧ files (fixture.download down_client tt).1.2 !! "/tmp/pr.json" = None.
Proof.
  destruct (Download_failure_keeps_record down_client fixture.h fixture.dir
              (mkWorld tt ∅) _ _ _
              (EvPullRequestsGet "foo" "bar" 1 (Err "503 Service Unavailable"))
              "503 Service Unavailable" (run_eta _))
    as (Hres & Hrecord & _).
  - in_list.
  - reflexivity.
  - split; [exact Hres|exact Hrecord].
Defined.

Lemma Download_never_removes_files_witness :
  is_Some
    (files (Download fake_client fixture.h fixture.dir
              (mkWorld fixture.gh
                 {[ "/tmp/github/comments/7.json"
                      := DocGitHubIssueComment fixture.comment2 ]})).1.2
       !! "/tmp/github/comments/7.json").
Proof.
  refine (proj1 (Download_never_removes_files fake_client fixture.h fixture.dir
                   (mkWorld fixture.gh
                      {[ "/tmp/github/comments/7.json"
                           := DocGitHubIssueComment fixture.comment2 ]})
                   _ _ _ (run_eta _)) "/tmp/github/comments/7.json" _).
  by eexists.
Defined.

Lemma Download_twice_same_files_witness :
  files (Download fake_client fixture.h fixture.dir
           (fixture.download fake_client fixture.gh).1.2).1.2
  = files (fixture.download fake_client fixture.gh).1.2.
Proof.
  refine (Download_twice_same_files fake_client fixture.h fixture.dir
            (mkWorld fixture.gh ∅)
            (fixture.download fake_client fixture.gh).1.2
            (fixture.download fake_client fixture.gh).1.2
            _ (fixture.download fake_client fixture.gh).2 _ eq_refl _);
    compute_done.
Defined.

Lemma Upload_calls_come_from_record_witness :
  ∃ dc existing,
    dc ∈ elems (PullRequest_Comments fixture.tektonPR)
    ∧ In (EvListComments "foo" "bar" 1 (Ok existing))
         (fixture.upload fake_client fixture.tektonPR fixture.gh).2
    ∧ (Comment_ID dc ∉ github.IssueComment_GetID <$> existing)
    ∧ github.mkIssueComment None (Some "abc123") None
      = github.mkIssueComment None (Some (Comment_Text dc)) None.
Proof.
  refine (proj1 (proj2 (Upload_calls_come_from_record fake_client map_to_list
                          (λ m, reflexivity _) fixture.h fixture.dir
                          (fixture.world_with fixture.tektonPR fixture.gh)
                          _ _ _ fixture.tektonPR _ (run_eta _)))
            "foo" "bar" 1 _ (Ok tt) _).
  - compute_done.
  - in_list.
Defined.

Lemma Upload_creates_one_per_new_ID_witness :
  length (List.filter is_Create
            (fixture.upload fake_client fixture.twoNewPR fixture.gh).2)
  = size (list_to_set [1; 0; 0] ∖ list_to_set [1] : gset Z).
Proof.
  refine (Upload_creates_one_per_new_ID fake_client map_to_list
            (λ m, reflexivity _) fixture.h fixture.dir
            (fixture.world_with fixture.twoNewPR fixture.gh)
            _ _ fixture.twoNewPR [fixture.comment] _ (run_eta _) _).
  - compute_done.
  - in_list.
Defined.

Lemma Upload_without_record_witness :
  Upload fake_client map_to_list fixture.h fixture.dir (mkWorld fixture.gh ∅)
  = (Err "open /tmp/pr.json: no such file or directory", mkWorld fixture.gh ∅, []).
Proof.
  exact (proj1 (Upload_without_record fake_client map_to_list fixture.h
                  fixture.dir (mkWorld fixture.gh ∅)) eq_refl).
Defined.

Lemma calls_address_the_handler_witness :
  Forall (addresses fixture.h)
    (fixture.upload fake_client fixture.tektonPR fixture.gh).2.
Proof.
  exact (calls_address_the_handler fake_client map_to_list fixture.h fixture.dir
           (fixture.world_with fixture.tektonPR fixture.gh) _ _ _
           (or_intror (run_eta _))).
Defined.

Lemma main_touches_one_side_witness :
  (main fake_client map_to_list "https://github.com/foo/bar/pull/1" "/tmp" "sync"
     (mkWorld fixture.gh ∅)).2 = []
  ∧ (main fake_client map_to_list "https://github.com/foo/bar/pull/1" "/tmp" "sync"
       (mkWorld fixture.gh ∅)).1.2 = mkWorld fixture.gh ∅.
Proof.
  destruct (main_touches_one_side fake_client map_to_list
              "https://github.com/foo/bar/pull/1" "/tmp" "sync"
              (mkWorld fixture.gh ∅) _ _ _ (run_eta _))
    as (_ & _ & Hnothing & _).
  destruct Hnothing as (Hevs & Hw & _); [discriminate..|].
  split; [exact Hevs|exact Hw].
Defined.

Lemma main_surfaces_every_error_witness :
  (main down_client map_to_list "https://github.com/foo/bar/pull/1" "/tmp"
     "download" (mkWorld tt ∅)).1.1 = Err "503 Service Unavailable".
Proof.
  refine (proj2 (proj1 (main_surfaces_every_error down_client map_to_list
                          "https://github.com/foo/bar/pull/1" "/tmp" "download"
                          (mkWorld tt ∅) _ _ _ (run_eta _))
                   [] (EvPullRequestsGet "foo" "bar" 1 (Err "503 Service Unavailable"))
                   [] "503 Service Unavailable" _ eq_refl)).
  compute_done.
Defined.

Lemma NewGitHubHandler_resolves_five_segments_witness :
  ∃ u first tok num,
    url_Parse "https://github.com/foo/bar/pull/1" = Ok u
    ∧ Path u = join_path [first; "foo"; "bar"; tok; num]
    ∧ no_slash first ∧ no_slash "foo" ∧ no_slash "bar"
    ∧ no_slash tok ∧ no_slash num
    ∧ strconv_Atoi num = Ok 1
    ∧ MinInt ≤ 1 ≤ MaxInt.
Proof.
  exact (NewGitHubHandler_resolves_five_segments
           "https://github.com/foo/bar/pull/1" fixture.h eq_refl).
Defined.

Lemma NewGitHubHandler_ignores_query_and_fragment_witness :
  NewGitHubHandler "https://github.com/foo/bar/pull/1?w=1"
  = Ok (mkGitHubHandler "foo" "bar" 1)
  ∧ NewGitHubHandler "https://github.com/foo/bar/pull/1#issuecomment-1"
    = Ok (mkGitHubHandler "foo" "bar" 1)
  ∧ NewGitHubHandler "https://github.com/foo/bar/pull/1?w=1#issuecomment-1"
    = Ok (mkGitHubHandler "foo" "bar" 1).
Proof.
  exact (NewGitHubHandler_ignores_query_and_fragment "https" "github.com" "foo"
           "bar" "pull" "1" 1 "w=1" "issuecomment-1"
           ltac:(compute_done) eq_refl eq_refl eq_refl eq_refl eq_refl eq_refl
           eq_refl).
Defined.

Lemma NewGitHubHandler_without_scheme_witness :
  NewGitHubHandler "github.com/foo/bar/pull/1" = Ok (mkGitHubHandler "foo" "bar" 1).
Proof.
  change (NewGitHubHandler
            ("github.com" +:+ "/" +:+ "foo" +:+ "/" +:+ "bar" +:+ "/" +:+ "pull"
             +:+ "/" +:+ "1")
          = Ok (mkGitHubHandler "foo" "bar" 1)).
  apply (NewGitHubHandler_without_scheme "github.com" "foo" "bar" "pull" "1" 1).
  - exact eq_refl.
  - exact eq_refl.
  - exact eq_refl.
  - exact eq_refl.
  - exact eq_refl.
  - left. discriminate.
Defined.

Lemma handler_of_HTMLURL_finds_pull_request_witness :
  NewGitHubHandler (github.PullRequest_GetHTMLURL fixture.pr) = Ok fixture.h
  ∧ getPullRequest ("foo", "bar", 1) (AddPullRequest fixture.pr NewFakeGitHub)
    = (Ok fixture.pr, AddPullRequest fixture.pr NewFakeGitHub).
Proof.
  exact (handler_of_HTMLURL_finds_pull_request "foo" "bar" 1 fixture.pr
           NewFakeGitHub eq_refl eq_refl ltac:(compute_done) eq_refl eq_refl
           eq_refl eq_refl).
Defined.

Lemma prKey_of_route_witness :
  prKey {[ "owner" := "foo"; "repo" := "bar"; "number" := "1" ]}
  = Ok ("foo", "bar", 1).
Proof.
  exact (proj1 (prKey_of_route "foo" "bar" 1 ltac:(compute_done))).
Defined.


Lemma Upload_to_fake_server_succeeds_iff_witness :
  is_Ok (fixture.upload fake_client fixture.tektonPR fixture.gh).1.1 = true
  ∧ is_Ok (fixture.upload fake_client fixture.removedPR fixture.gh2).1.1 = false.
Proof.
  assert (Hnames : plain_names fixture.h).
  { repeat split; [discriminate|discriminate]. }
  split.
  - apply (proj2 (Upload_to_fake_server_succeeds_iff map_to_list fixture.h
                    fixture.dir (fixture.world_with fixture.tektonPR fixture.gh)
                    fixture.tektonPR eq_refl Hnames)).
    split; [discriminate|]. split; [by eexists|]. split.
    + repeat constructor. apply not_elem_of_nil.
    + intros ec Hin. apply list_elem_of_singleton in Hin as ->.
      exists (mkComment "hello world!" "" 1 ""). by split.
  - apply not_true_is_false. intros Hok.
    apply (proj1 (Upload_to_fake_server_succeeds_iff map_to_list fixture.h
                    fixture.dir (fixture.world_with fixture.removedPR fixture.gh2)
                    fixture.removedPR eq_refl Hnames)) in Hok
      as (_ & _ & _ & Hall).
    destruct (Hall fixture.comment2) as (dc & Hdc & _).
    + apply list_elem_of_In. right. left. reflexivity.
    + discriminate Hdc.
Defined.

Lemma Download_from_fake_server_witness :
  (fixture.download fake_client fixture.gh).1.1 = Ok tt
  ∧ files (fixture.download fake_client fixture.gh).1.2 !! "/tmp/pr.json"
    = Some (DocPullRequest (Download_record "/tmp" fixture.pr [fixture.comment])).
Proof.
  assert (Hnames : plain_names fixture.h).
  { repeat split; [discriminate|discriminate]. }
  destruct (Download_from_fake_server fixture.h fixture.dir
              (mkWorld fixture.gh ∅) Hnames) as (_ & _ & Hknown & _).
  apply (Hknown fixture.pr); [reflexivity|discriminate].
Defined.
